(** * The MPC astrometric-observation codec of [getImages/ossos_scripts/mpc.py]

    A shallow embedding of the record codec (NullObservation, TNOdbFlags,
    MPCNote, Discovery, the comment variants, Observation, MPCWriter and
    Index) together with the properties of the specification that concern
    them.

    Conventions of the embedding:
    - a Python call that may raise returns a [result]; the exception class
      is kept because the dispatchers only catch [ValueError];
    - a Python dict is a [gmap];
    - Python floats are exact rationals [Q]; the builtin [float()], the
      [format] of a float and the astropy objects (Time, ICRS coordinates)
      are not code of this module and are taken as an [Externals] record;
    - Julian days, which the writer only compares and sorts, are integers
      in a fixed sub-day unit. *)

From Stdlib Require Import ZArith QArith String Ascii List Bool Lia.
From stdpp Require Import gmap strings list fin_maps sorting.
Import ListNotations.

(** ** Python runtime: exceptions, values and the string methods in use *)

Module Py.

Inductive exn : Type :=
| ValueError
| IndexError
| TypeError
| KeyError
| StructError
| MPCFieldFormatError (field : string).

Inductive result (A : Type) : Type :=
| Ok (a : A)
| Raise (e : exn).

Arguments Ok {A} a.
Arguments Raise {A} e.

Definition bind {A B : Type} (m : result A) (k : A -> result B) : result B :=
  match m with
  | Ok a => k a
  | Raise e => Raise e
  end.

(** [try: m  except Exception: h] *)
Definition try_except {A : Type} (m : result A) (h : exn -> result A) : result A :=
  match m with
  | Ok a => Ok a
  | Raise e => h e
  end.

Definition is_ValueError (e : exn) : bool :=
  match e with
  | ValueError => true
  | _ => false
  end.

(** [try: m  except ValueError: h] : every other exception propagates.
    [MPCFieldFormatError] derives from [Exception], not from [ValueError]. *)
Definition try_except_ValueError {A : Type} (m : result A) (h : result A) : result A :=
  match m with
  | Ok a => Ok a
  | Raise e => if is_ValueError e then h else Raise e
  end.

Inductive PyVal : Type :=
| PyNone
| PyBool (b : bool)
| PyInt (z : Z)
| PyFloat (q : Q)
| PyStr (s : string).

(** *** Characters *)

Definition is_space (c : ascii) : bool :=
  let n := nat_of_ascii c in
  (n =? 32)%nat || ((9 <=? n)%nat && (n <=? 13)%nat).

Definition is_digit (c : ascii) : bool :=
  let n := nat_of_ascii c in
  (48 <=? n)%nat && (n <=? 57)%nat.

Definition is_char (c : ascii) (a : ascii) : bool := Ascii.eqb a c.

Definition char_in (cs : string) (a : ascii) : bool :=
  existsb (Ascii.eqb a) (list_ascii_of_string cs).

(** *** Slices and indexing: [s[i:j]], [s[i:]], [s[i]] *)

Definition slice (i j : nat) (s : string) : string := substring i (j - i) s.

Definition slice_from (i : nat) (s : string) : string :=
  substring i (String.length s - i) s.

Definition index (s : string) (i : nat) : result ascii :=
  match String.get i s with
  | Some c => Ok c
  | None => Raise IndexError
  end.

Definition list_index {A : Type} (l : list A) (i : nat) : result A :=
  match nth_error l i with
  | Some a => Ok a
  | None => Raise IndexError
  end.

(** *** [strip], [lstrip], [split], [join], [isdigit], [in], [rfind] *)

Fixpoint lstrip_by (p : ascii -> bool) (s : string) : string :=
  match s with
  | EmptyString => EmptyString
  | String c s' => if p c then lstrip_by p s' else s
  end.

Definition rev_string (s : string) : string :=
  string_of_list_ascii (rev (list_ascii_of_string s)).

Definition rstrip_by (p : ascii -> bool) (s : string) : string :=
  rev_string (lstrip_by p (rev_string s)).

Definition strip_by (p : ascii -> bool) (s : string) : string :=
  rstrip_by p (lstrip_by p s).

Definition strip : string -> string := strip_by is_space.
Definition strip_chars (cs : string) : string -> string := strip_by (char_in cs).
Definition lstrip_chars (cs : string) : string -> string := lstrip_by (char_in cs).
Definition rstrip_chars (cs : string) : string -> string := rstrip_by (char_in cs).

Fixpoint split_by (p : ascii -> bool) (acc : list ascii) (l : list ascii) : list string :=
  match l with
  | [] => [string_of_list_ascii (rev acc)]
  | c :: l' =>
      if p c then string_of_list_ascii (rev acc) :: split_by p [] l'
      else split_by p (c :: acc) l'
  end.

(** [s.split(sep)] for a one-character separator: one more item than
    there are separators, empty items kept. *)
Definition split_on (sep : ascii) (s : string) : list string :=
  split_by (is_char sep) [] (list_ascii_of_string s).

Definition nonempty (s : string) : bool :=
  match s with
  | EmptyString => false
  | String _ _ => true
  end.

(** [s.split()]: runs of white space separate, empty items dropped. *)
Definition split (s : string) : list string :=
  filter (fun w => nonempty w = true) (split_by is_space [] (list_ascii_of_string s)).

Fixpoint join (sep : string) (l : list string) : string :=
  match l with
  | [] => EmptyString
  | [w] => w
  | w :: l' => w +:+ sep +:+ join sep l'
  end.

Definition isdigit (s : string) : bool :=
  nonempty s && forallb is_digit (list_ascii_of_string s).

Fixpoint contains (sub s : string) : bool :=
  match s with
  | EmptyString => String.prefix sub EmptyString
  | String _ s' => String.prefix sub s || contains sub s'
  end.

Fixpoint rfind_from (c : ascii) (i : nat) (last : option nat) (s : string) : option nat :=
  match s with
  | EmptyString => last
  | String a s' => rfind_from c (S i) (if Ascii.eqb a c then Some i else last) s'
  end.

Definition rfind (c : ascii) (s : string) : option nat := rfind_from c 0 None s.

Definition repeat_char (c : ascii) (n : nat) : string :=
  string_of_list_ascii (repeat c n).

(** [format(s, '<w')] / ['%-ws' % s] and [format(s, '>w')] / ['%ws' % s]:
    pad to at least [w] columns, never truncate. *)
Definition ljust (w : nat) (s : string) : string :=
  s +:+ repeat_char " " (w - String.length s).

Definition rjust (w : nat) (s : string) : string :=
  repeat_char " " (w - String.length s) +:+ s.

(** *** [int()] and the string of an int *)

Fixpoint digits_value (acc : Z) (l : list ascii) : option Z :=
  match l with
  | [] => Some acc
  | c :: l' =>
      if is_digit c
      then digits_value (10 * acc + (Z.of_nat (nat_of_ascii c) - 48)) l'
      else None
  end.

Definition unsigned_of_string (l : list ascii) : option Z :=
  match l with
  | [] => None
  | _ => digits_value 0 l
  end.

Definition int_of_string (s : string) : option Z :=
  match list_ascii_of_string (strip s) with
  | "-"%char :: l => option_map Z.opp (unsigned_of_string l)
  | "+"%char :: l => unsigned_of_string l
  | l => unsigned_of_string l
  end.

Definition digit_char (d : Z) : ascii := ascii_of_nat (48 + Z.to_nat d).

Fixpoint nat_digits (fuel : nat) (z : Z) (acc : list ascii) : list ascii :=
  match fuel with
  | O => acc
  | S fuel' =>
      let acc' := digit_char (z mod 10) :: acc in
      if (z <? 10)%Z then acc' else nat_digits fuel' (z / 10) acc'
  end.

(** [str(z)] for an int. *)
Definition str_of_Z (z : Z) : string :=
  let a := Z.abs z in
  let ds := string_of_list_ascii (nat_digits (S (Z.to_nat (Z.log2 a))) a []) in
  if (z <? 0)%Z then String "-" ds else ds.

(** [int(v)] *)
Definition int (v : PyVal) : result Z :=
  match v with
  | PyNone => Raise TypeError
  | PyBool b => Ok (if b then 1 else 0)%Z
  | PyInt z => Ok z
  | PyFloat q => Ok (Z.quot (Qnum q) (Zpos (Qden q)))
  | PyStr s =>
      match int_of_string s with
      | Some z => Ok z
      | None => Raise ValueError
      end
  end.

(** *** [struct.unpack] for formats made of [Ns] and [Nx] items *)

Inductive item : Type :=
| Chars (n : nat)
| Pad (n : nat).

Fixpoint parse_format (count : option nat) (l : list ascii) : list item :=
  match l with
  | [] => []
  | c :: l' =>
      if is_digit c then
        parse_format (Some (10 * default 0 count + (nat_of_ascii c - 48))%nat) l'
      else if Ascii.eqb c "s" then Chars (default 1%nat count) :: parse_format None l'
      else if Ascii.eqb c "x" then Pad (default 1%nat count) :: parse_format None l'
      else parse_format None l'
  end.

Definition struct_format (fmt : string) : list item :=
  parse_format None (list_ascii_of_string fmt).

Definition item_size (i : item) : nat :=
  match i with
  | Chars n => n
  | Pad n => n
  end.

Definition calcsize (fmt : list item) : nat :=
  fold_right (fun i n => (item_size i + n)%nat) 0%nat fmt.

Fixpoint unpack_at (pos : nat) (fmt : list item) (s : string) : list string :=
  match fmt with
  | [] => []
  | Chars n :: fmt' => substring pos n s :: unpack_at (pos + n) fmt' s
  | Pad n :: fmt' => unpack_at (pos + n) fmt' s
  end.

Definition unpack (fmt : string) (s : string) : result (list string) :=
  let items := struct_format fmt in
  if (String.length s =? calcsize items)%nat
  then Ok (unpack_at 0 items s)
  else Raise StructError.

End Py.

Import Py.

Notation "'do' x <- m ; k" := (Py.bind m (fun x => k))
  (at level 10, x name, m at level 100, k at level 200).
Notation "'do' ' p <- m ; k" := (Py.bind m (fun x => match x with p => k end))
  (at level 10, p pattern, m at level 100, k at level 200).

Module PyOps.

(** [a == b] between values of the builtin types: numbers compare by value
    across [bool], [int] and [float]; a [str] never equals a number. *)
Definition num_of (v : PyVal) : option Q :=
  match v with
  | PyBool b => Some (if b then 1%Q else 0%Q)
  | PyInt z => Some (inject_Z z)
  | PyFloat q => Some q
  | _ => None
  end.

Definition eq (a b : PyVal) : bool :=
  match a, b with
  | PyNone, PyNone => true
  | PyStr s, PyStr t => String.eqb s t
  | _, _ =>
      match num_of a, num_of b with
      | Some p, Some q => Qeq_bool p q
      | _, _ => false
      end
  end.

(** [v in [..]] for a list literal. *)
Definition in_list (v : PyVal) (l : list PyVal) : bool := existsb (eq v) l.

(** [bool(v)] *)
Definition truth (v : PyVal) : bool :=
  match v with
  | PyNone => false
  | PyBool b => b
  | PyInt z => negb (z =? 0)%Z
  | PyFloat q => negb (Qeq_bool q 0%Q)
  | PyStr s => nonempty s
  end.

(** [re.match] for the two patterns of the module: a sequence of
    one-character classes matched at the start of the string. *)
Inductive atom : Type :=
| Digit
| NonSpace
| Lit (c : ascii)
| OneOf (cs : string).

Definition atom_ok (a : atom) (c : ascii) : bool :=
  match a with
  | Digit => is_digit c
  | NonSpace => negb (is_space c)
  | Lit d => Ascii.eqb c d
  | OneOf cs => char_in cs c
  end.

Fixpoint re_match_list (p : list atom) (l : list ascii) : bool :=
  match p, l with
  | [], _ => true
  | _ :: _, [] => false
  | a :: p', c :: l' => atom_ok a c && re_match_list p' l'
  end.

Definition re_match (p : list atom) (s : string) : bool :=
  re_match_list p (list_ascii_of_string s).

End PyOps.

(** ** What the module takes from outside

    [float_of_string s] is [float(s)] ([None]: [ValueError]);
    [format_float p q] is ['{:.pf}'.format(q)];
    [Time_new s p] is [Time(s, format='mpc', scale='utc', precision=p)]
    ([None]: it raises); [Time_str] is [str] of such a time;
    [ICRS_degrees] and [ICRS_sexagesimal] are [ICRSCoordinates(a, b, unit=..)]
    in degrees and in hours/degrees; [ra_format c p] and [dec_format c p]
    are the two [format(.., sep=" ", precision=p, pad=True)] calls. *)

Record Time : Type := mkTime {
  jd : Z;
  mjd : Z;
  precision : nat
}.

Record Coord : Type := mkCoord {
  ra_deg : Q;
  dec_deg : Q
}.

Record Externals : Type := mkExternals {
  float_of_string : string -> option Q;
  format_float : nat -> Q -> string;
  Time_new : string -> nat -> option Time;
  Time_str : Time -> string;
  ICRS_degrees : Q -> Q -> option Coord;
  ICRS_sexagesimal : string -> string -> option Coord;
  ra_format : Coord -> nat -> string;
  dec_format : Coord -> nat -> string
}.

(** [float(v)] *)
Definition py_float (ext : Externals) (v : PyVal) : result Q :=
  match v with
  | PyNone => Raise TypeError
  | PyStr s =>
      match float_of_string ext s with
      | Some q => Ok q
      | None => Raise ValueError
      end
  | _ => match PyOps.num_of v with
         | Some q => Ok q
         | None => Raise TypeError
         end
  end.

(** ** NullObservation *)

Module NullObservation.

Definition NULL_OBSERVATION_CHARACTERS : list PyVal :=
  [PyStr "!"; PyStr "-"; PyStr "#"].

Record t : Type := mk {
  null_observation_character : string;
  _null_observation : bool
}.

Definition __init__ (null_observation : PyVal) : result t :=
  let null_observation_character := "!" in
  match null_observation with
  | PyStr s =>
      do c <- Py.index s 0;
      Ok (mk null_observation_character
             (PyOps.in_list (PyStr (String c "")) NULL_OBSERVATION_CHARACTERS))
  | PyBool b => Ok (mk null_observation_character b)
  | _ => Ok (mk null_observation_character false)
  end.

Definition __str__ (self : t) : string :=
  if _null_observation self && nonempty (null_observation_character self)
  then null_observation_character self
  else " ".

Definition __bool__ (self : t) : bool := _null_observation self.

Definition __nonzero__ (self : t) : bool := __bool__ self.

End NullObservation.

(** ** TNOdbFlags *)

Module TNOdbFlags.

Record t : Type := mk { __flags : string }.

Definition __init__ (flags : string) : result t :=
  if negb (PyOps.re_match (repeat (PyOps.OneOf "10") 12) flags)
  then Raise ValueError
  else Ok (mk flags).

Definition __str__ (self : t) : string := __flags self.

(** [return self.__flags[0] == 1] *)
Definition is_discovery (self : t) : result bool :=
  do c <- Py.index (__flags self) 0;
  Ok (PyOps.eq (PyStr (String c "")) (PyInt 1)).

(** [self.__flags[0] == bool(is_discovery) and "1" or "0"]: an expression
    statement whose value is dropped. *)
Definition is_discovery_setter (is_discovery : PyVal) (self : t) : result t :=
  do c <- Py.index (__flags self) 0;
  let _unused :=
    if PyOps.eq (PyStr (String c "")) (PyBool (PyOps.truth is_discovery))
    then "1" else "0" in
  Ok self.

Definition is_secret (self : t) : result bool :=
  do c <- Py.index (__flags self) 1;
  Ok (PyOps.eq (PyStr (String c "")) (PyInt 1)).

End TNOdbFlags.

(** ** MPCNote *)

Module MPCNote.

(** The keys of [MPCNOTES[note_type]]; [None] when [note_type] is no key
    of [MPCNOTES]. *)
Definition MPCNOTES (note_type : string) : option (list string) :=
  if String.eqb note_type "Note1" then
    Some [" "; ""; "*"; "A"; "a"; "B"; "b"; "c"; "D"; "d"; "E"; "F"; "f"; "G";
          "g"; "H"; "I"; "i"; "J"; "K"; "k"; "M"; "m"; "N"; "O"; "o"; "P"; "p";
          "R"; "r"; "S"; "s"; "T"; "t"; "U"; "u"; "V"; "W"; "w"]
  else if String.eqb note_type "Note2" then
    Some [" "; ""; "P"; "e"; "C"; "T"; "M"; "V"; "R"; "S"; "c"; "E"; "O"; "H";
          "N"; "n"]
  else if String.eqb note_type "PhotometryNote" then
    Some [" "; ""; "L"; "Y"; "Z"]
  else None.

Record t : Type := mk {
  _note_type : string;
  _code : string
}.

Definition note_type_setter (note_type : string) (self : t) : result t :=
  match MPCNOTES note_type with
  | None => Raise ValueError
  | Some _ => Ok (mk note_type (_code self))
  end.

Definition code_setter (code : option string) (self : t) : result t :=
  let _code :=
    match code with
    | None => " "
    | Some s => Py.strip s
    end in
  do _ <-
    (if Py.isdigit _code then
       if negb (String.eqb (_note_type self) "Note1")
       then Raise (MPCFieldFormatError (_note_type self))
       else
         do n <- Py.int (PyStr _code);
         if negb ((0 <? n)%Z && (n <? 10)%Z)
         then Raise (MPCFieldFormatError (_note_type self))
         else Ok tt
     else
       if (1 <? String.length _code)%nat
       then Raise (MPCFieldFormatError (_note_type self))
       else
         match MPCNOTES (_note_type self) with
         | None => Raise KeyError
         | Some keys =>
             if negb (existsb (String.eqb _code) keys)
             then Raise (MPCFieldFormatError (_note_type self))
             else Ok tt
         end);
  Ok (mk (_note_type self) _code).

Definition __init__ (code : option string) (note_type : string) : result t :=
  do self <- note_type_setter note_type (mk "" "");
  code_setter code self.

Definition code (self : t) : string := _code self.

Definition __str__ (self : t) : string := code self.

End MPCNote.

(** ** Discovery *)

Module Discovery.

Record t : Type := mk {
  _is_discovery : bool;
  _is_initial_discovery : bool
}.

Definition is_discovery (self : t) : bool := _is_discovery self.

Definition is_initial_discovery (self : t) : bool := _is_initial_discovery self.

Definition is_discovery_setter (is_discovery : PyVal) (self : t) : result t :=
  if negb (PyOps.in_list is_discovery
             [PyStr "*"; PyStr "&"; PyStr " "; PyStr ""; PyBool true; PyBool false; PyNone])
  then Raise (MPCFieldFormatError "discovery")
  else Ok (mk (PyOps.in_list is_discovery [PyStr "*"; PyStr "&"; PyBool true])
              (_is_initial_discovery self)).

Definition is_initial_discovery_setter (is_discovery : PyVal) (self : t) : t :=
  mk (_is_discovery self) (PyOps.in_list is_discovery [PyStr "*"; PyBool true]).

Definition __init__ (is_discovery : PyVal) : result t :=
  do self <- is_discovery_setter is_discovery (mk false false);
  Ok (is_initial_discovery_setter is_discovery self).

Definition __str__ (self : t) : string :=
  if is_initial_discovery self then "*"
  else if is_discovery self then "&"
  else " ".

Definition __bool__ (self : t) : bool := is_discovery self.

Definition __nonzero__ (self : t) : bool := __bool__ self.

End Discovery.

(** ** compute_precision *)

Definition compute_precision (coord : string) : nat :=
  let coord := Py.strip_chars " " coord in
  match Py.rfind "." coord with
  | None => 0
  | Some idx => String.length coord - idx - 1
  end.

(** [a < b] on floats, as the chained comparisons use it. *)
Definition Qltb (a b : Q) : bool := (Qnum a * QDen b <? Qnum b * QDen a)%Z.

Definition in_open (lo hi q : Q) : bool := Qltb lo q && Qltb q hi.

(** ** Methods that mutate [self]

    A method is a function from the object to a result and the object as
    the method left it: an exception keeps the assignments made before it,
    which is what a handler in the same method, or the caller, then sees. *)

Definition meth (S A : Type) : Type := S -> result A * S.

Definition mret {S A : Type} (a : A) : meth S A := fun s => (Ok a, s).

Definition mraise {S A : Type} (e : exn) : meth S A := fun s => (Raise e, s).

Definition mbind {S A B : Type} (m : meth S A) (k : A -> meth S B) : meth S B :=
  fun s =>
    match m s with
    | (Ok a, s') => k a s'
    | (Raise e, s') => (Raise e, s')
    end.

Definition mtry {S A : Type} (m : meth S A) (h : exn -> meth S A) : meth S A :=
  fun s =>
    match m s with
    | (Ok a, s') => (Ok a, s')
    | (Raise e, s') => h e s'
    end.

Definition mlift {S A : Type} (r : result A) : meth S A := fun s => (r, s).

Definition massign {S : Type} (f : S -> S) : meth S unit := fun s => (Ok tt, f s).

Definition mself {S : Type} : meth S S := fun s => (Ok s, s).

(** The object once the method has returned; an exception out of a
    constructor leaves no object. *)
Definition construct {S A : Type} (m : meth S A) (blank : S) : result S :=
  match m blank with
  | (Ok _, s) => Ok s
  | (Raise e, _) => Raise e
  end.

Notation "'step' x <- m ; k" := (mbind m (fun x => k))
  (at level 10, x name, m at level 100, k at level 200).
Notation "'exec' m ; k" := (mbind m (fun _ => k))
  (at level 10, m at level 100, k at level 200).

(** ** OSSOSComment and its subclasses *)

Module OSSOSComment.

Inductive class : Type :=
| IsOSSOSComment
| IsRealOSSOSComment
| IsCFEPSComment
| IsTNOdbComment.

Record t : Type := mk {
  klass : class;
  version : string;
  frame : option string;
  source_name : option string;
  _photometry_note : string;
  mpc_note : string;
  _x : option Q;
  _y : option Q;
  _mag : option Q;
  _mag_uncertainty : option Q;
  _plate_uncertainty : option Q;
  _astrometric_level : Z;
  _comment : string;
  flags : option string;
  index : option string;
  date : option string
}.

Definition set_klass (v : class) (self : t) : t :=
  mk v (version self) (frame self) (source_name self) (_photometry_note self)
    (mpc_note self) (_x self) (_y self) (_mag self) (_mag_uncertainty self)
    (_plate_uncertainty self) (_astrometric_level self) (_comment self) (flags self)
    (index self) (date self).

Definition set_version (v : string) (self : t) : t :=
  mk (klass self) v (frame self) (source_name self) (_photometry_note self) (mpc_note
    self) (_x self) (_y self) (_mag self) (_mag_uncertainty self) (_plate_uncertainty
    self) (_astrometric_level self) (_comment self) (flags self) (index self) (date
    self).

Definition set_frame (v : option string) (self : t) : t :=
  mk (klass self) (version self) v (source_name self) (_photometry_note self)
    (mpc_note self) (_x self) (_y self) (_mag self) (_mag_uncertainty self)
    (_plate_uncertainty self) (_astrometric_level self) (_comment self) (flags self)
    (index self) (date self).

Definition set_source_name (v : option string) (self : t) : t :=
  mk (klass self) (version self) (frame self) v (_photometry_note self) (mpc_note
    self) (_x self) (_y self) (_mag self) (_mag_uncertainty self) (_plate_uncertainty
    self) (_astrometric_level self) (_comment self) (flags self) (index self) (date
    self).

Definition set__photometry_note (v : string) (self : t) : t :=
  mk (klass self) (version self) (frame self) (source_name self) v (mpc_note self) (_x
    self) (_y self) (_mag self) (_mag_uncertainty self) (_plate_uncertainty self)
    (_astrometric_level self) (_comment self) (flags self) (index self) (date self).

Definition set_mpc_note (v : string) (self : t) : t :=
  mk (klass self) (version self) (frame self) (source_name self) (_photometry_note
    self) v (_x self) (_y self) (_mag self) (_mag_uncertainty self) (_plate_uncertainty
    self) (_astrometric_level self) (_comment self) (flags self) (index self) (date
    self).

Definition set__x (v : option Q) (self : t) : t :=
  mk (klass self) (version self) (frame self) (source_name self) (_photometry_note
    self) (mpc_note self) v (_y self) (_mag self) (_mag_uncertainty self)
    (_plate_uncertainty self) (_astrometric_level self) (_comment self) (flags self)
    (index self) (date self).

Definition set__y (v : option Q) (self : t) : t :=
  mk (klass self) (version self) (frame self) (source_name self) (_photometry_note
    self) (mpc_note self) (_x self) v (_mag self) (_mag_uncertainty self)
    (_plate_uncertainty self) (_astrometric_level self) (_comment self) (flags self)
    (index self) (date self).

Definition set__mag (v : option Q) (self : t) : t :=
  mk (klass self) (version self) (frame self) (source_name self) (_photometry_note
    self) (mpc_note self) (_x self) (_y self) v (_mag_uncertainty self)
    (_plate_uncertainty self) (_astrometric_level self) (_comment self) (flags self)
    (index self) (date self).

Definition set__mag_uncertainty (v : option Q) (self : t) : t :=
  mk (klass self) (version self) (frame self) (source_name self) (_photometry_note
    self) (mpc_note self) (_x self) (_y self) (_mag self) v (_plate_uncertainty self)
    (_astrometric_level self) (_comment self) (flags self) (index self) (date self).

Definition set__plate_uncertainty (v : option Q) (self : t) : t :=
  mk (klass self) (version self) (frame self) (source_name self) (_photometry_note
    self) (mpc_note self) (_x self) (_y self) (_mag self) (_mag_uncertainty self) v
    (_astrometric_level self) (_comment self) (flags self) (index self) (date self).

Definition set__astrometric_level (v : Z) (self : t) : t :=
  mk (klass self) (version self) (frame self) (source_name self) (_photometry_note
    self) (mpc_note self) (_x self) (_y self) (_mag self) (_mag_uncertainty self)
    (_plate_uncertainty self) v (_comment self) (flags self) (index self) (date self).

Definition set__comment (v : string) (self : t) : t :=
  mk (klass self) (version self) (frame self) (source_name self) (_photometry_note
    self) (mpc_note self) (_x self) (_y self) (_mag self) (_mag_uncertainty self)
    (_plate_uncertainty self) (_astrometric_level self) v (flags self) (index self)
    (date self).

Definition set_flags (v : option string) (self : t) : t :=
  mk (klass self) (version self) (frame self) (source_name self) (_photometry_note
    self) (mpc_note self) (_x self) (_y self) (_mag self) (_mag_uncertainty self)
    (_plate_uncertainty self) (_astrometric_level self) (_comment self) v (index self)
    (date self).

Definition set_index (v : option string) (self : t) : t :=
  mk (klass self) (version self) (frame self) (source_name self) (_photometry_note
    self) (mpc_note self) (_x self) (_y self) (_mag self) (_mag_uncertainty self)
    (_plate_uncertainty self) (_astrometric_level self) (_comment self) (flags self) v
    (date self).

Definition set_date (v : option string) (self : t) : t :=
  mk (klass self) (version self) (frame self) (source_name self) (_photometry_note
    self) (mpc_note self) (_x self) (_y self) (_mag self) (_mag_uncertainty self)
    (_plate_uncertainty self) (_astrometric_level self) (_comment self) (flags self)
    (index self) v.

(** The object before [__init__] has assigned anything. *)
Definition blank (cls : class) : t :=
  mk cls "" None None "" "" None None None None None 0%Z "" None None None.

Definition photometry_note_setter (photometry_note : string) : meth t unit :=
  massign (set__photometry_note photometry_note).

(** [str(self.mag).isdigit()]: [self.mag] is [None] or a float, and the
    string of either holds a character that is no digit ("None", a point,
    an exponent, "inf", "nan"). *)
Definition str_mag_isdigit (mag : option Q) : bool := false.

Definition mag_setter (ext : Externals) (mag : PyVal) : meth t unit :=
  mtry
    (step f <- mlift (py_float ext mag);
     exec massign (set__mag (Some f));
     exec photometry_note_setter "Y";
     if negb (in_open 15 30 f) then mraise ValueError else mret tt)
    (fun _ =>
       exec photometry_note_setter "Z";
       massign (set__mag None)).

Definition mag_uncertainty_setter (ext : Externals) (mag_uncertainty : PyVal) : meth t unit :=
  mtry
    (step f <- mlift (py_float ext mag_uncertainty);
     exec massign (set__mag_uncertainty (Some f));
     if negb (in_open 0 1 f) then mraise ValueError else mret tt)
    (fun _ =>
       step self <- mself;
       exec (if str_mag_isdigit (_mag self)
             then photometry_note_setter "L"
             else photometry_note_setter "Z");
       massign (set__mag_uncertainty None)).

Definition astrometric_level_setter (astrometric_level : PyVal) : meth t unit :=
  step astrometric_level <- mlift (Py.int astrometric_level);
  if negb ((-1 <? astrometric_level)%Z && (astrometric_level <? 10)%Z)
  then mraise ValueError
  else massign (set__astrometric_level astrometric_level).

Definition x_setter (ext : Externals) (x : PyVal) : meth t unit :=
  mtry
    (step f <- mlift (py_float ext x);
     massign (set__x (Some f)))
    (fun _ => massign (set__x None)).

Definition y_setter (ext : Externals) (y : PyVal) : meth t unit :=
  mtry
    (step f <- mlift (py_float ext y);
     massign (set__y (Some f)))
    (fun _ => massign (set__y None)).

Definition plate_uncertainty_setter (ext : Externals) (plate_uncertainty : PyVal)
  : meth t unit :=
  exec mtry
    (step f <- mlift (py_float ext plate_uncertainty);
     massign (set__plate_uncertainty (Some f)))
    (fun _ => massign (set__plate_uncertainty (Some (2 # 10))));
  step self <- mself;
  match _plate_uncertainty self with
  | Some p => if negb (in_open 0 100 p) then mraise ValueError else mret tt
  | None => mraise TypeError
  end.

Definition comment_setter (comment : option string) : meth t unit :=
  match comment with
  | Some c => massign (set__comment (Py.strip c))
  | None => massign (set__comment "")
  end.

Definition __init__ (ext : Externals) (version : string) (frame source_name : option string)
  (photometry_note mpc_note : string) (x y plate_uncertainty astrometric_level
   magnitude mag_uncertainty : PyVal) (comment : option string) : meth t unit :=
  exec massign (set_version version);
  exec massign (set_frame frame);
  exec massign (set_source_name source_name);
  exec photometry_note_setter photometry_note;
  exec massign (set_mpc_note mpc_note);
  exec massign (set__x None);
  exec x_setter ext x;
  exec massign (set__y None);
  exec y_setter ext y;
  exec massign (set__mag None);
  exec mag_setter ext magnitude;
  exec massign (set__mag_uncertainty None);
  exec mag_uncertainty_setter ext mag_uncertainty;
  exec massign (set__plate_uncertainty None);
  exec plate_uncertainty_setter ext plate_uncertainty;
  exec massign (set__astrometric_level 0%Z);
  exec astrometric_level_setter astrometric_level;
  exec massign (set__comment "");
  exec comment_setter comment;
  massign (set_flags None).

(** Default values of the keyword arguments. *)
Definition default_plate_uncertainty : PyVal := PyFloat (2 # 10).
Definition default_astrometric_level : PyVal := PyInt 0.

Definition new (ext : Externals) (cls : class) (version : string)
  (frame source_name : option string) (photometry_note mpc_note : string)
  (x y plate_uncertainty astrometric_level magnitude mag_uncertainty : PyVal)
  (comment : option string) : result t :=
  construct (__init__ ext version frame source_name photometry_note mpc_note x y
               plate_uncertainty astrometric_level magnitude mag_uncertainty comment)
            (blank cls).

(** An attribute assignment through a property setter, from outside. *)
Definition assign (m : meth t unit) (self : t) : result t := construct m self.

Definition ossos_comment_format : string :=
  "1s1x10s1x11s1x1s1s1x7s1x7s1x4s1x1s1x5s1x4s1x".

(** [to_str(frmt, value, default)]: [formatted] is [frmt.format(value)],
    or [None] when [value] is [None] or the format raises. *)
Definition to_str (formatted : option string) (default : string) : string :=
  " " +:+ match formatted with
          | Some s => s
          | None => default
          end.

Definition __str__ (ext : Externals) (self : t) : string :=
  if String.eqb (version self) "T" then _comment self
  else if String.eqb (version self) "L" then
    Py.ljust 1 (version self) +:+ " "
      +:+ Py.ljust 10 (default "None" (frame self)) +:+ " " +:+ _comment self
  else
    let float_field (w p : nat) (v : option Q) : option string :=
      option_map (fun q => Py.rjust w (format_float ext p q)) v in
    Py.ljust 1 (version self)
      +:+ to_str (option_map (fun s => Py.rjust 10 (substring 0 10 s)) (frame self))
                 (Py.repeat_char "-" 10)
      +:+ to_str (option_map (fun s => Py.ljust 11 (substring 0 11 s)) (source_name self))
                 (Py.repeat_char "-" 11)
      +:+ to_str (Some (Py.ljust 2 (substring 0 2 (_photometry_note self +:+ mpc_note self))))
                 "--"
      +:+ to_str (float_field 7 2 (_x self)) (Py.repeat_char "-" 7)
      +:+ to_str (float_field 7 2 (_y self)) (Py.repeat_char "-" 7)
      +:+ to_str (float_field 4 2 (_plate_uncertainty self)) (Py.repeat_char "-" 4)
      +:+ to_str (Some (Py.rjust 1 (Py.str_of_Z (_astrometric_level self)))) "-"
      +:+ to_str (float_field 5 2 (_mag self)) (Py.repeat_char "-" 5)
      +:+ to_str (float_field 4 2 (_mag_uncertainty self)) (Py.repeat_char "-" 4)
      +:+ " % " +:+ _comment self.

End OSSOSComment.

(** What a comment attribute can hold: a plain [str] or a comment
    object. *)
Inductive Comment : Type :=
| CommentStr (s : string)
| CommentObj (c : OSSOSComment.t).

Definition isinstance_OSSOSComment (c : Comment) : bool :=
  match c with
  | CommentObj _ => true
  | CommentStr _ => false
  end.

Definition isinstance_TNOdbComment (c : Comment) : bool :=
  match c with
  | CommentObj o =>
      match OSSOSComment.klass o with
      | OSSOSComment.IsTNOdbComment => true
      | _ => false
      end
  | CommentStr _ => false
  end.

(** The loop [for func in funcs: try: comment = func(line)
    except ValueError: continue; break]: the first function that does not
    raise [ValueError] decides, by its value or by its exception. *)
Fixpoint first_parse {A : Type} (funcs : list (string -> result A)) (line : string)
  (comment : A) : result A :=
  match funcs with
  | [] => Ok comment
  | func :: rest =>
      match func line with
      | Ok c => Ok c
      | Raise e => if is_ValueError e then first_parse rest line comment else Raise e
      end
  end.

Definition pyval_of_float (q : option Q) : PyVal :=
  match q with
  | Some f => PyFloat f
  | None => PyNone
  end.

Section Comments.

Variable ext : Externals.

(** [OSSOSComment.from_string], a class method: [cls] is the class it is
    called through. *)
Definition OSSOSComment_from_string (cls : OSSOSComment.class) (comment : string)
  : result Comment :=
  if (String.length comment =? 0)%nat then Ok (CommentStr "")
  else
    do c0 <- Py.index comment 0;
    let comment := if Ascii.eqb c0 "#" then Py.slice_from 1 comment else comment in
    let values := Py.split_on "%" comment in
    let comment_string :=
      match values with
      | _ :: v1 :: _ => Py.lstrip_chars " " v1
      | _ => ""
      end in
    let fixed_format : result Comment :=
      do v0 <- Py.list_index values 0;
      do fields <- Py.unpack OSSOSComment.ossos_comment_format v0;
      match fields with
      | [version; frame; source_name; photometry_note; mpc_note; x; y;
         plate_uncertainty; astrometric_level; magnitude; mag_uncertainty] =>
          do retval <- OSSOSComment.new ext cls version (Some frame) (Some source_name)
                         photometry_note mpc_note (PyStr x) (PyStr y)
                         (PyStr plate_uncertainty) (PyStr astrometric_level)
                         (PyStr magnitude) (PyStr mag_uncertainty) None;
          do v1 <- Py.list_index values 1;
          do retval <- OSSOSComment.assign (OSSOSComment.comment_setter (Some v1)) retval;
          Ok (CommentObj retval)
      | _ => Raise TypeError
      end in
    try_except fixed_format (fun _ =>
      do v0 <- Py.list_index values 0;
      let values := Py.split v0 in
      do retval <-
        try_except
          (do v0 <- Py.list_index values 0;
           do _ <- (if negb (String.eqb v0 "O") || (length values <? 5)%nat
                    then Raise ValueError else Ok tt);
           do v1 <- Py.list_index values 1;
           do v2 <- Py.list_index values 2;
           do v3 <- Py.list_index values 3;
           do v30 <- Py.index v3 0;
           do v4 <- Py.list_index values 4;
           do v5 <- Py.list_index values 5;
           OSSOSComment.new ext cls "O" (Some v1) (Some v2) (String v30 "")
             (Py.slice_from 1 v3) (PyStr v4) (PyStr v5)
             OSSOSComment.default_plate_uncertainty
             OSSOSComment.default_astrometric_level PyNone PyNone
             (Some comment_string))
          (fun e => Raise e);
      do v0 <- Py.list_index values 0;
      let retval := OSSOSComment.set_version v0 retval in
      let item i := do v <- Py.list_index values i; Ok (PyStr v) in
      let plate i self :=
        do v <- item i;
        OSSOSComment.assign (OSSOSComment.plate_uncertainty_setter ext v) self in
      let level i self :=
        do v <- item i;
        OSSOSComment.assign (OSSOSComment.astrometric_level_setter v) self in
      let mag i self :=
        do v <- item i;
        OSSOSComment.assign (OSSOSComment.mag_setter ext v) self in
      let mag_uncertainty i self :=
        do v <- item i;
        OSSOSComment.assign (OSSOSComment.mag_uncertainty_setter ext v) self in
      do retval <-
        (if (length values =? 7)%nat then plate 6%nat retval
         else if (length values =? 8)%nat then
           do r <- plate 6%nat retval; level 7%nat r
         else if (length values =? 9)%nat then
           do r <- mag 6%nat retval;
           do r <- mag_uncertainty 7%nat r;
           plate 8%nat r
         else if (length values =? 10)%nat then
           do r <- plate 8%nat retval;
           do r <- level 9%nat r;
           do r <- mag 6%nat r;
           mag_uncertainty 7%nat r
         else Ok retval);
      Ok (CommentObj retval)).

(** [CFEPSComment.__init__] and [CFEPSComment.from_string] *)
Definition CFEPSComment_new (frame : string) (comment : string) : result OSSOSComment.t :=
  do ' (x, y) <-
    (if Py.contains "measured inside confirm @" comment then
       do after <- Py.list_index (Py.split_on "@" comment) 1;
       let values := Py.split after in
       do x <- Py.list_index values 0;
       do y <- Py.list_index values 1;
       Ok (x, y)
     else Ok ("", ""));
  let source_name := None in
  let mpc_note := " " in
  do self <- OSSOSComment.new ext OSSOSComment.IsCFEPSComment "O" (Some frame) source_name
               " " mpc_note (PyStr x) (PyStr y)
               OSSOSComment.default_plate_uncertainty
               OSSOSComment.default_astrometric_level PyNone PyNone (Some comment);
  Ok (OSSOSComment.set_version "L" self).

Definition CFEPSComment_from_string (comment : string) : result Comment :=
  let values := Py.split comment in
  do v0 <- Py.list_index values 0;
  if negb (String.eqb v0 "L") || (length values <? 2)%nat then Raise ValueError
  else
    do frame <- Py.list_index values 1;
    let comment := Py.join " " (drop 2 values) in
    do self <- CFEPSComment_new frame comment;
    Ok (CommentObj self).

(** [TNOdbComment.__init__(index, date, flags, **kwargs)] *)
Definition TNOdbComment_new (index date flags : string) (version : string)
  (frame source_name : option string) (photometry_note mpc_note : string)
  (x y plate_uncertainty astrometric_level magnitude mag_uncertainty : PyVal)
  (comment : option string) : result OSSOSComment.t :=
  do self <- OSSOSComment.new ext OSSOSComment.IsTNOdbComment version frame source_name
               photometry_note mpc_note x y plate_uncertainty astrometric_level
               magnitude mag_uncertainty comment;
  Ok (OSSOSComment.set_flags (Some flags)
        (OSSOSComment.set_date (Some date)
           (OSSOSComment.set_index (Some index) self))).

Definition tnodb_index_pattern : list PyOps.atom :=
  repeat PyOps.Digit 8 ++ [PyOps.Lit "_"] ++ repeat PyOps.NonSpace 3
    ++ [PyOps.Lit "_"; PyOps.NonSpace].

Definition TNOdbComment_from_string (line : string) : result Comment :=
  if (String.length line <? 56)%nat then Raise ValueError
  else
    let index := Py.strip (Py.slice 0 14 line) in
    if negb (PyOps.re_match tnodb_index_pattern index) then Raise ValueError
    else
      let date := Py.strip (Py.slice 15 23 line) in
      let flags := Py.strip (Py.slice 24 34 line) in
      let comment := Py.strip (Py.slice_from 56 line) in
      do comment_object <-
        (if (0 <? String.length comment)%nat then
           first_parse
             [fun c => do r <- OSSOSComment_from_string OSSOSComment.IsOSSOSComment c;
                       Ok (Some r);
              fun c => do r <- CFEPSComment_from_string c; Ok (Some r)]
             comment None
         else Ok None);
      match comment_object with
      | Some (CommentObj comment_object) =>
          do retval <-
            TNOdbComment_new index date flags
              (OSSOSComment.version comment_object)
              (OSSOSComment.frame comment_object)
              (OSSOSComment.source_name comment_object)
              (OSSOSComment._photometry_note comment_object)
              (OSSOSComment.mpc_note comment_object)
              (pyval_of_float (OSSOSComment._x comment_object))
              (pyval_of_float (OSSOSComment._y comment_object))
              (pyval_of_float (OSSOSComment._plate_uncertainty comment_object))
              (PyInt (OSSOSComment._astrometric_level comment_object))
              (pyval_of_float (OSSOSComment._mag comment_object))
              (pyval_of_float (OSSOSComment._mag_uncertainty comment_object))
              (Some (OSSOSComment._comment comment_object));
          Ok (CommentObj retval)
      | _ =>
          do retval <-
            TNOdbComment_new index date flags "T" (Some " ") (Some "") " " " "
              (PyStr " ") (PyStr " ")
              OSSOSComment.default_plate_uncertainty
              OSSOSComment.default_astrometric_level PyNone PyNone (Some comment);
          Ok (CommentObj retval)
      end.

Definition RealOSSOSComment_from_string (comment : string) : result Comment :=
  do c0 <- Py.index (Py.strip comment) 0;
  let comment := if negb (Ascii.eqb c0 "O") then "O " +:+ comment else comment in
  OSSOSComment_from_string OSSOSComment.IsRealOSSOSComment comment.

Definition MPCComment_from_string (line : string) : result Comment :=
  let comment := CommentStr line in
  first_parse
    [TNOdbComment_from_string;
     OSSOSComment_from_string OSSOSComment.IsOSSOSComment;
     RealOSSOSComment_from_string;
     CFEPSComment_from_string;
     fun s => Ok (CommentStr s)]
    line comment.

End Comments.

(** [str(comment)] *)
Definition Comment_str (ext : Externals) (c : Comment) : string :=
  match c with
  | CommentStr s => s
  | CommentObj o => OSSOSComment.__str__ ext o
  end.

(** ** Observation *)

Module Observation.

Record t : Type := mk {
  _null_observation : NullObservation.t;
  _provisional_name : string;
  _discovery : Discovery.t;
  _note1 : MPCNote.t;
  _note2 : MPCNote.t;
  _date : Time;
  _date_precision : nat;
  _coordinate : Coord;
  _ra_precision : nat;
  _dec_precision : nat;
  _mag : option Q;
  _mag_err : PyVal;
  _mag_precision : nat;
  _band : option string;
  _observatory_code : string;
  _comment : Comment
}.

Definition set__null_observation (v : NullObservation.t) (self : t) : t :=
  mk v (_provisional_name self) (_discovery self) (_note1 self) (_note2 self) (_date
    self) (_date_precision self) (_coordinate self) (_ra_precision self) (_dec_precision
    self) (_mag self) (_mag_err self) (_mag_precision self) (_band self)
    (_observatory_code self) (_comment self).

Definition set__provisional_name (v : string) (self : t) : t :=
  mk (_null_observation self) v (_discovery self) (_note1 self) (_note2 self) (_date
    self) (_date_precision self) (_coordinate self) (_ra_precision self) (_dec_precision
    self) (_mag self) (_mag_err self) (_mag_precision self) (_band self)
    (_observatory_code self) (_comment self).

Definition set__discovery (v : Discovery.t) (self : t) : t :=
  mk (_null_observation self) (_provisional_name self) v (_note1 self) (_note2 self)
    (_date self) (_date_precision self) (_coordinate self) (_ra_precision self)
    (_dec_precision self) (_mag self) (_mag_err self) (_mag_precision self) (_band self)
    (_observatory_code self) (_comment self).

Definition set__note1 (v : MPCNote.t) (self : t) : t :=
  mk (_null_observation self) (_provisional_name self) (_discovery self) v (_note2
    self) (_date self) (_date_precision self) (_coordinate self) (_ra_precision self)
    (_dec_precision self) (_mag self) (_mag_err self) (_mag_precision self) (_band self)
    (_observatory_code self) (_comment self).

Definition set__note2 (v : MPCNote.t) (self : t) : t :=
  mk (_null_observation self) (_provisional_name self) (_discovery self) (_note1 self)
    v (_date self) (_date_precision self) (_coordinate self) (_ra_precision self)
    (_dec_precision self) (_mag self) (_mag_err self) (_mag_precision self) (_band self)
    (_observatory_code self) (_comment self).

Definition set__date (v : Time) (self : t) : t :=
  mk (_null_observation self) (_provisional_name self) (_discovery self) (_note1 self)
    (_note2 self) v (_date_precision self) (_coordinate self) (_ra_precision self)
    (_dec_precision self) (_mag self) (_mag_err self) (_mag_precision self) (_band self)
    (_observatory_code self) (_comment self).

Definition set__date_precision (v : nat) (self : t) : t :=
  mk (_null_observation self) (_provisional_name self) (_discovery self) (_note1 self)
    (_note2 self) (_date self) v (_coordinate self) (_ra_precision self) (_dec_precision
    self) (_mag self) (_mag_err self) (_mag_precision self) (_band self)
    (_observatory_code self) (_comment self).

Definition set__coordinate (v : Coord) (self : t) : t :=
  mk (_null_observation self) (_provisional_name self) (_discovery self) (_note1 self)
    (_note2 self) (_date self) (_date_precision self) v (_ra_precision self)
    (_dec_precision self) (_mag self) (_mag_err self) (_mag_precision self) (_band self)
    (_observatory_code self) (_comment self).

Definition set__ra_precision (v : nat) (self : t) : t :=
  mk (_null_observation self) (_provisional_name self) (_discovery self) (_note1 self)
    (_note2 self) (_date self) (_date_precision self) (_coordinate self) v
    (_dec_precision self) (_mag self) (_mag_err self) (_mag_precision self) (_band self)
    (_observatory_code self) (_comment self).

Definition set__dec_precision (v : nat) (self : t) : t :=
  mk (_null_observation self) (_provisional_name self) (_discovery self) (_note1 self)
    (_note2 self) (_date self) (_date_precision self) (_coordinate self) (_ra_precision
    self) v (_mag self) (_mag_err self) (_mag_precision self) (_band self)
    (_observatory_code self) (_comment self).

Definition set__mag (v : option Q) (self : t) : t :=
  mk (_null_observation self) (_provisional_name self) (_discovery self) (_note1 self)
    (_note2 self) (_date self) (_date_precision self) (_coordinate self) (_ra_precision
    self) (_dec_precision self) v (_mag_err self) (_mag_precision self) (_band self)
    (_observatory_code self) (_comment self).

Definition set__mag_err (v : PyVal) (self : t) : t :=
  mk (_null_observation self) (_provisional_name self) (_discovery self) (_note1 self)
    (_note2 self) (_date self) (_date_precision self) (_coordinate self) (_ra_precision
    self) (_dec_precision self) (_mag self) v (_mag_precision self) (_band self)
    (_observatory_code self) (_comment self).

Definition set__mag_precision (v : nat) (self : t) : t :=
  mk (_null_observation self) (_provisional_name self) (_discovery self) (_note1 self)
    (_note2 self) (_date self) (_date_precision self) (_coordinate self) (_ra_precision
    self) (_dec_precision self) (_mag self) (_mag_err self) v (_band self)
    (_observatory_code self) (_comment self).

Definition set__band (v : option string) (self : t) : t :=
  mk (_null_observation self) (_provisional_name self) (_discovery self) (_note1 self)
    (_note2 self) (_date self) (_date_precision self) (_coordinate self) (_ra_precision
    self) (_dec_precision self) (_mag self) (_mag_err self) (_mag_precision self) v
    (_observatory_code self) (_comment self).

Definition set__observatory_code (v : string) (self : t) : t :=
  mk (_null_observation self) (_provisional_name self) (_discovery self) (_note1 self)
    (_note2 self) (_date self) (_date_precision self) (_coordinate self) (_ra_precision
    self) (_dec_precision self) (_mag self) (_mag_err self) (_mag_precision self) (_band
    self) v (_comment self).

Definition set__comment (v : Comment) (self : t) : t :=
  mk (_null_observation self) (_provisional_name self) (_discovery self) (_note1 self)
    (_note2 self) (_date self) (_date_precision self) (_coordinate self) (_ra_precision
    self) (_dec_precision self) (_mag self) (_mag_err self) (_mag_precision self) (_band
    self) (_observatory_code self) v.

(** The object before [__init__] has assigned anything. *)
Definition blank : t :=
  mk (NullObservation.mk "!" false) "" (Discovery.mk false false)
     (MPCNote.mk "" "") (MPCNote.mk "" "") (mkTime 0 0 0) 0 (mkCoord 0 0) 0 0
     None PyNone 0 None "" (CommentStr "").

Definition null_observation (self : t) : NullObservation.t := _null_observation self.
Definition provisional_name (self : t) : string := _provisional_name self.
Definition discovery (self : t) : Discovery.t := _discovery self.
Definition note1 (self : t) : MPCNote.t := _note1 self.
Definition note2 (self : t) : MPCNote.t := _note2 self.
Definition date (self : t) : Time := _date self.
Definition coordinate (self : t) : Coord := _coordinate self.
Definition mag (self : t) : option Q := _mag self.
Definition band (self : t) : option string := _band self.
Definition observatory_code (self : t) : string := _observatory_code self.
Definition comment (self : t) : Comment := _comment self.

Definition ra (ext : Externals) (self : t) : string :=
  ra_format ext (coordinate self) (_ra_precision self).

Definition dec (ext : Externals) (self : t) : string :=
  dec_format ext (coordinate self) (_dec_precision self).

Definition null_observation_setter (null_observation : PyVal) : meth t unit :=
  step n <- mlift (NullObservation.__init__ null_observation);
  massign (set__null_observation n).

Definition provisional_name_setter (provisional_name : option string) : meth t unit :=
  let provisional_name :=
    match provisional_name with
    | None => Py.repeat_char " " 7
    | Some s => Py.strip s
    end in
  massign (set__provisional_name provisional_name).

Definition discovery_setter (is_discovery : PyVal) : meth t unit :=
  step d <- mlift (Discovery.__init__ is_discovery);
  massign (set__discovery d).

Definition note1_setter (note1 : option string) : meth t unit :=
  step n <- mlift (MPCNote.__init__ note1 "Note1");
  massign (set__note1 n).

Definition note2_setter (code : option string) : meth t unit :=
  step n <- mlift (MPCNote.__init__ code "Note2");
  massign (set__note2 n).

Definition date_setter (ext : Externals) (date_str : string) : meth t unit :=
  exec massign (set__date_precision (compute_precision date_str));
  step self <- mself;
  match Time_new ext date_str (_date_precision self) with
  | Some d => massign (set__date d)
  | None => mraise (MPCFieldFormatError "Observation Date")
  end.

Definition coordinate_setter (ext : Externals) (val1 val2 : string) : meth t unit :=
  exec massign (set__ra_precision 3);
  exec massign (set__dec_precision 2);
  mtry
    (step ra <- mlift (py_float ext (PyStr val1));
     step dec <- mlift (py_float ext (PyStr val2));
     match ICRS_degrees ext ra dec with
     | Some c => massign (set__coordinate c)
     | None => mraise ValueError
     end)
    (fun _ =>
       mtry
         (exec massign (set__ra_precision (compute_precision val1));
          exec massign (set__dec_precision (compute_precision val2));
          match ICRS_sexagesimal ext val1 val2 with
          | Some c => massign (set__coordinate c)
          | None => mraise ValueError
          end)
         (fun _ => mraise (MPCFieldFormatError "coord_pair"))).

Definition mag_setter (ext : Externals) (mag : string) : meth t unit :=
  let unset :=
    exec massign (set__mag_precision 0);
    massign (set__mag None) in
  if (String.length (Py.strip_chars " " mag) =? 0)%nat then unset
  else
    step f <- mlift (py_float ext (PyStr mag));
    if Qltb f 0 then unset
    else
      exec massign (set__mag (Some f));
      massign (set__mag_precision (Nat.min 1 (compute_precision mag))).

(** [len(str(mag_err).strip('')) == 0]: only the empty [str] has an empty
    string. *)
Definition str_is_empty (v : PyVal) : bool :=
  match v with
  | PyStr s => (String.length s =? 0)%nat
  | _ => false
  end.

Definition mag_err_setter (mag_err : PyVal) : meth t unit :=
  step self <- mself;
  let is_none := match mag_err with PyNone => true | _ => false end in
  let mag_is_none := match mag self with None => true | Some _ => false end in
  if is_none || str_is_empty mag_err || mag_is_none
  then massign (set__mag_err PyNone)
  else massign (set__mag_err mag_err).

Definition band_setter (band : string) : meth t unit :=
  let band := Py.strip_chars " " band in
  massign (set__band (match band with
                      | EmptyString => None
                      | String c _ => Some (String c "")
                      end)).

Definition observatory_code_setter (observatory_code : string) : meth t unit :=
  if negb (String.length observatory_code <=? 3)%nat
  then mraise (MPCFieldFormatError "Observatory code")
  else massign (set__observatory_code observatory_code).

Definition comment_setter (comment : option Comment) : meth t unit :=
  match comment with
  | None => massign (set__comment (CommentStr ""))
  | Some c => massign (set__comment c)
  end.

(** [__init__] with the eleven positional arguments that [from_string]
    passes, all of them strings; the keyword arguments after them keep
    their defaults ([comment=None], [mag_err=-1], [xpos], [ypos], [frame]
    and [plate_uncertainty] [None], [astrometric_level=0]). *)
Definition __init__ (ext : Externals) (null_observation provisional_name discovery
  note1 note2 date ra dec mag band observatory_code : string) : meth t unit :=
  let mag_err := PyInt (-1) in
  exec null_observation_setter (PyStr null_observation);
  exec massign (set__provisional_name "");
  exec provisional_name_setter (Some provisional_name);
  exec discovery_setter (PyStr discovery);
  exec note1_setter (Some note1);
  exec note2_setter (Some note2);
  exec date_setter ext date;
  exec coordinate_setter ext ra dec;
  exec massign (set__mag None);
  exec massign (set__mag_err PyNone);
  exec massign (set__mag_precision 1);
  exec massign (set__ra_precision 3);
  exec massign (set__dec_precision 2);
  exec mag_setter ext mag;
  exec mag_err_setter mag_err;
  exec massign (set__band None);
  exec band_setter band;
  exec observatory_code_setter observatory_code;
  step self <- mself;
  step c <- mlift (OSSOSComment.new ext OSSOSComment.IsOSSOSComment "O" None
                     (Some provisional_name) "" (MPCNote.__str__ (_note1 self))
                     PyNone PyNone PyNone (PyInt 0) (PyStr mag) mag_err None);
  comment_setter (Some (CommentObj c)).

Definition mpc_format : string := "1s11s1s1s1s17s12s12s9x5s1s6x3s".

(** [__str__]: the 80-column line. The magnitude column must come out
    six characters wide, else the method raises. *)
Definition __str__ (ext : Externals) (self : t) : result string :=
  let padding :=
    if (7 <? String.length (provisional_name self))%nat then "" else Py.repeat_char " " 4 in
  let mpc_str :=
    Py.ljust 12 (NullObservation.__str__ (null_observation self) +:+ padding
                 +:+ provisional_name self) in
  let mpc_str := mpc_str +:+ Discovery.__str__ (discovery self) in
  let mpc_str := mpc_str +:+ Py.ljust 1 (MPCNote.__str__ (note1 self))
                   +:+ Py.ljust 1 (MPCNote.__str__ (note2 self)) in
  let mpc_str := mpc_str +:+ Py.ljust 17 (Time_str ext (date self)) in
  let mpc_str := mpc_str +:+ Py.ljust 12 (ra ext self) +:+ Py.ljust 12 (dec ext self) in
  let mpc_str := mpc_str +:+ Py.repeat_char " " 9 in
  let mag_str :=
    match mag self with
    | None => Py.repeat_char " " 6
    | Some m =>
        Py.ljust 5 (format_float ext (_mag_precision self) m)
          +:+ Py.ljust 1 (default "None" (band self))
    end in
  if negb (String.length mag_str =? 6)%nat then Raise (MPCFieldFormatError "mag")
  else
    let mpc_str := mpc_str +:+ mag_str in
    let mpc_str := mpc_str +:+ Py.repeat_char " " 6 in
    Ok (mpc_str +:+ Py.rjust 3 (observatory_code self)).

Definition to_string (ext : Externals) (self : t) : result string :=
  do as_string <- __str__ ext self;
  if negb (String.eqb (Comment_str ext (comment self)) "")
  then Ok (as_string +:+ " " +:+ Comment_str ext (comment self))
  else Ok as_string.

(** What [from_string] returns: [None], an observation, or, for a line
    that starts with the comment marker, what the comment dispatcher
    returns. *)
Inductive parsed : Type :=
| NoRecord
| ObservationRecord (obsrec : t)
| CommentRecord (c : Comment).

Definition from_string (ext : Externals) (input_line : string) : result parsed :=
  let mpc_line := Py.strip_chars (String "010" "") input_line in
  if (0 <? String.length mpc_line)%nat && String.prefix "#" mpc_line then
    do c <- MPCComment_from_string ext (Py.slice_from 1 mpc_line);
    Ok (CommentRecord c)
  else
    let comment := Py.slice_from 81 mpc_line in
    let mpc_line := Py.slice 0 80 mpc_line in
    if negb (String.length mpc_line =? 80)%nat then Ok NoRecord
    else
      do fields <- Py.unpack mpc_format mpc_line;
      match fields with
      | [null_observation; provisional_name; discovery; note1; note2; date; ra; dec;
         mag; band; observatory_code] =>
          do obsrec <- construct (__init__ ext null_observation provisional_name discovery
                                    note1 note2 date ra dec mag band observatory_code)
                                 blank;
          do c <- MPCComment_from_string ext comment;
          let obsrec := set__comment c obsrec in
          let obsrec :=
            match _comment obsrec with
            | CommentObj o =>
                match OSSOSComment.source_name o with
                | None =>
                    set__comment
                      (CommentObj (OSSOSComment.set_source_name
                                     (Some (_provisional_name obsrec)) o))
                      obsrec
                | Some _ => obsrec
                end
            | CommentStr _ => obsrec
            end in
          if isinstance_TNOdbComment (_comment obsrec) then
            match _comment obsrec with
            | CommentObj o =>
                match OSSOSComment.flags o with
                | Some flags =>
                    do f0 <- Py.index flags 0;
                    if Ascii.eqb f0 "1" then
                      do d <- Discovery.is_discovery_setter (PyBool true) (_discovery obsrec);
                      Ok (ObservationRecord (set__discovery d obsrec))
                    else Ok (ObservationRecord obsrec)
                | None => Raise TypeError
                end
            | CommentStr _ => Ok (ObservationRecord obsrec)
            end
          else Ok (ObservationRecord obsrec)
      | _ => Raise TypeError
      end.

End Observation.

(** ** An exact instance of the externals

    Decimal literals read and printed exactly, the Gregorian calendar for
    the Julian day (in units of 1e-6 day) and sexagesimal angles. It stands
    in for [float], [format] and astropy where a concrete line is
    evaluated; theorems that do not name it hold for every [Externals]. *)

Module Exact.

Fixpoint pow10 (n : nat) : Z :=
  match n with
  | O => 1
  | S n' => 10 * pow10 n'
  end.

Definition all_digits (l : list ascii) : bool := forallb Py.is_digit l.

Definition digits (l : list ascii) : Z := default 0%Z (Py.digits_value 0 l).

(** An unsigned decimal literal [ddd], [ddd.ddd], [.ddd] or [ddd.]. *)
Definition unsigned_decimal (l : list ascii) : option Q :=
  match Py.split_on "." (string_of_list_ascii l) with
  | [i] =>
      let i := list_ascii_of_string i in
      if all_digits i && negb (length i =? 0)%nat
      then Some (inject_Z (digits i)) else None
  | [i; f] =>
      let i := list_ascii_of_string i in
      let f := list_ascii_of_string f in
      if all_digits i && all_digits f && negb (length (i ++ f) =? 0)%nat
      then Some (Qred (Qmake (digits (i ++ f)) (Z.to_pos (pow10 (length f)))))
      else None
  | _ => None
  end.

Definition float_of_string (s : string) : option Q :=
  match list_ascii_of_string (Py.strip s) with
  | "-"%char :: l => option_map (fun q => Qred (Qopp q)) (unsigned_decimal l)
  | "+"%char :: l => unsigned_decimal l
  | l => unsigned_decimal l
  end.

(** The integer nearest to [q], ties to even. *)
Definition round_half_even (q : Q) : Z :=
  let n := Qnum q in
  let d := Zpos (Qden q) in
  let fl := (n / d)%Z in
  let r := (2 * (n mod d))%Z in
  if (r <? d)%Z then fl
  else if (d <? r)%Z then (fl + 1)%Z
  else if Z.even fl then fl else (fl + 1)%Z.

Definition zero_padded (w : nat) (z : Z) : string :=
  let s := Py.str_of_Z z in
  Py.repeat_char "0" (w - String.length s) +:+ s.

(** A scaled integer [n] (that is [n / 10^p]) with [p] decimals. *)
Definition fixed_point (p : nat) (n : Z) : string :=
  let a := Z.abs n in
  let body :=
    Py.str_of_Z (a / pow10 p)
      +:+ (if (p =? 0)%nat then "" else "." +:+ zero_padded p (a mod pow10 p)) in
  if (n <? 0)%Z then "-" +:+ body else body.

Definition format_float (p : nat) (q : Q) : string :=
  fixed_point p (round_half_even (q * inject_Z (pow10 p))).

(** Calendar date to Julian day number and back (Fliegel and Van
    Flandern), with truncating division. *)
Definition jdn_of_date (y m d : Z) : Z :=
  let a := Z.quot (m - 14) 12 in
  (Z.quot (1461 * (y + 4800 + a)) 4
   + Z.quot (367 * (m - 2 - 12 * a)) 12
   - Z.quot (3 * Z.quot (y + 4900 + a) 100) 4
   + d - 32075)%Z.

Definition date_of_jdn (jdn : Z) : Z * Z * Z :=
  let l := (jdn + 68569)%Z in
  let n := Z.quot (4 * l) 146097 in
  let l := (l - Z.quot (146097 * n + 3) 4)%Z in
  let i := Z.quot (4000 * (l + 1)) 1461001 in
  let l := (l - Z.quot (1461 * i) 4 + 31)%Z in
  let j := Z.quot (80 * l) 2447 in
  let k := (l - Z.quot (2447 * j) 80)%Z in
  let l := Z.quot j 11 in
  let j := (j + 2 - 12 * l)%Z in
  let i := (100 * (n - 49) + i + l)%Z in
  (i, j, k).

Definition micro : Z := 1000000.

(** The first six decimals of a day fraction, as an integer. *)
Definition fraction_micro (f : list ascii) : Z :=
  digits (firstn 6 (f ++ repeat "0"%char 6)).

Definition Time_new (s : string) (p : nat) : option Time :=
  let s := Py.strip s in
  let '(day_part, frac) :=
    match Py.rfind "." s with
    | Some idot => (Py.slice 0 idot s, list_ascii_of_string (Py.slice_from (S idot) s))
    | None => (s, [])
    end in
  match Py.split day_part with
  | [y; m; d] =>
      match Py.int_of_string y, Py.int_of_string m, Py.int_of_string d with
      | Some y, Some m, Some d =>
          if all_digits frac && (1 <=? m)%Z && (m <=? 12)%Z && (1 <=? d)%Z && (d <=? 31)%Z
          then
            let j := (jdn_of_date y m d * micro - 500000 + fraction_micro frac)%Z in
            Some (mkTime j (j - 2400000500000) p)
          else None
      | _, _, _ => None
      end
  | _ => None
  end.

Definition Time_str (t : Time) : string :=
  let x := (jd t + 500000)%Z in
  let '(y, m, d) := date_of_jdn (x / micro) in
  let fracday := substring 0 (precision t) (zero_padded 6 (x mod micro)) in
  Py.rjust 4 (Py.str_of_Z y) +:+ " " +:+ zero_padded 2 m +:+ " " +:+ zero_padded 2 d
    +:+ "." +:+ fracday.

Definition ICRS_degrees (ra dec : Q) : option Coord := Some (mkCoord ra dec).

(** [a b c] as [a + b/60 + c/3600], the sign of [a] carried over. *)
Definition sexagesimal (s : string) : option Q :=
  let s := Py.strip s in
  let negative := String.prefix "-" s in
  let s := Py.lstrip_chars "+-" s in
  match Py.split s with
  | [a; b; c] =>
      match Py.int_of_string a, Py.int_of_string b, float_of_string c with
      | Some a, Some b, Some c =>
          let v := Qred (inject_Z a + inject_Z b / 60 + c / 3600) in
          Some (if negative then Qred (- v) else v)
      | _, _, _ => None
      end
  | _ => None
  end.

Definition ICRS_sexagesimal (val1 val2 : string) : option Coord :=
  match sexagesimal val1, sexagesimal val2 with
  | Some h, Some d => Some (mkCoord (Qred (h * 15)) d)
  | _, _ => None
  end.

(** [v] (hours or degrees) as [XX MM SS.ddd] with [p] decimals. *)
Definition sexagesimal_str (always_sign : bool) (p : nat) (v : Q) : string :=
  let n := round_half_even ((if Qltb v 0 then - v else v) * 3600 * inject_Z (pow10 p)) in
  let unit := pow10 p in
  let secs := (n mod (60 * unit))%Z in
  let mins := ((n / (60 * unit)) mod 60)%Z in
  let whole := (n / (3600 * unit))%Z in
  let sign :=
    if Qltb v 0 then "-" else if always_sign then "+" else "" in
  let sec_str :=
    zero_padded 2 (secs / unit)
      +:+ (if (p =? 0)%nat then "" else "." +:+ zero_padded p (secs mod unit)) in
  sign +:+ zero_padded 2 whole +:+ " " +:+ zero_padded 2 mins +:+ " " +:+ sec_str.

Definition ra_format (c : Coord) (p : nat) : string :=
  sexagesimal_str false p (ra_deg c / 15).

Definition dec_format (c : Coord) (p : nat) : string :=
  sexagesimal_str true p (dec_deg c).

Definition externals : Externals :=
  mkExternals float_of_string format_float Time_new Time_str ICRS_degrees
    ICRS_sexagesimal ra_format dec_format.

End Exact.

(** ** MPCWriter

    The writer keeps references to the records it was given and mutates
    them when it flushes, so the records live in a store and the buffer
    holds references. The file handle is the list of lines written,
    oldest first, each beside the record as it was when rendered. *)

Module MPCWriter.

Definition ref : Type := nat.

Definition heap : Type := ref -> Observation.t.

Definition store (r : ref) (o : Observation.t) (h : heap) : heap :=
  fun r' => if Nat.eqb r' r then o else h r'.

Record t : Type := mk {
  filehandle : list (Observation.t * string);
  auto_flush : bool;
  include_comments : bool;
  buffer : gmap Z ref;
  _written_mpc_observations : list Z;
  auto_discovery : bool;
  _discovery_written : bool;
  formatter : Observation.t -> result string
}.

Definition set_filehandle (v : list (Observation.t * string)) (self : t) : t :=
  mk v (auto_flush self) (include_comments self) (buffer self)
    (_written_mpc_observations self) (auto_discovery self) (_discovery_written self)
    (formatter self).

Definition set_buffer (v : gmap Z ref) (self : t) : t :=
  mk (filehandle self) (auto_flush self) (include_comments self) v
    (_written_mpc_observations self) (auto_discovery self) (_discovery_written self)
    (formatter self).

Definition set__written_mpc_observations (v : list Z) (self : t) : t :=
  mk (filehandle self) (auto_flush self) (include_comments self) (buffer self) v
    (auto_discovery self) (_discovery_written self) (formatter self).

Definition set__discovery_written (v : bool) (self : t) : t :=
  mk (filehandle self) (auto_flush self) (include_comments self) (buffer self)
    (_written_mpc_observations self) (auto_discovery self) v (formatter self).

Definition __init__ (ext : Externals) (auto_flush include_comments auto_discovery : bool)
  (formatter : option (Observation.t -> result string)) : t :=
  mk [] auto_flush include_comments ∅ [] auto_discovery false
     (match formatter with
      | None =>
          if include_comments then Observation.to_string ext else Observation.__str__ ext
      | Some f => f
      end).

(** A method of the record behind [r], and an assignment to an attribute
    of the writer, as steps of a writer method. *)
Definition on_object {A : Type} (r : ref) (m : meth Observation.t A) : meth (heap * t) A :=
  fun s =>
    let '(res, o) := m (s.1 r) in
    (res, (store r o s.1, s.2)).

Definition on_self (f : t -> t) : meth (heap * t) unit :=
  fun s => (Ok tt, (s.1, f s.2)).

Definition _flush_observation (obs : ref) : meth (heap * t) unit :=
  step s <- mself;
  exec (if auto_discovery s.2
           && negb (NullObservation.__nonzero__ (Observation.null_observation (s.1 obs)))
           && negb (_discovery_written s.2)
        then on_object obs (Observation.discovery_setter (PyBool true))
        else mret tt);
  step s <- mself;
  exec (if Discovery.__nonzero__ (Observation.discovery (s.1 obs)) then
          if _discovery_written s.2 then
            on_object obs
              (massign (fun o =>
                 Observation.set__discovery
                   (Discovery.is_initial_discovery_setter (PyBool false)
                      (Observation.discovery o)) o))
          else on_self (set__discovery_written true)
        else mret tt);
  step s <- mself;
  let day := jd (Observation.date (s.1 obs)) in
  if negb (existsb (Z.eqb day) (_written_mpc_observations s.2)) then
    exec on_self (fun w =>
           set__written_mpc_observations (_written_mpc_observations w ++ [day]) w);
    step line <- mlift (formatter s.2 (s.1 obs));
    on_self (fun w => set_filehandle (filehandle w ++ [(s.1 obs, line +:+ String "010" "")]) w)
  else mret tt.

Definition get_chronological_buffered_observations (self : t) : list ref :=
  let jds := merge_sort Z.le (map fst (map_to_list (buffer self))) in
  omap (fun jd => buffer self !! jd) jds.

Fixpoint for_each {S : Type} (body : ref -> meth S unit) (l : list ref) : meth S unit :=
  match l with
  | [] => mret tt
  | obs :: l' => exec body obs; for_each body l'
  end.

Definition flush : meth (heap * t) unit :=
  step s <- mself;
  for_each _flush_observation (get_chronological_buffered_observations s.2).

Definition write (mpc_observation : ref) : meth (heap * t) unit :=
  step s <- mself;
  let key := mjd (Observation.date (s.1 mpc_observation)) in
  exec on_self (fun w => set_buffer (<[key := mpc_observation]> (buffer w)) w);
  step s <- mself;
  if auto_flush s.2 then flush else mret tt.

(** What a caller does with a writer: create or change a record, write a
    record, flush. An exception out of a call is the caller's to handle;
    the writer stays as the call left it. *)
Inductive call : Type :=
| Assign (r : ref) (o : Observation.t)
| Write (r : ref)
| Flush.

Definition perform (s : heap * t) (c : call) : heap * t :=
  match c with
  | Assign r o => (store r o s.1, s.2)
  | Write r => (write r s).2
  | Flush => (flush s).2
  end.

Definition run (calls : list call) (s : heap * t) : heap * t :=
  fold_left perform calls s.

(** The records of the lines written so far, oldest first. *)
Definition emitted (s : heap * t) : list Observation.t := map fst (filehandle s.2).

End MPCWriter.

(** ** Index: the name-alias table *)

Module Index.

Definition MAX_NAME_LENGTH : nat := 10.

Record t : Type := mk {
  names : gmap string string;
  index : gmap string (list string)
}.

(** [range(start, stop, stride)] for a positive stride. *)
Definition range (start stop stride : nat) : list nat :=
  filter (fun i => i < stop) (map (fun k => start + stride * k) (seq 0 stop)).

(** One line of the table: the master name, then its aliases. *)
Definition add_line (self : t) (line : string) : t :=
  let master_name := Py.strip (Py.slice 0 MAX_NAME_LENGTH line) in
  let self := mk (<[master_name := master_name]> (names self))
                 (<[master_name := [master_name]]> (index self)) in
  fold_left
    (fun self i =>
       let this_name := Py.strip (Py.slice i (i + MAX_NAME_LENGTH) line) in
       mk (<[this_name := master_name]> (names self))
          (alter (fun aliases => aliases ++ [this_name]) master_name (index self)))
    (range MAX_NAME_LENGTH (String.length line) MAX_NAME_LENGTH)
    self.

(** [__init__], from the lines that [readlines] returns. *)
Definition __init__ (lines : list string) : t :=
  fold_left add_line lines (mk ∅ ∅).

(** What [get_aliases] returns: the name it was given, a [str], or a list
    of names. *)
Inductive aliases : Type :=
| Name (name : string)
| Group (l : list string).

Definition get_aliases (self : t) (name : string) : result aliases :=
  match names self !! name with
  | None => Ok (Name name)
  | Some master =>
      match index self !! master with
      | Some l => Ok (Group l)
      | None => Raise KeyError
      end
  end.

(** [name2 in self.get_aliases(name1)]: membership in a list, substring
    test in a [str]. *)
Definition is_same (self : t) (name1 name2 : string) : result bool :=
  do a <- get_aliases self name1;
  match a with
  | Name s => Ok (Py.contains name2 s)
  | Group l => Ok (existsb (String.eqb name2) l)
  end.

End Index.

(** ** The other methods and functions of the module *)

(** *** [MPCNote.long]

    [MPCNOTES] with its values: what [MPCNOTES[note_type]] holds, in the
    order of the literal. *)
Definition MPCNOTES_items (note_type : string) : option (list (string * string)) :=
  if String.eqb note_type "Note1" then
    Some [(" ", " "); ("", " "); ("*", "*");
          ("A", "earlier approximate position inferior");
          ("a", "sense of motion ambiguous");
          ("B", "bright sky/black or dark plate");
          ("b", "bad seeing");
          ("c", "crowded star field");
          ("D", "declination uncertain");
          ("d", "diffuse image");
          ("E", "at or near edge of plate");
          ("F", "faint image");
          ("f", "involved with emulsion or plate flaw");
          ("G", "poor guiding");
          ("g", "no guiding");
          ("H", "hand measurement of CCD image");
          ("I", "involved with star");
          ("i", "inkdot measured");
          ("J", "J2000.0 rereduction of previously-reported position");
          ("K", "stacked image");
          ("k", "stare-mode observation by scanning system");
          ("M", "measurement difficult");
          ("m", "image tracked on object motion");
          ("N", "near edge of plate, measurement uncertain");
          ("O", "image out of focus");
          ("o", "plate measured in one direction only");
          ("P", "position uncertain");
          ("p", "poor image");
          ("R", "right ascension uncertain");
          ("r", "poor distribution of reference stars");
          ("S", "poor sky");
          ("s", "streaked image");
          ("T", "time uncertain");
          ("t", "trailed image");
          ("U", "uncertain image");
          ("u", "unconfirmed image");
          ("V", "very faint image");
          ("W", "weak image");
          ("w", "weak solution")]
  else if String.eqb note_type "Note2" then
    Some [(" ", " "); ("", " ");
          ("P", "Photographic");
          ("e", "Encoder");
          ("C", "CCD");
          ("T", "Meridian or transit circle");
          ("M", "Micrometer");
          ("V", "'Roving Observer' observation");
          ("R", "Radar observation");
          ("S", "Satellite observation");
          ("c", "Corrected-without-republication CCD observation");
          ("E", "Occultation-derived observations");
          ("O", "Offset observations (used only for observations of natural satellites)");
          ("H", "Hipparcos geocentric observations");
          ("N", "Normal place");
          ("n", "Mini-normal place derived from averaging observations from video frames")]
  else if String.eqb note_type "PhotometryNote" then
    Some [(" ", " "); ("", " ");
          ("L", "Photometry uncertainty lacking");
          ("Y", "Photometry measured successfully");
          ("Z", "Photometry measurement failed.")]
  else None.

(** [d[key]] on the items of a dict literal. *)
Definition dict_get (items : list (string * string)) (key : string) : result string :=
  match find (fun kv => String.eqb key kv.1) items with
  | Some kv => Ok kv.2
  | None => Raise KeyError
  end.

(** [return MPCNOTES[self.note_type][self.code]] *)
Definition MPCNote_long (self : MPCNote.t) : result string :=
  match MPCNOTES_items (MPCNote._note_type self) with
  | Some items => dict_get items (MPCNote.code self)
  | None => Raise KeyError
  end.

(** *** [Discovery.set_from_mpc_line] *)
Definition Discovery_set_from_mpc_line (mpc_line : string) (self : Discovery.t)
  : result Discovery.t :=
  if (String.length mpc_line <? 56)%nat then Raise (MPCFieldFormatError "mpc_line")
  else
    do c <- Py.index mpc_line 12;
    Discovery.is_discovery_setter (PyStr (String c "")) self.

(** *** [get_date] *)
Definition get_date (ext : Externals) (date_string : string) : option Time :=
  let _date_precision := compute_precision date_string in
  Time_new ext date_string _date_precision.

(** *** [Observation.to_tnodb] and [Observation.to_mpc]

    Both assign to the record before they render it; the assignments stay
    when the method has returned. *)
Definition set_null_observation_character (c : string) (self : Observation.t)
  : Observation.t :=
  Observation.set__null_observation
    (NullObservation.mk c
       (NullObservation._null_observation (Observation.null_observation self)))
    self.

Definition Observation_to_tnodb (ext : Externals) : meth Observation.t string :=
  step self <- mself;
  let comment_line :=
    "#" +:+ Py.rstrip_chars (String "010" "") (Comment_str ext (Observation.comment self)) in
  exec (match Observation.mag self with
        | Some m =>
            if Qeq_bool m (-1)
            then exec massign (Observation.set__mag_precision 0);
                 massign (Observation.set__mag None)
            else massign (Observation.set__mag_precision 1)
        | None => massign (Observation.set__mag_precision 1)
        end);
  exec massign (set_null_observation_character "-");
  step self <- mself;
  step mpc_observation <- mlift (Observation.__str__ ext self);
  mret (comment_line +:+ String "010" "" +:+ mpc_observation).

Definition Observation_to_mpc (ext : Externals) : meth Observation.t string :=
  exec massign (set_null_observation_character "#");
  step self <- mself;
  mlift (Observation.__str__ ext self).

(** *** [TNOdbComment.to_string] *)

(** ["{}".format(v)] for an attribute that is a [str] or [None]. *)
Definition format_attribute (v : option string) : string := default "None" v.

Definition TNOdbComment_to_string (ext : Externals) (self : OSSOSComment.t) : string :=
  let comm :=
    format_attribute (OSSOSComment.index self) +:+ " "
      +:+ format_attribute (OSSOSComment.date self) +:+ " "
      +:+ format_attribute (OSSOSComment.flags self) in
  let comm := comm +:+ Py.repeat_char " " 22 in
  comm +:+ OSSOSComment.__str__ ext self.

(** *** [make_tnodb_header]

    [Time_iso] is the [iso] attribute of an astropy time; times compare by
    their Julian day, and [min] and [max] return the first of equals. *)
Definition py_min (l : list Time) : result Time :=
  match l with
  | [] => Raise ValueError
  | d :: l' => Ok (fold_left (fun m x => if (jd x <? jd m)%Z then x else m) l' d)
  end.

Definition py_max (l : list Time) : result Time :=
  match l with
  | [] => Raise ValueError
  | d :: l' => Ok (fold_left (fun m x => if (jd m <? jd x)%Z then x else m) l' d)
  end.

(** [s.replace(c, '')] *)
Definition remove_char (c : ascii) (s : string) : string :=
  string_of_list_ascii
    (List.filter (fun a => negb (Ascii.eqb a c)) (list_ascii_of_string s)).

Definition DEFAULT_OBSERVERS : list string := ["M. T. Bannister"; "J. J. Kavelaars"].
Definition DEFAULT_TELESCOPE : string := "CFHT 3.6m + CCD".
Definition DEFAULT_ASTROMETRIC_NETWORK : string := "UCAC4".

Definition make_tnodb_header (Time_iso : Time -> string)
  (observations : list Observation.t) (observatory_code : option string)
  (observers : list string) (telescope astrometric_network : string) : result string :=
  do observatory_code <-
    match observatory_code with
    | None =>
        do first <- Py.list_index observations 0;
        Ok (if Py.nonempty (Observation.observatory_code first)
            then Observation.observatory_code first
            else "None")
    | Some code => Ok code
    end;
  let odates := map Observation.date observations in
  do lo <- py_min odates;
  let mindate := Py.slice 0 8 (remove_char "-" (Time_iso lo)) in
  do hi <- py_max odates;
  let maxdate := Py.slice 0 8 (remove_char "-" (Time_iso hi)) in
  let header := "COD " +:+ observatory_code +:+ String "010" "" in
  let sep := "" in
  let header := header +:+ "OBS " in
  let '(header, sep) :=
    fold_left (fun '(header, sep) observer => (header +:+ sep +:+ observer, ", "))
      (removelast observers) (header, sep) in
  let header :=
    if (1 <? length observers)%nat
    then header +:+ " and " +:+ List.last observers ""
    else header in
  let header := header +:+ String "010" "" in
  let header := header +:+ "TEL " +:+ telescope +:+ String "010" "" in
  let header := header +:+ "NET " +:+ astrometric_network +:+ String "010" "" in
  let header := header +:+ "STD" +:+ " " +:+ mindate +:+ String "010" "" in
  let header := header +:+ "END" +:+ " " +:+ maxdate +:+ String "010" "" in
  Ok header.

(** *** MPCReader

    The reader is given the text of the file; [filename] is the name it
    was opened by, a [str]. [replace_provisional] is [None] by default,
    and the code only asks whether it is. *)
Module MPCReader.

Record t : Type := mk {
  replace_provisional : option bool;
  _provisional_name : option string;
  filename : string
}.

Definition set__provisional_name (v : option string) (self : t) : t :=
  mk (replace_provisional self) v (filename self).

Definition set_filename (v : string) (self : t) : t :=
  mk (replace_provisional self) (_provisional_name self) v.

(** [os.path.basename] *)
Definition basename (p : string) : string :=
  match Py.rfind "/" p with
  | Some i => Py.slice_from (S i) p
  | None => p
  end.

(** The property [provisional_name]: computed from the file name at the
    first use, kept from then on. *)
Definition provisional_name : meth t string :=
  step self <- mself;
  match _provisional_name self with
  | Some name => mret name
  | None =>
      exec massign (set__provisional_name (Some (Py.rstrip_chars ".ast" (filename self))));
      step self <- mself;
      let name := basename (default "" (_provisional_name self)) in
      exec massign (set__provisional_name (Some name));
      mret name
  end.

(** The variables of the loop of [read]. *)
Record frame : Type := mkFrame {
  self : t;
  next_comment : option OSSOSComment.t;
  mpc_observations : list Observation.t
}.

Definition set_self (v : t) (f : frame) : frame :=
  mkFrame v (next_comment f) (mpc_observations f).

Definition set_next_comment (v : option OSSOSComment.t) (f : frame) : frame :=
  mkFrame (self f) v (mpc_observations f).

Definition set_mpc_observations (v : list Observation.t) (f : frame) : frame :=
  mkFrame (self f) (next_comment f) v.

Definition on_reader {A : Type} (m : meth t A) : meth frame A :=
  fun f =>
    let '(res, r) := m (self f) in
    (res, set_self r f).

(** A setter called on the record of the current line. *)
Definition on_record {A : Type} (m : meth Observation.t A) (o : Observation.t)
  : meth frame Observation.t :=
  fun f =>
    match m o with
    | (Ok _, o') => (Ok o', f)
    | (Raise e, _) => (Raise e, f)
    end.

(** The body of the loop, inside its [try]. *)
Definition read_line (ext : Externals) (line : string) : meth frame unit :=
  step mpc_observation <- mlift (Observation.from_string ext line);
  match mpc_observation with
  | Observation.CommentRecord (CommentObj c) => massign (set_next_comment (Some c))
  | Observation.ObservationRecord mpc_observation =>
      step f <- mself;
      step mpc_observation <-
        match next_comment f with
        | Some c =>
            step mpc_observation <-
              on_record (Observation.comment_setter (Some (CommentObj c))) mpc_observation;
            exec massign (set_next_comment None);
            mret mpc_observation
        | None => mret mpc_observation
        end;
      step f <- mself;
      step mpc_observation <-
        match replace_provisional (self f) with
        | Some _ =>
            step name <- on_reader provisional_name;
            on_record (Observation.provisional_name_setter (Some name)) mpc_observation
        | None => mret mpc_observation
        end;
      step f <- mself;
      massign (set_mpc_observations (mpc_observations f ++ [mpc_observation]))
  | _ => mret tt
  end.

Fixpoint read_lines (ext : Externals) (lines : list string) : meth frame unit :=
  match lines with
  | [] => mret tt
  | line :: lines' =>
      exec mtry (read_line ext line) (fun _ => mret tt);
      read_lines ext lines'
  end.

(** [read(filename)], [filestr] being what the file holds. *)
Definition read (ext : Externals) (filename : string) (filestr : string)
  : meth t (list Observation.t) :=
  fun self =>
    let self := set_filename filename self in
    let input_mpc_lines := Py.split_on "010" filestr in
    let '(_, f) := read_lines ext input_mpc_lines (mkFrame self None []) in
    (Ok (mpc_observations f), MPCReader.self f).

End MPCReader.

(** *** [MPCConverter.__init__]: the name of the file it writes *)
Module MPCConverter.

Record t : Type := mk {
  mpc_file : string;
  outfile : string;
  write_header : bool
}.

(** [s.rpartition('.')[0]] *)
Definition rpartition_head (s : string) : string :=
  match Py.rfind "." s with
  | Some i => Py.slice 0 i s
  | None => ""
  end.

Definition __init__ (mpc_file : string) (output : option string) : t :=
  let output :=
    match output with
    | None => rpartition_head mpc_file +:+ ".tnodb"
    | Some o => o
    end in
  mk mpc_file output true.

End MPCConverter.

(** * Notions and inputs of the statements *)

(** ** Lines, tables and records that the examples evaluate *)

(** A line in the layout of the object database: index, date and flags
    in their columns, free text from column 57. *)
Definition tnodb_line_with_five_words : string :=
  "20130405_abc_d 20130405 1000000000                      O a b c d".

(** An index of one line: master name [O13BL3RX], alias [o3l01]. *)
Definition one_line_index : Index.t := Index.__init__ ["O13BL3RX  o3l01     "].

(** The line of the specification's scenario, as printed there: 82
    characters, the discovery column (13) holding 'A'. *)
Definition scenario_line : string :=
  "     K13T01 A*2 C2013 10 05.41268312 34 45.671-20 28 15.90         20.63R      568".

(** The same fields at their columns: 80 characters, '*' in column 13,
    'A' in 14, 'C' in 15. *)
Definition aligned_line : string :=
  "     K13T01 *AC2013 10 05.41268312 34 45.671-20 28 15.90         20.63R      568".



(** The record that [from_string] reads from a line, with the exact
    externals. *)
Definition record_of_line (line : string) : Observation.t :=
  match Observation.from_string Exact.externals line with
  | Ok (Observation.ObservationRecord o) => o
  | _ => Observation.blank
  end.

(** A null observation ('!' in column 1) that carries the asterisk in
    column 13, and two plain observations, one day and two days later. *)
Definition null_discovery_line : string :=
  "!    K13T01 * C2013 10 05.41268312 34 45.671-20 28 15.90         20.6 R      568".

Definition second_day_line : string :=
  "     K13T01   C2013 10 06.41268312 34 45.671-20 28 15.90         20.6 R      568".

Definition third_day_line : string :=
  "     K13T01 * C2013 10 07.41268312 34 45.671-20 28 15.90         20.6 R      568".

Definition three_records : MPCWriter.heap :=
  MPCWriter.store 0 (record_of_line null_discovery_line)
    (MPCWriter.store 1 (record_of_line second_day_line)
       (MPCWriter.store 2 (record_of_line third_day_line) (fun _ => Observation.blank))).

(** [MPCWriter(filehandle)] with its defaults: [auto_flush],
    [include_comments] and [auto_discovery] on, the standard formatter. *)
Definition default_writer : MPCWriter.t :=
  MPCWriter.__init__ Exact.externals true true true None.

Definition first_line : string :=
  "     first    C2013 10 05.41268312 34 45.671-20 28 15.90         20.6 R      568".

Definition second_line : string :=
  "     second   C2013 10 05.41268312 34 45.671-20 28 15.90         20.6 R      568".

(** Two records of the same date, hence of the same time key and the same
    Julian day. *)
Definition two_records : MPCWriter.heap :=
  MPCWriter.store 0 (record_of_line first_line)
    (MPCWriter.store 1 (record_of_line second_line) (fun _ => Observation.blank)).

(** ** What the statements speak of *)

(** What holds for the names that the index knows: the group of the
    master name is there and starts with the master name. *)
Definition Index_consistent (self : Index.t) : Prop :=
  forall name master,
    Index.names self !! name = Some master ->
    exists l, Index.index self !! master = Some (master :: l).


(** What the setters of [plate_uncertainty] and [astrometric_level] let
    through: an uncertainty strictly between 0 and 100, a level strictly
    between -1 and 10. *)
Definition comment_in_range (o : OSSOSComment.t) : Prop :=
  match OSSOSComment._plate_uncertainty o with
  | Some p => in_open 0 100 p = true
  | None => True
  end
  /\ ((-1 <? OSSOSComment._astrometric_level o)%Z
      && (OSSOSComment._astrometric_level o <? 10)%Z = true).

Section WriterNotions.

Import MPCWriter.

Definition is_null (o : Observation.t) : bool :=
  NullObservation.__nonzero__ (Observation.null_observation o).

Definition is_marked (o : Observation.t) : bool :=
  Discovery.__nonzero__ (Observation.discovery o).

(** The character that [__str__] puts in the discovery column. *)
Definition marker (o : Observation.t) : string :=
  Discovery.__str__ (Observation.discovery o).

Definition day (o : Observation.t) : Z := jd (Observation.date o).

(** What one call of [_flush_observation] does to the record and to the
    writer, as functions of the two. *)
Definition marked_by_writer (w : t) (o : Observation.t) : bool :=
  auto_discovery w && negb (is_null o) && negb (_discovery_written w).

Definition after_marking (w : t) (o : Observation.t) : Observation.t :=
  if marked_by_writer w o
  then Observation.set__discovery (Discovery.mk true true) o
  else o.

Definition after_flush (w : t) (o : Observation.t) : Observation.t :=
  let o1 := after_marking w o in
  if is_marked o1 && _discovery_written w
  then Observation.set__discovery
         (Discovery.is_initial_discovery_setter (PyBool false) (Observation.discovery o1)) o1
  else o1.

Definition newly_written (w : t) (o : Observation.t) : bool :=
  negb (existsb (Z.eqb (day o)) (_written_mpc_observations w)).

Definition lines_of (w : t) (o : Observation.t) : list (Observation.t * string) :=
  if newly_written w o then
    match formatter w (after_flush w o) with
    | Ok line => [(after_flush w o, line +:+ String "010" "")]
    | Raise _ => []
    end
  else [].

(** The discovery flag as its constructor and the parser leave it: an
    initial discovery is a discovery. *)
Definition well_formed (o : Observation.t) : Prop :=
  Discovery.is_initial_discovery (Observation.discovery o) = true ->
  Discovery.is_discovery (Observation.discovery o) = true.

(** A null observation without a discovery mark. *)
Definition unmarked_null (o : Observation.t) : Prop :=
  is_null o = true /\ marker o = " ".

(** The lines written so far: null observations without a mark, then, once
    a discovery has been seen, lines of which only the first can show the
    asterisk. *)
Definition one_discovery (out : list Observation.t) (discovery_written : bool) : Prop :=
  exists pre rest,
    out = pre ++ rest
    /\ Forall unmarked_null pre
    /\ Forall (fun e => marker e <> "*") (tail rest)
    /\ (discovery_written = false -> rest = []).

Definition discovery_invariant (s : heap * t) : Prop :=
  auto_discovery s.2 = true
  /\ (forall r, well_formed (s.1 r))
  /\ one_discovery (emitted s) (_discovery_written s.2).

(** The days of the lines written are pairwise distinct and are all in
    the list of written days. *)
Definition days_invariant (s : heap * t) : Prop :=
  NoDup (map day (emitted s))
  /\ forall d, d ∈ map day (emitted s) -> d ∈ _written_mpc_observations s.2.

End WriterNotions.

(** The aligned line with the coordinates given to one decimal. *)
Definition short_coordinates_line : string :=
  "     K13T01   C2013 10 05.41268312 34 45.6  -20 28 15.9          20.63R      568".

(** What [band.setter] keeps of the text it is given: its first
    character that is no blank. *)
Definition band_of (band : string) : option string :=
  match Py.strip_chars " " band with
  | EmptyString => None
  | String c _ => Some (String c "")
  end.

(** The aligned line with a magnitude and no band. *)
Definition no_band_line : string :=
  "     K13T01   C2013 10 05.41268312 34 45.671-20 28 15.90         20.6        568".


(** A Julian day that the writer has recorded and has written no line
    for. *)
Definition lost_day (d : Z) (s : MPCWriter.heap * MPCWriter.t) : Prop :=
  d ∈ MPCWriter._written_mpc_observations s.2
  /\ d ∉ map day (MPCWriter.emitted s).

(** A formatter that always fails. *)
Definition failing_formatter (o : Observation.t) : result string :=
  Raise (MPCFieldFormatError "mag").

(** The names on one line of an index file: the master name in the first
    ten columns, then one alias for every further stretch of ten columns
    that the line begins, the end of the line included. *)
Definition master_of (line : string) : string :=
  Py.strip (Py.slice 0 Index.MAX_NAME_LENGTH line).

Definition aliases_of (line : string) : list string :=
  map (fun i => Py.strip (Py.slice i (i + Index.MAX_NAME_LENGTH) line))
    (Index.range Index.MAX_NAME_LENGTH (String.length line) Index.MAX_NAME_LENGTH).

Definition names_of_line (line : string) : list string :=
  master_of line :: aliases_of line.

(** One turn of the inner loop of [Index.__init__]. *)
Definition add_alias (master_name : string) (self : Index.t) (this_name : string)
  : Index.t :=
  Index.mk (<[this_name := master_name]> (Index.names self))
    (alter (fun aliases => aliases ++ [this_name]) master_name (Index.index self)).

(** An index file of three lines, as [readlines] returns it. *)
Definition three_line_index : list string :=
  ["K13T01    a1        " +:+ String "010" "";
   "O13BL3RX  o3l01     " +:+ String "010" "";
   "O13BL3RY  o3l02     " +:+ String "010" ""].

(** The record that [from_string] makes of a line, when it makes one. *)
Definition parsed_record (ext : Externals) (line : string) : option Observation.t :=
  match Observation.from_string ext line with
  | Ok (Observation.ObservationRecord o) => Some o
  | _ => None
  end.

(** A line that the reader passes over: [from_string] raises, or returns
    [None] or a plain text. *)
Definition passed_over (ext : Externals) (line : string) : Prop :=
  match Observation.from_string ext line with
  | Ok (Observation.ObservationRecord _) => False
  | Ok (Observation.CommentRecord (CommentObj _)) => False
  | _ => True
  end.

(** The provisional name of a reader: the one it was given, else the one
    it makes of its file name. *)
Definition reader_name (self : MPCReader.t) : string :=
  match MPCReader._provisional_name self with
  | Some name => name
  | None => MPCReader.basename (Py.rstrip_chars ".ast" (MPCReader.filename self))
  end.

(** The reader once it has looked its provisional name up. *)
Definition named (self : MPCReader.t) : MPCReader.t :=
  MPCReader.set__provisional_name (Some (reader_name self)) self.

(** What the reader does to a record: when [replace_provisional] is not
    [None] it gives it its own provisional name. *)
Definition renamed (self : MPCReader.t) (o : Observation.t) : Observation.t :=
  match MPCReader.replace_provisional self with
  | Some _ => Observation.set__provisional_name (Py.strip (reader_name self)) o
  | None => o
  end.

(** A file of two lines: a comment line and the aligned line. *)
Definition commented_file : string :=
  "#O 1631355p21 O13AE2O     Y  1632.20 1102.70 0.21 3 20.63 0.05 % note"
    +:+ String "010" "" +:+ "garbage" +:+ String "010" "" +:+ aligned_line.

(** The observers as the header names them: all but the last, separated
    by commas, then the last after "and", when there are two at least. *)
Definition observers_text (observers : list string) : string :=
  Py.join ", " (removelast observers)
    +:+ (if (1 <? length observers)%nat then " and " +:+ List.last observers "" else "").

(** A comment in the layout of the object database, and its object. *)
Definition tnodb_text_line : string :=
  "20130405_abc_d 20130405 1000000000                      some text".

Definition tnodb_comment_of (line : string) : OSSOSComment.t :=
  match TNOdbComment_from_string Exact.externals line with
  | Ok (CommentObj c) => c
  | _ => OSSOSComment.blank OSSOSComment.IsTNOdbComment
  end.

(** The record as [to_tnodb] leaves it: no magnitude when it was -1, else
    one decimal of magnitude; '-' for a null observation. *)
Definition tnodb_form (o : Observation.t) : Observation.t :=
  set_null_observation_character "-"
    (match Observation.mag o with
     | Some m =>
         if Qeq_bool m (-1)
         then Observation.set__mag None (Observation.set__mag_precision 0 o)
         else Observation.set__mag_precision 1 o
     | None => Observation.set__mag_precision 1 o
     end).

(** A comment of 62 blanks: as long as the fixed-width layout of a survey
    comment. *)
Definition sixty_two_blanks : string := Py.repeat_char " " 62.

(** The aligned line with three blanks after its 80 columns. *)
Definition padded_line : string := aligned_line +:+ "   ".

(** * Properties *)

(** ** TNOdbFlags *)

Lemma re_match_list_nonempty (a : PyOps.atom) (p : list PyOps.atom) (l : list ascii) :
  PyOps.re_match_list (a :: p) l = true -> exists c l', l = c :: l'.
Proof.
  destruct l as [|c l']; simpl; intros H; [discriminate | eauto].
Qed.

Lemma index_0_of_list (s : string) (c : ascii) (l : list ascii) :
  list_ascii_of_string s = c :: l -> Py.index s 0 = Ok c.
Proof.
  destruct s as [|a s']; simpl; intros H; [discriminate|].
  injection H as -> _. reflexivity.
Qed.

(** C10: for every flag string that the constructor accepts, [is_discovery]
    is [False], also when the string starts with '1', and assigning to
    [is_discovery] leaves the object, and so its flag string, as it was. *)
Theorem TNOdbFlags_is_discovery_always_False
  (flags : string) (self : TNOdbFlags.t) (value : PyVal) :
  TNOdbFlags.__init__ flags = Ok self ->
  TNOdbFlags.is_discovery self = Ok false
  /\ TNOdbFlags.is_discovery_setter value self = Ok self
  /\ TNOdbFlags.__str__ self = flags.
Proof.
  unfold TNOdbFlags.__init__. intros H.
  destruct (PyOps.re_match _ flags) eqn:Hm; simpl in H; [|discriminate].
  injection H as <-.
  unfold PyOps.re_match in Hm. simpl repeat in Hm.
  destruct (re_match_list_nonempty _ _ _ Hm) as (c & l' & Hl).
  unfold TNOdbFlags.is_discovery, TNOdbFlags.is_discovery_setter, TNOdbFlags.__str__.
  simpl TNOdbFlags.__flags.
  rewrite (index_0_of_list _ _ _ Hl). simpl. auto.
Qed.

Lemma TNOdbFlags_is_discovery_always_False_witness :
  TNOdbFlags.is_discovery (TNOdbFlags.mk "100000000000") = Ok false
  /\ TNOdbFlags.is_discovery_setter (PyBool true) (TNOdbFlags.mk "100000000000")
     = Ok (TNOdbFlags.mk "100000000000")
  /\ TNOdbFlags.__str__ (TNOdbFlags.mk "100000000000") = "100000000000".
Proof.
  apply (TNOdbFlags_is_discovery_always_False "100000000000" _ (PyBool true)).
  reflexivity.
Defined.

(** ** The magnitude of a comment *)

Lemma Qltb_lt (a b : Q) : Qltb a b = true <-> (a < b)%Q.
Proof. unfold Qltb, Qlt. apply Z.ltb_lt. Qed.

Lemma in_open_spec (lo hi q : Q) : in_open lo hi q = true <-> (lo < q /\ q < hi)%Q.
Proof.
  unfold in_open. rewrite andb_true_iff, !Qltb_lt. tauto.
Qed.

(** C7: assigning a magnitude outside the open range 15 to 30 sets
    [photometry_note] to 'Z' and leaves the stored magnitude [None]; a
    magnitude inside the range sets the note to 'Y' and is stored. *)
Theorem OSSOSComment_mag_setter_range
  (ext : Externals) (self : OSSOSComment.t) (mag : PyVal) (q : Q) :
  py_float ext mag = Ok q ->
  let self' := (OSSOSComment.mag_setter ext mag self).2 in
  (~ (15 < q /\ q < 30)%Q ->
     OSSOSComment._photometry_note self' = "Z" /\ OSSOSComment._mag self' = None)
  /\ ((15 < q /\ q < 30)%Q ->
     OSSOSComment._photometry_note self' = "Y" /\ OSSOSComment._mag self' = Some q).
Proof.
  intros Hq self'. subst self'.
  unfold OSSOSComment.mag_setter, mtry, mbind, mlift, massign, mraise, mret,
    OSSOSComment.photometry_note_setter.
  rewrite Hq.
  destruct (in_open 15 30 q) eqn:Hr; simpl.
  - apply in_open_spec in Hr. split; [tauto | auto].
  - split; [auto|]. intros Hin. apply in_open_spec in Hin. congruence.
Qed.

Lemma OSSOSComment_mag_setter_range_witness :
  let self' :=
    (OSSOSComment.mag_setter Exact.externals (PyFloat 35)
       (OSSOSComment.blank OSSOSComment.IsOSSOSComment)).2 in
  (~ (15 < 35 /\ 35 < 30)%Q ->
     OSSOSComment._photometry_note self' = "Z" /\ OSSOSComment._mag self' = None)
  /\ ((15 < 35 /\ 35 < 30)%Q ->
     OSSOSComment._photometry_note self' = "Y" /\ OSSOSComment._mag self' = Some 35%Q).
Proof.
  apply (OSSOSComment_mag_setter_range Exact.externals
           (OSSOSComment.blank OSSOSComment.IsOSSOSComment) (PyFloat 35) 35).
  reflexivity.
Defined.

(** The scenario of the specification: 35.0 is refused, whatever the
    comment held before. *)
Example OSSOSComment_mag_setter_35 (ext : Externals) (self : OSSOSComment.t) :
  let self' := (OSSOSComment.mag_setter ext (PyFloat 35) self).2 in
  OSSOSComment._photometry_note self' = "Z" /\ OSSOSComment._mag self' = None.
Proof. split; reflexivity. Qed.

(** ** The comment dispatcher *)

(** A single blank is no TNOdb line (too short); the fixed-width layout
    does not fit; the space-separated fallback then reads [values[0]] of an
    empty list. The [IndexError] is no [ValueError], so the dispatcher does
    not go on to its last resort, [str]. *)

(** C4: the dispatcher raises on a comment made of one blank; it does not
    return the string. *)
Theorem MPCComment_from_string_blank_raises (ext : Externals) :
  MPCComment_from_string ext " " = Raise IndexError.
Proof. reflexivity. Qed.

(** The same leak on a legacy comment of four words: [RealOSSOSComment]
    prefixes it with "O " and the fallback reads [values[5]] of five. *)
Example MPCComment_from_string_legacy_raises (ext : Externals) :
  MPCComment_from_string ext "L 1234567p21 foo bar" = Raise IndexError.
Proof. reflexivity. Qed.

(** Where every variant refuses with [ValueError], the string comes back
    unchanged. *)
Example MPCComment_from_string_fallback (ext : Externals) :
  MPCComment_from_string ext "X" = Ok (CommentStr "X").
Proof. reflexivity. Qed.

(** C5: a line with the database-internal layout (65 columns, index
    [20130405_abc_d]) whose free text is the five words [O a b c d] does
    not come back as a TNOdb comment: the nested survey-standard parse
    reads [values[5]] and the [IndexError] leaves the dispatcher. *)
Theorem MPCComment_from_string_tnodb_layout_raises (ext : Externals) :
  (56 <=? String.length tnodb_line_with_five_words)%nat = true
  /\ PyOps.re_match tnodb_index_pattern
       (Py.strip (Py.slice 0 14 tnodb_line_with_five_words)) = true
  /\ TNOdbComment_from_string ext tnodb_line_with_five_words = Raise IndexError
  /\ MPCComment_from_string ext tnodb_line_with_five_words = Raise IndexError.
Proof. repeat split; reflexivity. Qed.

(** *** What the dispatcher does on every line

    The constructor keeps the two ranges, the setters keep them, and so
    every comment object that a parser returns can be built again as a
    [TNOdbComment]. *)

Lemma OSSOSComment_new_in_range (ext : Externals) (cls : OSSOSComment.class)
  (version : string) (frame source_name : option string)
  (photometry_note mpc_note : string)
  (x y plate_uncertainty astrometric_level magnitude mag_uncertainty : PyVal)
  (comment : option string) (o : OSSOSComment.t) :
  OSSOSComment.new ext cls version frame source_name photometry_note mpc_note x y
    plate_uncertainty astrometric_level magnitude mag_uncertainty comment = Ok o ->
  comment_in_range o /\ OSSOSComment.klass o = cls.
Proof.
  unfold OSSOSComment.new, construct, OSSOSComment.__init__, OSSOSComment.x_setter,
    OSSOSComment.y_setter, OSSOSComment.mag_setter, OSSOSComment.mag_uncertainty_setter,
    OSSOSComment.plate_uncertainty_setter, OSSOSComment.astrometric_level_setter,
    OSSOSComment.comment_setter, OSSOSComment.photometry_note_setter,
    OSSOSComment.str_mag_isdigit, comment_in_range,
    mtry, mbind, mlift, massign, mself, mraise, mret.
  change (in_open 0 100 (2 # 10)) with true.
  destruct (py_float ext x) as [fx|ex]; destruct (py_float ext y) as [fy|ey];
    (destruct (py_float ext magnitude) as [fm|em]; [destruct (in_open 15 30 fm)|]);
    (destruct (py_float ext mag_uncertainty) as [fu|eu]; [destruct (in_open 0 1 fu)|]);
    (destruct (py_float ext plate_uncertainty) as [fp|ep];
     [destruct (in_open 0 100 fp) eqn:Hp|]);
    (destruct (Py.int astrometric_level) as [l|el];
     [destruct ((-1 <? l)%Z && (l <? 10)%Z) eqn:Hl|]);
    destruct comment; cbn; rewrite ?Hp; cbn; try discriminate;
    intros [= <-]; cbn; rewrite ?Hp, ?Hl; auto.
Qed.

Lemma OSSOSComment_new_total (ext : Externals) (cls : OSSOSComment.class)
  (version : string) (frame source_name : option string)
  (photometry_note mpc_note : string)
  (x y plate_uncertainty astrometric_level magnitude mag_uncertainty : PyVal)
  (comment : option string) (l : Z) :
  (forall p, py_float ext plate_uncertainty = Ok p -> in_open 0 100 p = true) ->
  Py.int astrometric_level = Ok l ->
  (-1 <? l)%Z && (l <? 10)%Z = true ->
  exists o,
    OSSOSComment.new ext cls version frame source_name photometry_note mpc_note x y
      plate_uncertainty astrometric_level magnitude mag_uncertainty comment = Ok o.
Proof.
  intros Hplate Hint Hl.
  unfold OSSOSComment.new, construct, OSSOSComment.__init__, OSSOSComment.x_setter,
    OSSOSComment.y_setter, OSSOSComment.mag_setter, OSSOSComment.mag_uncertainty_setter,
    OSSOSComment.plate_uncertainty_setter, OSSOSComment.astrometric_level_setter,
    OSSOSComment.comment_setter, OSSOSComment.photometry_note_setter,
    OSSOSComment.str_mag_isdigit,
    mtry, mbind, mlift, massign, mself, mraise, mret.
  change (in_open 0 100 (2 # 10)) with true. rewrite Hint.
  destruct (py_float ext x) as [fx|ex]; destruct (py_float ext y) as [fy|ey];
    (destruct (py_float ext magnitude) as [fm|em]; [destruct (in_open 15 30 fm)|]);
    (destruct (py_float ext mag_uncertainty) as [fu|eu]; [destruct (in_open 0 1 fu)|]);
    (destruct (py_float ext plate_uncertainty) as [fp|ep];
     [pose proof (Hplate fp eq_refl) as Hp|]);
    destruct comment; cbn; rewrite ?Hp; cbn; rewrite Hl; cbn; eauto.
Qed.

Lemma assign_in_range (ext : Externals) (m : meth OSSOSComment.t unit)
  (self o : OSSOSComment.t) :
  (exists v, m = OSSOSComment.plate_uncertainty_setter ext v)
  \/ (exists v, m = OSSOSComment.astrometric_level_setter v)
  \/ (exists v, m = OSSOSComment.mag_setter ext v)
  \/ (exists v, m = OSSOSComment.mag_uncertainty_setter ext v)
  \/ (exists v, m = OSSOSComment.comment_setter v) ->
  comment_in_range self ->
  OSSOSComment.assign m self = Ok o ->
  comment_in_range o /\ OSSOSComment.klass o = OSSOSComment.klass self.
Proof.
  unfold comment_in_range, OSSOSComment.assign, construct.
  intros Hm [Hp Hl] H.
  destruct Hm as [[v ->]|[[v ->]|[[v ->]|[[v ->]|[v ->]]]]]; revert H;
    unfold OSSOSComment.plate_uncertainty_setter, OSSOSComment.astrometric_level_setter,
      OSSOSComment.mag_setter, OSSOSComment.mag_uncertainty_setter,
      OSSOSComment.comment_setter, OSSOSComment.photometry_note_setter,
      OSSOSComment.str_mag_isdigit,
      mtry, mbind, mlift, massign, mself, mraise, mret.
  - change (in_open 0 100 (2 # 10)) with true.
    destruct (py_float ext v) as [f|e]; cbn;
      [destruct (in_open 0 100 f) eqn:Hf; cbn|]; try discriminate;
      intros [= <-]; cbn; auto.
  - destruct (Py.int v) as [l|e]; cbn; [|discriminate].
    destruct ((-1 <? l)%Z && (l <? 10)%Z) eqn:Hl'; cbn; [|discriminate].
    intros [= <-]; cbn; auto.
  - destruct (py_float ext v) as [f|e]; cbn; [destruct (in_open 15 30 f); cbn|];
      intros [= <-]; cbn; auto.
  - destruct (py_float ext v) as [f|e]; cbn; [destruct (in_open 0 1 f); cbn|];
      intros [= <-]; cbn; auto.
  - destruct v; cbn; intros [= <-]; cbn; auto.
Qed.

Lemma bind_Ok {A B : Type} (m : result A) (k : A -> result B) (b : B) :
  Py.bind m k = Ok b -> exists a, m = Ok a /\ k a = Ok b.
Proof. destruct m as [a|e]; simpl; [eauto | discriminate]. Qed.

Lemma unpack_ossos_comment_format (s : string) (fields : list string) :
  Py.unpack OSSOSComment.ossos_comment_format s = Ok fields ->
  exists f1 f2 f3 f4 f5 f6 f7 f8 f9 f10 f11,
    fields = [f1; f2; f3; f4; f5; f6; f7; f8; f9; f10; f11].
Proof.
  unfold Py.unpack.
  set (items := Py.struct_format OSSOSComment.ossos_comment_format).
  vm_compute in items. subst items.
  destruct (_ =? _)%nat; [|discriminate]. intros [= <-]. cbn. repeat eexists.
Qed.

Ltac bind_inv H :=
  let a := fresh "a" in
  let E := fresh "E" in
  apply bind_Ok in H as (a & E & H).

Ltac assign_inv H :=
  match type of H with
  | OSSOSComment.assign _ ?self = Ok _ =>
      let R := fresh "R" in
      let K := fresh "K" in
      match goal with
      | ext : Externals |- _ => eapply (assign_in_range ext) in H as [R K]
      end;
      [ | eauto 10 | first [assumption | split; assumption] ]
  end.

Lemma OSSOSComment_from_string_in_range (ext : Externals) (cls : OSSOSComment.class)
  (comment : string) (o : OSSOSComment.t) :
  OSSOSComment_from_string ext cls comment = Ok (CommentObj o) ->
  comment_in_range o /\ OSSOSComment.klass o = cls.
Proof.
  unfold OSSOSComment_from_string. intros H.
  destruct (String.length comment =? 0)%nat; [discriminate|].
  apply bind_Ok in H as (c0 & _ & H). cbv zeta in H.
  remember (Py.split_on "%" (if Ascii.eqb c0 "#" then Py.slice_from 1 comment else comment))
    as values.
  unfold try_except at 1 in H.
  match type of H with
  | match ?m with _ => _ end = _ => destruct m as [c|e] eqn:E
  end.
  - injection H as ->.
    bind_inv E. bind_inv E.
    apply unpack_ossos_comment_format in E1
      as (f1 & f2 & f3 & f4 & f5 & f6 & f7 & f8 & f9 & f10 & f11 & ->).
    bind_inv E. bind_inv E. bind_inv E. injection E as <-.
    apply OSSOSComment_new_in_range in E1 as [R0 K0].
    assign_inv E3. split; [assumption | congruence].
  - clear E. bind_inv H. bind_inv H.
    unfold try_except in E0.
    match type of E0 with
    | match ?m with _ => _ end = _ => destruct m as [r|e'] eqn:E1; [|discriminate]
    end.
    injection E0 as ->.
    repeat bind_inv E1.
    apply OSSOSComment_new_in_range in E1 as [R0 K0].
    bind_inv H. bind_inv H. injection H as <-.
    match goal with
    | Hs : context [OSSOSComment.set_version ?v ?r] |- _ =>
        assert (R1 : comment_in_range (OSSOSComment.set_version v r)) by exact R0;
        assert (K1 : OSSOSComment.klass (OSSOSComment.set_version v r) = cls) by exact K0;
        revert Hs R1 K1; generalize (OSSOSComment.set_version v r)
    end.
    clear. intros s H R1 K1.
    repeat match type of H with
           | (if ?b then _ else _) = _ => destruct b
           end;
      repeat match goal with
             | Hb : Py.bind _ _ = Ok _ |- _ => bind_inv Hb
             | Hb : Ok _ = Ok _ |- _ => injection Hb as <-
             | Ha : OSSOSComment.assign _ ?self = Ok _, Rs : comment_in_range ?self |- _ =>
                 assign_inv Ha
             end;
      split; try assumption; congruence.
Qed.

Lemma CFEPSComment_from_string_in_range (ext : Externals) (comment : string)
  (o : OSSOSComment.t) :
  CFEPSComment_from_string ext comment = Ok (CommentObj o) ->
  comment_in_range o /\ OSSOSComment.klass o = OSSOSComment.IsCFEPSComment.
Proof.
  unfold CFEPSComment_from_string, CFEPSComment_new. intros H.
  bind_inv H. destruct (_ || _); [discriminate|].
  repeat bind_inv H. injection H as <-.
  bind_inv E1. destruct a2 as [x y]. bind_inv E1. injection E1 as <-.
  apply OSSOSComment_new_in_range in E3. exact E3.
Qed.

Lemma first_parse_not_ValueError {A : Type} (funcs : list (string -> result A))
  (line : string) (comment : A) (e : exn) :
  first_parse funcs line comment = Raise e -> is_ValueError e = false.
Proof.
  induction funcs as [|func rest IH]; simpl; [discriminate|].
  destruct (func line) as [c|e']; [discriminate|].
  destruct (is_ValueError e') eqn:He; [exact IH|].
  intros [= <-]. exact He.
Qed.

Lemma first_parse_Ok {A : Type} (funcs : list (string -> result A))
  (line : string) (comment c : A) :
  first_parse funcs line comment = Ok c ->
  c = comment \/ exists func, In func funcs /\ func line = Ok c.
Proof.
  induction funcs as [|func rest IH]; simpl.
  - intros [= <-]. now left.
  - destruct (func line) as [c'|e] eqn:E.
    + intros [= <-]. right. eauto.
    + destruct (is_ValueError e); [|discriminate].
      intros H. destruct (IH H) as [->|(f & Hf & Hc)]; [now left|].
      right. eauto.
Qed.

Lemma TNOdbComment_new_Ok (ext : Externals) (index date flags : string) (version : string)
  (frame source_name : option string) (photometry_note mpc_note : string)
  (x y plate_uncertainty astrometric_level magnitude mag_uncertainty : PyVal)
  (comment : option string) (l : Z) :
  (forall p, py_float ext plate_uncertainty = Ok p -> in_open 0 100 p = true) ->
  Py.int astrometric_level = Ok l ->
  (-1 <? l)%Z && (l <? 10)%Z = true ->
  exists o,
    TNOdbComment_new ext index date flags version frame source_name photometry_note
      mpc_note x y plate_uncertainty astrometric_level magnitude mag_uncertainty comment
    = Ok o
    /\ OSSOSComment.klass o = OSSOSComment.IsTNOdbComment.
Proof.
  intros Hp Hi Hl. unfold TNOdbComment_new.
  destruct (OSSOSComment_new_total ext OSSOSComment.IsTNOdbComment version frame
              source_name photometry_note mpc_note x y plate_uncertainty
              astrometric_level magnitude mag_uncertainty comment l Hp Hi Hl) as [o Ho].
  rewrite Ho. simpl. eexists. split; [reflexivity|].
  apply OSSOSComment_new_in_range in Ho as [_ K]. exact K.
Qed.

(** A line with the layout of the object database (56 columns at least,
    an index like [20130405_abc_d] in the first fourteen) is never refused
    with [ValueError] by [TNOdbComment.from_string], and what it returns is
    a [TNOdbComment]. *)
Lemma TNOdbComment_from_string_layout (ext : Externals) (line : string) :
  (String.length line <? 56)%nat = false ->
  PyOps.re_match tnodb_index_pattern (Py.strip (Py.slice 0 14 line)) = true ->
  match TNOdbComment_from_string ext line with
  | Ok c => isinstance_TNOdbComment c = true
  | Raise e => is_ValueError e = false
  end.
Proof.
  intros Hlen Hidx. unfold TNOdbComment_from_string.
  rewrite Hlen, Hidx. cbn [negb]. cbv zeta.
  match goal with
  | |- context [Py.bind ?m _] => destruct m as [co|e] eqn:E
  end; cbn [Py.bind].
  - assert (Hco : match co with
                  | Some (CommentObj o) => comment_in_range o
                  | _ => True
                  end).
    { destruct co as [[s|o]|]; auto.
      destruct (0 <? _)%nat; [|discriminate].
      apply first_parse_Ok in E as [[=]|(func & Hin & Hf)].
      destruct Hin as [<-|[<-|[]]]; bind_inv Hf; injection Hf as ->.
      - now apply OSSOSComment_from_string_in_range in E.
      - now apply CFEPSComment_from_string_in_range in E. }
    clear E.
    match goal with
    | |- match match co with _ => _ end with _ => _ end =>
        assert (Hnew : forall index date flags comment, exists o,
                   TNOdbComment_new ext index date flags "T" (Some " ") (Some "") " " " "
                     (PyStr " ") (PyStr " ") OSSOSComment.default_plate_uncertainty
                     OSSOSComment.default_astrometric_level PyNone PyNone comment = Ok o
                   /\ OSSOSComment.klass o = OSSOSComment.IsTNOdbComment)
    end.
    { intros. apply TNOdbComment_new_Ok with (l := 0%Z); [|reflexivity|reflexivity].
      intros p [= <-]. reflexivity. }
    destruct co as [[s|o]|].
    + edestruct Hnew as (r & -> & K). simpl. now rewrite K.
    + destruct Hco as [Hp Hl].
      edestruct (TNOdbComment_new_Ok ext) as (r & -> & K); [| |exact Hl|].
      * intros p. destruct (OSSOSComment._plate_uncertainty o) as [q|]; simpl.
        -- intros [= <-]. exact Hp.
        -- discriminate.
      * reflexivity.
      * simpl. now rewrite K.
    + edestruct Hnew as (r & -> & K). simpl. now rewrite K.
  - destruct (0 <? _)%nat; [|discriminate].
    now apply first_parse_not_ValueError in E.
Qed.

(** The priority of the object database's layout: on such a line the
    dispatcher answers what [TNOdbComment.from_string] answers, value or
    exception, and never asks another variant. *)
Lemma MPCComment_from_string_tnodb_first (ext : Externals) (line : string) :
  (String.length line <? 56)%nat = false ->
  PyOps.re_match tnodb_index_pattern (Py.strip (Py.slice 0 14 line)) = true ->
  MPCComment_from_string ext line = TNOdbComment_from_string ext line.
Proof.
  intros Hlen Hidx.
  pose proof (TNOdbComment_from_string_layout ext line Hlen Hidx) as H.
  unfold MPCComment_from_string. cbn [first_parse].
  destruct (TNOdbComment_from_string ext line) as [c|e]; [reflexivity|].
  now rewrite H.
Qed.

(** The dispatcher lets no [ValueError] out. *)
Lemma MPCComment_from_string_not_ValueError (ext : Externals) (line : string) (e : exn) :
  MPCComment_from_string ext line = Raise e -> is_ValueError e = false.
Proof. apply first_parse_not_ValueError. Qed.

(** When the four structured variants all refuse the line with
    [ValueError], the dispatcher returns the line as it is. *)
Lemma MPCComment_from_string_all_refuse (ext : Externals) (line : string) :
  TNOdbComment_from_string ext line = Raise ValueError ->
  OSSOSComment_from_string ext OSSOSComment.IsOSSOSComment line = Raise ValueError ->
  RealOSSOSComment_from_string ext line = Raise ValueError ->
  CFEPSComment_from_string ext line = Raise ValueError ->
  MPCComment_from_string ext line = Ok (CommentStr line).
Proof.
  intros H1 H2 H3 H4. unfold MPCComment_from_string. cbn [first_parse].
  now rewrite H1, H2, H3, H4.
Qed.

(** ** The name-alias index *)

(** C8: for a name that the index does not know, [get_aliases] returns the
    name itself, a [str], and [is_same] then tests for a substring: "b" is
    reported to be the same object as "abc". *)
Theorem Index_is_same_unknown_is_substring :
  Index.get_aliases one_line_index "abc" = Ok (Index.Name "abc")
  /\ Index.is_same one_line_index "abc" "b" = Ok true
  /\ Index.is_same one_line_index "abc" "abc" = Ok true
  /\ Index.get_aliases one_line_index "o3l01" = Ok (Index.Group ["O13BL3RX"; "o3l01"]).
Proof. repeat split; vm_compute; reflexivity. Qed.

Lemma Index_add_alias_consistent (self : Index.t) (master this_name : string) :
  Index_consistent self ->
  Index.names self !! master = Some master ->
  let self' :=
    Index.mk (<[this_name := master]> (Index.names self))
             (alter (fun aliases => aliases ++ [this_name]) master (Index.index self)) in
  Index_consistent self' /\ Index.names self' !! master = Some master.
Proof.
  intros Hc Hm self'. subst self'. simpl. split.
  - intros name m. simpl. rewrite lookup_insert. destruct (decide (this_name = name)) as [->|Hne].
    + intros [= <-]. destruct (Hc _ _ Hm) as [l Hl].
      exists (l ++ [name]). rewrite lookup_alter_eq, Hl. reflexivity.
    + intros Hn. destruct (Hc _ _ Hn) as [l Hl].
      destruct (decide (master = m)) as [->|Hmm].
      * exists (l ++ [this_name]). rewrite lookup_alter_eq, Hl. reflexivity.
      * exists l. rewrite lookup_alter_ne by done. exact Hl.
  - rewrite lookup_insert. destruct (decide (this_name = master)) as [->|Hne].
    + reflexivity.
    + exact Hm.
Qed.

Lemma Index_add_line_consistent (self : Index.t) (line : string) :
  Index_consistent self -> Index_consistent (Index.add_line self line).
Proof.
  intros Hc. unfold Index.add_line.
  set (master := Py.strip (Py.slice 0 Index.MAX_NAME_LENGTH line)).
  set (start := Index.mk _ _).
  assert (Hs : Index_consistent start /\ Index.names start !! master = Some master).
  { subst start. simpl. split; [|apply lookup_insert_eq].
    intros name m. simpl. rewrite lookup_insert.
    destruct (decide (master = name)) as [->|Hne].
    - intros [= <-]. exists []. apply lookup_insert_eq.
    - intros Hn. destruct (decide (master = m)) as [->|Hmm].
      + exists []. apply lookup_insert_eq.
      + rewrite lookup_insert_ne by done. apply (Hc _ _ Hn). }
  revert Hs. generalize start.
  induction (Index.range Index.MAX_NAME_LENGTH (String.length line) Index.MAX_NAME_LENGTH)
    as [|i l IH]; intros s [Hs1 Hs2]; simpl.
  - exact Hs1.
  - apply IH. apply Index_add_alias_consistent; assumption.
Qed.

Lemma Index_init_consistent (lines : list string) :
  Index_consistent (Index.__init__ lines).
Proof.
  unfold Index.__init__.
  assert (H0 : Index_consistent (Index.mk ∅ ∅)).
  { intros name m. simpl. rewrite lookup_empty. discriminate. }
  revert H0. generalize (Index.mk ∅ ∅).
  induction lines as [|line lines IH]; intros s Hs; simpl; [exact Hs|].
  apply IH. apply Index_add_line_consistent. exact Hs.
Qed.

(** For a known name, [get_aliases] returns the group of its master name,
    master name first, and [is_same] is membership in that group. *)
Lemma Index_get_aliases_known (lines : list string) (name master : string) :
  Index.names (Index.__init__ lines) !! name = Some master ->
  exists l,
    Index.get_aliases (Index.__init__ lines) name = Ok (Index.Group (master :: l))
    /\ forall name2,
         Index.is_same (Index.__init__ lines) name name2
         = Ok (existsb (String.eqb name2) (master :: l)).
Proof.
  intros Hn. destruct (Index_init_consistent lines _ _ Hn) as [l Hl].
  exists l. unfold Index.is_same, Index.get_aliases. rewrite Hn, Hl. split; reflexivity.
Qed.

(** For an unknown name, [get_aliases] returns the name and [is_same] is
    the substring test. *)
Lemma Index_get_aliases_unknown (self : Index.t) (name : string) :
  Index.names self !! name = None ->
  Index.get_aliases self name = Ok (Index.Name name)
  /\ forall name2, Index.is_same self name name2 = Ok (Py.contains name2 name).
Proof.
  intros Hn. unfold Index.is_same, Index.get_aliases. rewrite Hn. split; reflexivity.
Qed.

(** ** Parsing an observation line *)

Lemma scenario_line_refused (ext : Externals) :
  Observation.from_string ext scenario_line = Raise (MPCFieldFormatError "discovery").
Proof. vm_compute. reflexivity. Qed.

(** C9, as stated: the printed line is 82 characters long and is not
    parsed; the constructor refuses the 'A' found in the discovery
    column. *)
Lemma scenario_line_not_parsed :
  String.length scenario_line = 82%nat
  /\ Observation.from_string Exact.externals scenario_line
     = Raise (MPCFieldFormatError "discovery").
Proof. split; [reflexivity | apply scenario_line_refused]. Qed.

(** C9, amended: with the fields at their columns the line is parsed,
    whenever the date and the coordinates are accepted and the magnitude
    reads as a float, and the record has the fields of the scenario. *)
Theorem aligned_line_parsed (ext : Externals) (d : Time) (c : Coord) (m : Q) :
  Time_new ext "2013 10 05.412683" 6 = Some d ->
  float_of_string ext "12 34 45.671" = None ->
  ICRS_sexagesimal ext "12 34 45.671" "-20 28 15.90" = Some c ->
  float_of_string ext "20.63" = Some m ->
  exists obsrec,
    Observation.from_string ext aligned_line = Ok (Observation.ObservationRecord obsrec)
    /\ Observation.provisional_name obsrec = "K13T01"
    /\ Discovery.is_initial_discovery (Observation.discovery obsrec) = true
    /\ MPCNote.code (Observation.note1 obsrec) = "A"
    /\ MPCNote.code (Observation.note2 obsrec) = "C"
    /\ Observation.observatory_code obsrec = "568".
Proof.
  destruct ext as [flt fmt tnew tstr icrsd icrss raf decf]. simpl.
  intros Hd Hf Hc Hm.
  cbv -[Qltb in_open].
  rewrite Hd. cbv -[Qltb in_open]. rewrite Hf. cbv -[Qltb in_open].
  rewrite Hc. cbv -[Qltb in_open]. rewrite Hm. cbv -[Qltb in_open].
  destruct (Qltb m 0); cbv -[Qltb in_open]; rewrite ?Hm; cbv -[Qltb in_open];
    destruct (in_open 15 30 m); vm_compute;
    (eexists; split; [reflexivity | repeat split]).
Qed.

Lemma aligned_line_parsed_witness :
  exists obsrec,
    Observation.from_string Exact.externals aligned_line
    = Ok (Observation.ObservationRecord obsrec)
    /\ Observation.provisional_name obsrec = "K13T01"
    /\ Discovery.is_initial_discovery (Observation.discovery obsrec) = true
    /\ MPCNote.code (Observation.note1 obsrec) = "A"
    /\ MPCNote.code (Observation.note2 obsrec) = "C"
    /\ Observation.observatory_code obsrec = "568".
Proof.
  apply (aligned_line_parsed Exact.externals
           (mkTime 2456570912683 56570412683 6)
           (mkCoord (45285671 # 240000) (-245653 # 12000))
           (2063 # 100)); vm_compute; reflexivity.
Defined.

Lemma length_substring_0 (n : nat) (s : string) :
  String.length (substring 0 n s) = Nat.min n (String.length s).
Proof.
  revert s. induction n as [|n IH]; intros [|c s]; simpl; try reflexivity.
  rewrite IH. reflexivity.
Qed.

(** *** Reading a method that returned *)

Lemma construct_Ok {S A : Type} (m : meth S A) (b o : S) :
  construct m b = Ok o -> exists a, m b = (Ok a, o).
Proof.
  unfold construct. destruct (m b) as [[a|e] s]; intros H; [|discriminate].
  injection H as ->. eauto.
Qed.

Lemma mbind_Ok {S A B : Type} (m : meth S A) (k : A -> meth S B) (s s' : S) (b : B) :
  mbind m k s = (Ok b, s') ->
  exists a s1, m s = (Ok a, s1) /\ k a s1 = (Ok b, s').
Proof.
  unfold mbind. destruct (m s) as [[a|e] s1]; intros H; [eauto | discriminate].
Qed.

Lemma massign_Ok {S : Type} (f : S -> S) (s s' : S) (u : unit) :
  massign f s = (Ok u, s') -> s' = f s.
Proof. unfold massign. intros [= _ <-]. reflexivity. Qed.

Lemma mlift_Ok {S A : Type} (r : result A) (s s' : S) (a : A) :
  mlift r s = (Ok a, s') -> r = Ok a /\ s' = s.
Proof. unfold mlift. intros [= -> <-]. auto. Qed.

Lemma mself_Ok {S : Type} (s s' a : S) :
  mself s = (Ok a, s') -> a = s /\ s' = s.
Proof. unfold mself. intros [= <- <-]. auto. Qed.

(** *** What each setter of an observation leaves behind *)

Lemma null_observation_setter_Ok (v : PyVal) (s s' : Observation.t) (u : unit) :
  Observation.null_observation_setter v s = (Ok u, s') ->
  exists n, NullObservation.__init__ v = Ok n /\ s' = Observation.set__null_observation n s.
Proof.
  unfold Observation.null_observation_setter. intros H.
  apply mbind_Ok in H as (n & s1 & H1 & H2).
  apply mlift_Ok in H1 as [H1 ->]. apply massign_Ok in H2. eauto.
Qed.

Lemma discovery_setter_Ok (v : PyVal) (s s' : Observation.t) (u : unit) :
  Observation.discovery_setter v s = (Ok u, s') ->
  exists d, Discovery.__init__ v = Ok d /\ s' = Observation.set__discovery d s.
Proof.
  unfold Observation.discovery_setter. intros H.
  apply mbind_Ok in H as (n & s1 & H1 & H2).
  apply mlift_Ok in H1 as [H1 ->]. apply massign_Ok in H2. eauto.
Qed.

Lemma note1_setter_Ok (v : option string) (s s' : Observation.t) (u : unit) :
  Observation.note1_setter v s = (Ok u, s') ->
  exists n, MPCNote.__init__ v "Note1" = Ok n /\ s' = Observation.set__note1 n s.
Proof.
  unfold Observation.note1_setter. intros H.
  apply mbind_Ok in H as (n & s1 & H1 & H2).
  apply mlift_Ok in H1 as [H1 ->]. apply massign_Ok in H2. eauto.
Qed.

Lemma note2_setter_Ok (v : option string) (s s' : Observation.t) (u : unit) :
  Observation.note2_setter v s = (Ok u, s') ->
  exists n, MPCNote.__init__ v "Note2" = Ok n /\ s' = Observation.set__note2 n s.
Proof.
  unfold Observation.note2_setter. intros H.
  apply mbind_Ok in H as (n & s1 & H1 & H2).
  apply mlift_Ok in H1 as [H1 ->]. apply massign_Ok in H2. eauto.
Qed.

Lemma date_setter_Ok (ext : Externals) (date_str : string) (s s' : Observation.t) (u : unit) :
  Observation.date_setter ext date_str s = (Ok u, s') ->
  exists d,
    Time_new ext date_str (compute_precision date_str) = Some d
    /\ s' = Observation.set__date d
              (Observation.set__date_precision (compute_precision date_str) s).
Proof.
  unfold Observation.date_setter, mbind, massign, mself, mraise. simpl.
  destruct (Time_new ext date_str (compute_precision date_str)) as [d|].
  - intros [= _ <-]. eauto.
  - intros [=].
Qed.

Lemma coordinate_setter_Ok (ext : Externals) (val1 val2 : string)
  (s s' : Observation.t) (u : unit) :
  Observation.coordinate_setter ext val1 val2 s = (Ok u, s') ->
  exists c p1 p2,
    s' = Observation.set__coordinate c
           (Observation.set__dec_precision p2 (Observation.set__ra_precision p1 s)).
Proof.
  unfold Observation.coordinate_setter, mtry, mbind, mlift, massign, mraise.
  destruct (py_float ext (PyStr val1)) as [a|e];
    [destruct (py_float ext (PyStr val2)) as [b|e];
       [destruct (ICRS_degrees ext a b) as [c|]|]|];
    try (intros [= _ <-]; do 3 eexists; reflexivity);
    (destruct (ICRS_sexagesimal ext val1 val2) as [c'|]; intros [= _ <-];
     do 3 eexists; reflexivity).
Qed.


Lemma mag_err_setter_Ok (mag_err : PyVal) (s s' : Observation.t) (u : unit) :
  Observation.mag_err_setter mag_err s = (Ok u, s') ->
  exists e, s' = Observation.set__mag_err e s.
Proof.
  unfold Observation.mag_err_setter, mbind, mself, massign.
  match goal with |- context [if ?b then _ else _] => destruct b end;
    intros [= _ <-]; eauto.
Qed.


Lemma observatory_code_setter_Ok (code : string) (s s' : Observation.t) (u : unit) :
  Observation.observatory_code_setter code s = (Ok u, s') ->
  (String.length code <= 3)%nat /\ s' = Observation.set__observatory_code code s.
Proof.
  unfold Observation.observatory_code_setter, mraise.
  destruct (String.length code <=? 3)%nat eqn:E; simpl; intros H; [|discriminate].
  apply massign_Ok in H. split; [apply Nat.leb_le, E | exact H].
Qed.

Lemma comment_setter_Ok (c : option Comment) (s s' : Observation.t) (u : unit) :
  Observation.comment_setter c s = (Ok u, s') ->
  exists c', s' = Observation.set__comment c' s.
Proof.
  unfold Observation.comment_setter. destruct c; intros H; apply massign_Ok in H; eauto.
Qed.



Lemma MPCNote_init_code (code : string) (note_type : string) (n : MPCNote.t) :
  MPCNote.__init__ (Some code) note_type = Ok n -> MPCNote.code n = Py.strip code.
Proof.
  unfold MPCNote.__init__, MPCNote.note_type_setter, MPCNote.code_setter, Py.bind.
  destruct (MPCNote.MPCNOTES note_type) as [keys|]; [|discriminate].
  match goal with
  | |- match ?guard with _ => _ end = _ -> _ => destruct guard; [|discriminate]
  end.
  intros [= <-]. reflexivity.
Qed.

Lemma unpack_mpc_format (data : string) :
  String.length data = 80%nat ->
  Py.unpack Observation.mpc_format data
  = Ok [substring 0 1 data; substring 1 11 data; substring 12 1 data;
        substring 13 1 data; substring 14 1 data; substring 15 17 data;
        substring 32 12 data; substring 44 12 data; substring 65 5 data;
        substring 70 1 data; substring 77 3 data].
Proof.
  intros H. unfold Py.unpack.
  set (items := Py.struct_format Observation.mpc_format).
  vm_compute in items. subst items.
  change (Py.calcsize _) with 80%nat. rewrite H. reflexivity.
Qed.




(** ** Round trip *)

Lemma Observation_mag_precision_at_most_1 (ext : Externals) (mag : string)
  (s s' : Observation.t) (u : unit) :
  Observation.mag_setter ext mag s = (Ok u, s') ->
  (Observation._mag_precision s' <= 1)%nat.
Proof.
  unfold Observation.mag_setter, mbind, mlift, massign.
  destruct (String.length (strip_chars " " mag) =? 0)%nat.
  - intros [= _ <-]. cbn -[Nat.min]. lia.
  - destruct (py_float ext (PyStr mag)) as [f|e]; [|intros [=]].
    destruct (Qltb f 0); intros [= _ <-]; cbn -[Nat.min]; [lia | destruct (compute_precision mag); lia].
Qed.


(** ** The writer *)

Section Writer.

Import MPCWriter.

Lemma store_same (r : ref) (o : Observation.t) (h : heap) : store r o h r = o.
Proof. unfold store. rewrite Nat.eqb_refl. reflexivity. Qed.

Lemma store_other (r r' : ref) (o : Observation.t) (h : heap) :
  r' <> r -> store r o h r' = h r'.
Proof.
  intros Hne. unfold store. destruct (Nat.eqb r' r) eqn:E; [|reflexivity].
  apply Nat.eqb_eq in E. contradiction.
Qed.

Ltac writer_norm :=
  cbv beta iota zeta delta
    [fst snd negb andb orb mbind mself mret mlift massign on_object on_self store
     Observation.discovery_setter Observation.set__discovery Observation._null_observation
     Observation._provisional_name Observation._discovery Observation._note1
     Observation._note2 Observation._date Observation._date_precision
     Observation._coordinate Observation._ra_precision Observation._dec_precision
     Observation._mag Observation._mag_err Observation._mag_precision Observation._band
     Observation._observatory_code Observation._comment
     Observation.null_observation Observation.discovery Observation.date
     NullObservation._null_observation NullObservation.__nonzero__
     NullObservation.__bool__ Discovery.__nonzero__ Discovery.__bool__
     Discovery.is_discovery Discovery._is_discovery Discovery._is_initial_discovery
     Discovery.is_initial_discovery_setter
     filehandle auto_flush include_comments buffer _written_mpc_observations
     auto_discovery _discovery_written formatter
     set__discovery_written set_filehandle set__written_mpc_observations].

Lemma _flush_observation_spec (obs : ref) (h : heap) (w : t) :
  let s' := (_flush_observation obs (h, w)).2 in
  s'.1 obs = after_flush w (h obs)
  /\ (forall r, r <> obs -> s'.1 r = h r)
  /\ filehandle s'.2 = filehandle w ++ lines_of w (h obs)
  /\ _discovery_written s'.2
     = _discovery_written w || is_marked (after_marking w (h obs))
  /\ _written_mpc_observations s'.2
     = (if newly_written w (h obs)
        then _written_mpc_observations w ++ [day (h obs)]
        else _written_mpc_observations w)
  /\ auto_discovery s'.2 = auto_discovery w
  /\ auto_flush s'.2 = auto_flush w
  /\ buffer s'.2 = buffer w
  /\ formatter s'.2 = formatter w.
Proof.
  destruct w as [fh af ic buf wr ad dw fmt].
  assert (Hother : forall r o, r <> obs -> (if Nat.eqb r obs then o else h r) = h r).
  { intros r o Hne. apply Nat.eqb_neq in Hne. rewrite Hne. reflexivity. }
  unfold _flush_observation, lines_of, newly_written.
  unfold after_flush, after_marking, marked_by_writer, is_marked, is_null, day.
  unfold mbind, mself, mret, mlift, on_object, on_self, massign,
    Observation.discovery_setter, store, Discovery.is_initial_discovery_setter.
  change (Discovery.__init__ (PyBool true)) with (Ok (Discovery.mk true true)).
  change (PyOps.in_list (PyBool false) [PyStr "*"; PyBool true]) with false.
  destruct (h obs) as [[nc nb] name [di ii] n1 n2 dt dp co rp dcp mg me mp bd oc cm]
    eqn:Ho.
  destruct ad, nb, dw, di;
    repeat (progress (writer_norm; rewrite ?Nat.eqb_refl, ?Ho));
    (destruct (existsb (Z.eqb (jd dt)) wr);
     repeat (progress (writer_norm; rewrite ?Nat.eqb_refl, ?Ho));
     [|match goal with
       | |- context [fmt ?x] => destruct (fmt x)
       end; repeat (progress (writer_norm; rewrite ?Nat.eqb_refl, ?Ho))]);
    rewrite ?app_nil_r;
    (repeat split; try reflexivity; try (intros r Hr; apply Hother; exact Hr);
     try (intros r Hr; rewrite !Hother by exact Hr; reflexivity)).
Qed.

Lemma after_flush_day (w : t) (o : Observation.t) : day (after_flush w o) = day o.
Proof.
  unfold after_flush, after_marking.
  destruct (marked_by_writer w o); destruct (is_marked _ && _); reflexivity.
Qed.

Lemma after_flush_null (w : t) (o : Observation.t) : is_null (after_flush w o) = is_null o.
Proof.
  unfold after_flush, after_marking.
  destruct (marked_by_writer w o); destruct (is_marked _ && _); reflexivity.
Qed.

(** A writer method run to its end or to its exception keeps what every
    single [_flush_observation] keeps. *)
Lemma for_each_keeps {S : Type} (P : S -> Prop) (body : ref -> meth S unit) (l : list ref) :
  (forall r s, P s -> P (body r s).2) ->
  forall s, P s -> P (for_each body l s).2.
Proof.
  intros Hbody. induction l as [|r l IH]; intros s Hs; simpl.
  - exact Hs.
  - unfold mbind. specialize (Hbody r s Hs).
    destruct (body r s) as [[u|e] s1]; simpl in *; [apply IH|]; exact Hbody.
Qed.

Lemma flush_keeps (P : heap * t -> Prop) :
  (forall r s, P s -> P (_flush_observation r s).2) ->
  forall s, P s -> P (flush s).2.
Proof.
  intros Hbody s Hs. unfold flush, mbind, mself.
  apply for_each_keeps; assumption.
Qed.

Lemma write_keeps (P : heap * t -> Prop) :
  (forall r s, P s -> P (_flush_observation r s).2) ->
  (forall h w k r, P (h, w) -> P (h, set_buffer (<[k := r]> (buffer w)) w)) ->
  forall r s, P s -> P (write r s).2.
Proof.
  intros Hbody Hbuf r [h w] Hs. unfold write, mbind, mself, on_self, mret. simpl.
  specialize (Hbuf h w (mjd (Observation.date (h r))) r Hs).
  destruct (auto_flush _); [apply flush_keeps; assumption | exact Hbuf].
Qed.

(** *** The discovery marker *)

Lemma after_flush_well_formed (w : t) (o : Observation.t) :
  well_formed o -> well_formed (after_flush w o).
Proof.
  unfold well_formed, after_flush, after_marking. intros Ho.
  destruct (marked_by_writer w o); destruct (is_marked _ && _); simpl; auto; discriminate.
Qed.

Lemma one_discovery_line (w : t) (o : Observation.t) (out : list Observation.t) :
  auto_discovery w = true ->
  well_formed o ->
  one_discovery out (_discovery_written w) ->
  one_discovery (out ++ [after_flush w o])
    (_discovery_written w || is_marked (after_marking w o)).
Proof.
  intros Had Ho (pre & rest & -> & Hpre & Hrest & Hdw).
  unfold after_flush, after_marking, marked_by_writer. rewrite Had.
  destruct (_discovery_written w) eqn:Edw.
  - (* a discovery has been written: no asterisk any more *)
    rewrite andb_false_r. simpl orb.
    exists pre, (rest ++ [if is_marked o && true
                          then Observation.set__discovery
                                 (Discovery.is_initial_discovery_setter (PyBool false)
                                    (Observation.discovery o)) o
                          else o]).
    rewrite app_assoc. repeat split; auto; [|discriminate].
    assert (Hline : forall x, marker x <> "*" -> Forall (fun e => marker e <> "*")
                                                (tail (rest ++ [x]))).
    { intros x Hx. destruct rest as [|r rest']; simpl; [constructor|].
      simpl in Hrest. apply Forall_app. split; [exact Hrest | repeat constructor; exact Hx]. }
    apply Hline. unfold well_formed, marker, Discovery.__str__, is_marked in *.
    destruct o as [nul name [di ii] n1 n2 dt dp co rp dcp mg me mp bd oc cm]; simpl in *.
    destruct di; simpl.
    + discriminate.
    + destruct ii; [specialize (Ho eq_refl); discriminate | discriminate].
  - specialize (Hdw eq_refl). subst rest. rewrite app_nil_r.
    destruct (is_null o) eqn:Enull; cbn [andb negb orb]; rewrite ?andb_false_r.
    + (* a null observation: written as it is *)
      destruct (is_marked o) eqn:Em.
      * exists pre, [o]. repeat split; auto; try constructor; discriminate.
      * exists (pre ++ [o]), []. rewrite app_nil_r. repeat split; auto; try constructor.
        apply Forall_app. split; [exact Hpre|]. repeat constructor; [exact Enull|].
        unfold well_formed, marker, Discovery.__str__, is_marked in *.
        destruct o as [nul name [di ii] n1 n2 dt dp co rp dcp mg me mp bd oc cm];
          simpl in *. subst di.
        destruct ii; [specialize (Ho eq_refl); discriminate | reflexivity].
    + (* the first record that is no null observation: marked by the writer *)
      exists pre, [Observation.set__discovery (Discovery.mk true true) o].
      repeat split; auto; try constructor; discriminate.
Qed.

Lemma one_discovery_later (out : list Observation.t) (dw dw' : bool) :
  one_discovery out dw -> one_discovery out (dw || dw').
Proof.
  intros (pre & rest & -> & Hpre & Hrest & Hdw).
  exists pre, rest. repeat split; auto.
  intros H. apply orb_false_iff in H as [H _]. auto.
Qed.

Lemma _flush_observation_discovery (r : ref) (s : heap * t) :
  discovery_invariant s -> discovery_invariant (_flush_observation r s).2.
Proof.
  destruct s as [h w]. intros (Had & Hwf & Hout). simpl in *.
  destruct (_flush_observation_spec r h w)
    as (Hobs & Hothers & Hfile & Hdw & _ & Had' & _).
  split; [rewrite Had'; exact Had|]. split.
  - intros r'. destruct (Nat.eq_dec r' r) as [->|Hne].
    + rewrite Hobs. apply after_flush_well_formed, Hwf.
    + rewrite Hothers by exact Hne. apply Hwf.
  - unfold emitted. rewrite Hfile, Hdw, map_app. unfold lines_of.
    destruct (newly_written w (h r)); [destruct (formatter w _)|]; simpl map;
      rewrite ?app_nil_r;
      [apply one_discovery_line; auto | apply one_discovery_later; exact Hout
      | apply one_discovery_later; exact Hout].
Qed.

Lemma perform_discovery (s : heap * t) (c : call) :
  match c with
  | Assign _ o => well_formed o
  | _ => True
  end ->
  discovery_invariant s -> discovery_invariant (perform s c).
Proof.
  intros Hc Hs. destruct c as [r o| r |]; simpl.
  - destruct s as [h w]. destruct Hs as (Had & Hwf & Hout). simpl in *.
    split; [exact Had|]. split; [|exact Hout].
    intros r'. unfold store. simpl. destruct (Nat.eqb r' r); [exact Hc | apply Hwf].
  - apply (write_keeps discovery_invariant);
      [apply _flush_observation_discovery | intros h w k r0 H; exact H | exact Hs].
  - apply (flush_keeps discovery_invariant);
      [apply _flush_observation_discovery | exact Hs].
Qed.

Lemma run_discovery (calls : list call) (s : heap * t) :
  Forall (fun c => match c with Assign _ o => well_formed o | _ => True end) calls ->
  discovery_invariant s -> discovery_invariant (run calls s).
Proof.
  unfold run. revert s. induction calls as [|c calls IH]; intros s Hcalls Hs; simpl.
  - exact Hs.
  - apply Forall_cons_1 in Hcalls as [Hc Hcalls].
    apply IH; [exact Hcalls|]. apply perform_discovery; assumption.
Qed.

Lemma filter_none {A : Type} (P : A -> Prop) `{!forall x, Decision (P x)} (l : list A) :
  Forall (fun x => ~ P x) l -> filter P l = [].
Proof.
  induction 1 as [|x l Hx Hl IH]; [reflexivity|].
  rewrite filter_cons_False by exact Hx. exact IH.
Qed.

Lemma one_discovery_count (out : list Observation.t) (dw : bool) :
  one_discovery out dw ->
  (length (filter (fun e => marker e = "*") out) <= 1)%nat.
Proof.
  intros (pre & rest & -> & Hpre & Hrest & _).
  rewrite filter_app, length_app, (filter_none _ pre).
  - destruct rest as [|x rest]; simpl; [lia|]. simpl in Hrest.
    destruct (decide (marker x = "*")).
    + rewrite filter_cons_True by assumption. rewrite (filter_none _ rest Hrest).
      simpl. lia.
    + rewrite filter_cons_False by assumption. rewrite (filter_none _ rest Hrest).
      simpl. lia.
  - eapply Forall_impl; [exact Hpre|]. intros e [_ He] Hstar. rewrite He in Hstar.
    discriminate.
Qed.

Lemma one_discovery_split (out : list Observation.t) (dw : bool)
  (l1 l2 : list Observation.t) (e : Observation.t) :
  one_discovery out dw ->
  out = l1 ++ e :: l2 ->
  marker e = "*" ->
  Forall unmarked_null l1 /\ Forall (fun e' => marker e' <> "*") l2.
Proof.
  intros (pre & rest & -> & Hpre & Hrest & _) Heq Hstar.
  revert l1 Heq. induction Hpre as [|p pre Hp Hpre IH]; intros l1 Heq.
  - simpl in Heq. subst rest. destruct l1 as [|a l1]; simpl in Hrest.
    + split; [constructor | exact Hrest].
    + apply Forall_app in Hrest as [_ Hrest].
      apply Forall_cons_1 in Hrest as [Hne _]. contradiction.
  - destruct l1 as [|a l1]; simpl in Heq; injection Heq as Hhead Htail.
    + subst p. destruct Hp as [_ Hp]. rewrite Hp in Hstar. discriminate.
    + subst a. destruct (IH l1 Htail) as [H1 H2]. split; [constructor|]; assumption.
Qed.

Lemma marker_continuation (o : Observation.t) :
  marker o <> "*" -> is_marked o = true -> marker o = "&".
Proof.
  unfold marker, is_marked, Discovery.__str__, Discovery.__nonzero__, Discovery.__bool__.
  destruct (Discovery.is_initial_discovery _); [congruence|].
  intros _ ->. reflexivity.
Qed.

(** C1, amended: through a writer with [auto_discovery] enabled, whatever
    is written and flushed, of records whose initial-discovery flag implies
    their discovery flag, at most one line shows the asterisk; the lines
    before it are null observations without a mark, so that it is the
    earliest line that is not an unmarked null observation; and every
    later line that is discovery-marked shows '&'. *)
Theorem discovery_asterisk_written_once (ext : Externals)
  (auto_flush include_comments : bool)
  (formatter : option (Observation.t -> result string))
  (h0 : heap) (calls : list call) :
  (forall r, well_formed (h0 r)) ->
  Forall (fun c => match c with Assign _ o => well_formed o | _ => True end) calls ->
  let out :=
    emitted (run calls (h0, MPCWriter.__init__ ext auto_flush include_comments true
                              formatter)) in
  (length (filter (fun e => marker e = "*") out) <= 1)%nat
  /\ forall l1 e l2,
       out = l1 ++ e :: l2 ->
       marker e = "*" ->
       Forall unmarked_null l1
       /\ Forall (fun e' => marker e' <> "*" /\ (is_marked e' = true -> marker e' = "&")) l2.
Proof.
  intros Hh Hcalls out.
  assert (Hinv : discovery_invariant
                   (run calls (h0, MPCWriter.__init__ ext auto_flush include_comments
                                     true formatter))).
  { apply run_discovery; [exact Hcalls|]. split; [reflexivity|]. split; [exact Hh|].
    exists [], []. repeat split; constructor. }
  destruct Hinv as (_ & _ & Hout). fold out in Hout. split.
  - eapply one_discovery_count, Hout.
  - intros l1 e l2 Heq Hstar.
    destruct (one_discovery_split _ _ _ _ _ Hout Heq Hstar) as [H1 H2].
    split; [exact H1|]. eapply Forall_impl; [exact H2|].
    intros e' He'. split; [exact He' | apply marker_continuation, He'].
Qed.

End Writer.

(** *** Concrete runs *)

(** C1, as stated: the line with the asterisk is the null observation; the
    earliest line that is no null observation, the second, shows a
    blank. *)
Lemma asterisk_on_null_observation :
  let out :=
    MPCWriter.emitted
      (MPCWriter.run [MPCWriter.Write 0; MPCWriter.Write 1; MPCWriter.Write 2]
         (three_records, default_writer)) in
  map marker out = ["*"; " "; "&"]
  /\ map is_null out = [true; false; false]
  /\ map snd (MPCWriter.filehandle
                (MPCWriter.run [MPCWriter.Write 0; MPCWriter.Write 1; MPCWriter.Write 2]
                   (three_records, default_writer)).2)
     = [null_discovery_line +:+ String "010" "";
        second_day_line +:+ String "010" "";
        "     K13T01 & C2013 10 07.41268312 34 45.671-20 28 15.90         20.6 R      568"
          +:+ String "010" ""].
Proof. vm_compute. repeat split. Qed.


Lemma three_records_well_formed (r : MPCWriter.ref) : well_formed (three_records r).
Proof.
  destruct r as [|[|[|r]]]; intros H; vm_compute in H |- *; congruence.
Qed.

Lemma discovery_asterisk_written_once_witness :
  let out :=
    MPCWriter.emitted
      (MPCWriter.run [MPCWriter.Write 0; MPCWriter.Write 1; MPCWriter.Write 2]
         (three_records, MPCWriter.__init__ Exact.externals true true true None)) in
  (length (filter (fun e => marker e = "*") out) <= 1)%nat
  /\ forall l1 e l2,
       out = l1 ++ e :: l2 ->
       marker e = "*" ->
       Forall unmarked_null l1
       /\ Forall (fun e' => marker e' <> "*" /\ (is_marked e' = true -> marker e' = "&")) l2.
Proof.
  apply (discovery_asterisk_written_once Exact.externals true true None three_records
           [MPCWriter.Write 0; MPCWriter.Write 1; MPCWriter.Write 2]).
  - exact three_records_well_formed.
  - repeat constructor.
Defined.

(** *** One line per Julian day *)

Section WriterDays.

Import MPCWriter.

Lemma existsb_eqb_false (d : Z) (l : list Z) :
  existsb (Z.eqb d) l = false -> d ∉ l.
Proof.
  intros H Hin. apply list_elem_of_In in Hin.
  assert (Ht : existsb (Z.eqb d) l = true).
  { apply existsb_exists. exists d. split; [exact Hin | apply Z.eqb_refl]. }
  congruence.
Qed.

Lemma _flush_observation_days (r : ref) (s : heap * t) :
  days_invariant s -> days_invariant (_flush_observation r s).2.
Proof.
  destruct s as [h w]. intros [Hnodup Hin]. simpl in *.
  destruct (_flush_observation_spec r h w)
    as (_ & _ & Hfile & _ & Hwritten & _).
  unfold days_invariant, emitted in *. rewrite Hfile, Hwritten, !map_app.
  unfold lines_of. destruct (newly_written w (h r)) eqn:Enew.
  - unfold newly_written in Enew. apply negb_true_iff, existsb_eqb_false in Enew.
    destruct (formatter w (after_flush w (h r))); simpl map; rewrite ?app_nil_r.
    + rewrite after_flush_day. split.
      * apply NoDup_app. split; [exact Hnodup|]. split; [|apply NoDup_singleton].
        intros d Hd Hd'. apply list_elem_of_singleton in Hd'. subst d.
        apply Enew, Hin, Hd.
      * intros d Hd. apply elem_of_app in Hd as [Hd|Hd]; apply elem_of_app; auto.
    + split; [exact Hnodup|]. intros d Hd. apply elem_of_app. auto.
  - simpl map. rewrite app_nil_r. auto.
Qed.

Lemma run_days (calls : list call) (s : heap * t) :
  days_invariant s -> days_invariant (run calls s).
Proof.
  unfold run. revert s. induction calls as [|c calls IH]; intros s Hs; simpl; [exact Hs|].
  apply IH. destruct c as [r o|r|]; simpl.
  - exact Hs.
  - apply (write_keeps days_invariant);
      [apply _flush_observation_days | intros h w k r0 H; exact H | exact Hs].
  - apply (flush_keeps days_invariant); [apply _flush_observation_days | exact Hs].
Qed.

(** A buffer that holds one record is flushed by one call of
    [_flush_observation]. *)
Lemma flush_singleton (h : heap) (w : t) (k : Z) (r : ref) :
  buffer w = {[k := r]} ->
  (flush (h, w)).2 = (_flush_observation r (h, w)).2.
Proof.
  intros Hb. unfold flush, mbind, mself, get_chronological_buffered_observations.
  simpl. rewrite Hb, map_to_list_singleton. simpl.
  change (merge_sort Z.le [k]) with [k]. simpl. rewrite lookup_singleton_eq. simpl.
  unfold mbind, mret. destruct (_flush_observation r (h, w)) as [[u|e] s']; reflexivity.
Qed.

Lemma _flush_observation_day (r r' : ref) (h : heap) (w : t) :
  day ((_flush_observation r (h, w)).2.1 r') = day (h r').
Proof.
  destruct (_flush_observation_spec r h w) as (Hobs & Hothers & _).
  destruct (Nat.eq_dec r' r) as [->|Hne].
  - rewrite Hobs. apply after_flush_day.
  - rewrite Hothers by exact Hne. reflexivity.
Qed.



Lemma write_state (r : ref) (h : heap) (w : t) :
  let w' := set_buffer (<[mjd (Observation.date (h r)) := r]> (buffer w)) w in
  (write r (h, w)).2 = if auto_flush w then (flush (h, w')).2 else (h, w').
Proof.
  unfold write, mbind, mself, on_self, mret. simpl.
  destruct (auto_flush w); reflexivity.
Qed.




End WriterDays.



(** The scenario of the specification, with a writer that does not flush
    at each [write]: one line, of the record written last. *)
Example last_written_record_wins_without_auto_flush :
  map Observation.provisional_name
    (MPCWriter.emitted
       (MPCWriter.run [MPCWriter.Write 0; MPCWriter.Write 1; MPCWriter.Flush]
          (two_records, MPCWriter.__init__ Exact.externals false true true None)))
  = ["second"].
Proof. vm_compute. reflexivity. Qed.

(** * Further properties of the module *)

(** ** Strings *)

Lemma length_app (a b : string) :
  String.length (a +:+ b) = (String.length a + String.length b)%nat.
Proof. induction a as [|c a IH]; simpl; [reflexivity|]. now rewrite IH. Qed.

Lemma rfind_from_shift (c : ascii) (i : nat) (last : option nat) (s : string) :
  Py.rfind_from c i last s
  = match Py.rfind_from c 0 None s with
    | Some k => Some (i + k)%nat
    | None => last
    end.
Proof.
  revert i last. induction s as [|a s IH]; intros i last; simpl; [reflexivity|].
  rewrite (IH (S i)), (IH 1%nat).
  destruct (Py.rfind_from c 0 None s) as [k|].
  - f_equal. lia.
  - destruct (Ascii.eqb a c); [f_equal; lia | reflexivity].
Qed.

Lemma rfind_from_app (c : ascii) (i : nat) (last : option nat) (a s : string) :
  Py.rfind_from c i last (a +:+ s)
  = Py.rfind_from c (i + String.length a) (Py.rfind_from c i last a) s.
Proof.
  revert i last. induction a as [|x a IH]; intros i last; simpl.
  - now rewrite Nat.add_0_r.
  - rewrite IH. f_equal. lia.
Qed.

(** The last occurrence of [c] in [a + c + b], when [b] holds none. *)
Lemma rfind_last (c : ascii) (a b : string) :
  Py.rfind c b = None -> Py.rfind c (a +:+ String c b) = Some (String.length a).
Proof.
  unfold Py.rfind. intros Hb. rewrite rfind_from_app. simpl.
  rewrite Ascii.eqb_refl, rfind_from_shift, Hb. reflexivity.
Qed.

(** ** compute_precision *)

(** X1: on a text without blanks at its ends, [compute_precision] is the
    number of characters after the last point, digits or not. *)
Theorem compute_precision_after_last_point (a b : string) :
  Py.strip_chars " " (a +:+ "." +:+ b) = a +:+ "." +:+ b ->
  Py.rfind "." b = None ->
  compute_precision (a +:+ "." +:+ b) = String.length b.
Proof.
  intros Hstrip Hb. unfold compute_precision. rewrite Hstrip.
  change ("." +:+ b) with (String "." b).
  rewrite (rfind_last "." a b Hb), length_app. simpl. lia.
Qed.

Lemma compute_precision_after_last_point_witness :
  compute_precision ("2013 10 05" +:+ "." +:+ "412683") = 6%nat
  /\ compute_precision ("1.5" +:+ "." +:+ "x y") = 3%nat.
Proof.
  split.
  - apply (compute_precision_after_last_point "2013 10 05" "412683"); reflexivity.
  - apply (compute_precision_after_last_point "1.5" "x y"); reflexivity.
Defined.

(** ** MPCNote *)

Lemma digits_value_total (l : list ascii) (acc : Z) :
  forallb Py.is_digit l = true -> exists z, Py.digits_value acc l = Some z.
Proof.
  revert acc. induction l as [|c l IH]; intros acc; simpl; [eauto|].
  intros H. apply andb_true_iff in H as [Hc Hl]. rewrite Hc. apply IH, Hl.
Qed.

Lemma existsb_eqb_elem_of (s : string) (l : list string) :
  existsb (String.eqb s) l = true <-> s ∈ l.
Proof.
  rewrite existsb_exists. split.
  - intros (x & Hin & Hx). apply String.eqb_eq in Hx. subst x.
    now apply list_elem_of_In.
  - intros Hin. exists s. split; [now apply list_elem_of_In | apply String.eqb_refl].
Qed.

Lemma MPCNote_init_inv (code : option string) (note_type : string) (n : MPCNote.t) :
  let _code := match code with None => " " | Some s => Py.strip s end in
  MPCNote.__init__ code note_type = Ok n ->
  n = MPCNote.mk note_type _code
  /\ exists keys,
       MPCNote.MPCNOTES note_type = Some keys
       /\ if Py.isdigit _code
          then note_type = "Note1"
               /\ exists z, Py.int (PyStr _code) = Ok z /\ (0 < z < 10)%Z
          else (String.length _code <= 1)%nat /\ _code ∈ keys.
Proof.
  intros _code.
  unfold MPCNote.__init__, MPCNote.note_type_setter, MPCNote.code_setter.
  fold _code. cbn [MPCNote._note_type MPCNote._code].
  destruct (MPCNote.MPCNOTES note_type) as [keys|] eqn:Hkeys; cbn [Py.bind];
    [|discriminate].
  cbn [MPCNote._note_type]. rewrite Hkeys.
  destruct (Py.isdigit _code) eqn:Hd.
  - destruct (String.eqb_spec note_type "Note1") as [->|Hnt]; cbn [negb Py.bind];
      [|discriminate].
    destruct (Py.int (PyStr _code)) as [z|e] eqn:Hz; cbn [Py.bind]; [|discriminate].
    destruct ((0 <? z)%Z && (z <? 10)%Z) eqn:Hr; cbn [negb Py.bind]; [|discriminate].
    intros [= <-]. split; [reflexivity|]. exists keys. split; [reflexivity|].
    split; [reflexivity|]. exists z. split; [reflexivity|].
    apply andb_true_iff in Hr as [H1 H2]. lia.
  - destruct (1 <? String.length _code)%nat eqn:Hl; cbn [Py.bind]; [discriminate|].
    apply Nat.ltb_ge in Hl.
    destruct (existsb (String.eqb _code) keys) eqn:Hk; cbn [negb Py.bind]; [|discriminate].
    intros [= <-]. split; [reflexivity|]. exists keys. split; [reflexivity|].
    split; [exact Hl|]. now apply existsb_eqb_elem_of.
Qed.

(** X2: the codes that [MPCNote] accepts. The code is stored stripped
    ([None] as one blank). A code made of digits is accepted for a
    [Note1] only, and when its value is between 1 and 9; any other code
    must be at most one character long and a key of the table of its note
    type. *)
Theorem MPCNote_accepted_codes (code : option string) (note_type : string)
  (n : MPCNote.t) :
  let _code := match code with None => " " | Some s => Py.strip s end in
  MPCNote.__init__ code note_type = Ok n
  <-> n = MPCNote.mk note_type _code
      /\ exists keys,
           MPCNote.MPCNOTES note_type = Some keys
           /\ if Py.isdigit _code
              then note_type = "Note1"
                   /\ exists z, Py.int (PyStr _code) = Ok z /\ (0 < z < 10)%Z
              else (String.length _code <= 1)%nat /\ _code ∈ keys.
Proof.
  intros _code. split; [apply MPCNote_init_inv|].
  intros (-> & keys & Hkeys & H).
  unfold MPCNote.__init__, MPCNote.note_type_setter, MPCNote.code_setter.
  fold _code. rewrite Hkeys. cbn [Py.bind MPCNote._note_type MPCNote._code].
  rewrite Hkeys. destruct (Py.isdigit _code).
  - destruct H as (-> & z & -> & Hz). cbn [String.eqb negb Py.bind].
    replace ((0 <? z)%Z && (z <? 10)%Z) with true; [reflexivity|].
    symmetry. apply andb_true_iff. split; apply Z.ltb_lt; lia.
  - destruct H as [Hl Hin].
    replace (1 <? String.length _code)%nat with false
      by (symmetry; apply Nat.ltb_ge; exact Hl).
    apply existsb_eqb_elem_of in Hin. rewrite Hin. reflexivity.
Qed.

Lemma MPCNote_accepted_codes_witness :
  MPCNote.__init__ (Some "05") "Note1" = Ok (MPCNote.mk "Note1" "05")
  /\ MPCNote.__init__ None "Note2" = Ok (MPCNote.mk "Note2" " ")
  /\ MPCNote.__init__ (Some "0") "Note1" <> Ok (MPCNote.mk "Note1" "0").
Proof.
  split; [|split].
  - apply (MPCNote_accepted_codes (Some "05") "Note1"). split; [reflexivity|].
    eexists. split; [reflexivity|]. split; [reflexivity|].
    exists 5%Z. split; [reflexivity | lia].
  - apply (MPCNote_accepted_codes None "Note2"). split; [reflexivity|].
    eexists. split; [reflexivity|]. split; [simpl; lia|]. vm_compute. constructor.
  - intros H. apply (MPCNote_accepted_codes (Some "0") "Note1") in H
      as (_ & k & _ & _ & z & Hint & Hz).
    vm_compute in Hint. injection Hint as <-. lia.
Defined.

(** The table with its values has the keys that the setter checks. *)
Lemma MPCNOTES_items_keys (note_type : string) :
  option_map (map fst) (MPCNOTES_items note_type) = MPCNote.MPCNOTES note_type.
Proof.
  unfold MPCNOTES_items, MPCNote.MPCNOTES.
  repeat match goal with
         | |- context [String.eqb ?a ?b] => destruct (String.eqb a b)
         end; reflexivity.
Qed.

Lemma dict_get_key (items : list (string * string)) (key : string) :
  key ∈ map fst items -> exists v, dict_get items key = Ok v.
Proof.
  unfold dict_get. induction items as [|[k v] items IH]; simpl.
  - intros H. inversion H.
  - destruct (String.eqb_spec key k) as [->|Hne]; [eauto|].
    intros H. apply elem_of_cons in H as [H|H]; [contradiction | auto].
Qed.

Lemma dict_get_no_key (items : list (string * string)) (key : string) :
  key ∉ map fst items -> dict_get items key = Raise KeyError.
Proof.
  unfold dict_get. induction items as [|[k v] items IH]; simpl; [reflexivity|].
  intros H. destruct (String.eqb_spec key k) as [->|Hne].
  - exfalso. apply H. apply list_elem_of_here.
  - apply IH. intros Hin. apply H. now apply list_elem_of_further.
Qed.

(** X3: [long] gives the description of every code that is no number,
    and raises [KeyError] on the numeric codes that a [Note1] accepts: the
    table has no entry for them. *)
Theorem MPCNote_long_of_accepted_code (code : option string) (note_type : string)
  (n : MPCNote.t) :
  MPCNote.__init__ code note_type = Ok n ->
  if Py.isdigit (MPCNote.code n)
  then MPCNote_long n = Raise KeyError
  else exists text, MPCNote_long n = Ok text.
Proof.
  intros H. apply MPCNote_init_inv in H as (-> & keys & Hkeys & H).
  cbn [MPCNote.code MPCNote._code]. unfold MPCNote_long.
  cbn [MPCNote.code MPCNote._code MPCNote._note_type].
  pose proof (MPCNOTES_items_keys note_type) as Hitems. rewrite Hkeys in Hitems.
  destruct (MPCNOTES_items note_type) as [items|]; [|discriminate].
  injection Hitems as <-.
  set (_code := match code with None => " " | Some s => Py.strip s end) in *.
  destruct (Py.isdigit _code) eqn:Hd.
  - destruct H as [-> _]. apply dict_get_no_key. intros Hin.
    assert (Hnone : Forall (fun k => Py.isdigit k = false) (map fst items)).
    { remember (map fst items) as ks eqn:Hks. clear Hks Hin.
      vm_compute in Hkeys. injection Hkeys as <-. repeat constructor. }
    rewrite Forall_forall in Hnone. specialize (Hnone _ Hin). congruence.
  - destruct H as [_ Hin]. apply dict_get_key, Hin.
Qed.

Lemma MPCNote_long_of_accepted_code_witness :
  MPCNote_long (MPCNote.mk "Note1" "5") = Raise KeyError
  /\ exists text, MPCNote_long (MPCNote.mk "Note2" "C") = Ok text.
Proof.
  split.
  - exact (MPCNote_long_of_accepted_code (Some "5") "Note1" (MPCNote.mk "Note1" "5")
             eq_refl).
  - exact (MPCNote_long_of_accepted_code (Some "C") "Note2" (MPCNote.mk "Note2" "C")
             eq_refl).
Defined.

(** ** Discovery *)

Lemma eq_PyStr_PyBool (s : string) (b : bool) : PyOps.eq (PyStr s) (PyBool b) = false.
Proof. reflexivity. Qed.

(** X4: the discovery column survives the constructor and [__str__]: of
    the texts that [Discovery] accepts, "*" and "&" come back as they
    are, the blank and the empty text as a blank; and an initial discovery
    is a discovery. *)
Theorem Discovery_column_round_trip (c : string) (d : Discovery.t) :
  Discovery.__init__ (PyStr c) = Ok d ->
  (c = "*" \/ c = "&" \/ c = " " \/ c = "")
  /\ Discovery.__str__ d = (if String.eqb c "" then " " else c)
  /\ (Discovery.is_initial_discovery d = true -> Discovery.is_discovery d = true).
Proof.
  unfold Discovery.__init__, Discovery.is_discovery_setter, Discovery.is_initial_discovery_setter,
    Discovery.__str__, Discovery.is_initial_discovery, Discovery.is_discovery,
    PyOps.in_list.
  cbn [existsb Discovery._is_discovery Discovery._is_initial_discovery].
  rewrite !eq_PyStr_PyBool.
  change (PyOps.eq (PyStr c) PyNone) with false.
  change (PyOps.eq (PyStr c) (PyStr "*")) with (String.eqb c "*").
  change (PyOps.eq (PyStr c) (PyStr "&")) with (String.eqb c "&").
  change (PyOps.eq (PyStr c) (PyStr " ")) with (String.eqb c " ").
  change (PyOps.eq (PyStr c) (PyStr "")) with (String.eqb c "").
  destruct (String.eqb_spec c "*") as [->|H1]; cbn.
  { intros [= <-]. cbn. auto. }
  destruct (String.eqb_spec c "&") as [->|H2]; cbn.
  { intros [= <-]. cbn. auto 6. }
  destruct (String.eqb_spec c " ") as [->|H3]; cbn.
  { intros [= <-]. cbn. split; [auto|]. split; [reflexivity | discriminate]. }
  destruct (String.eqb_spec c "") as [->|H4]; cbn.
  { intros [= <-]. cbn. split; [auto|]. split; [reflexivity | discriminate]. }
  discriminate.
Qed.

Lemma Discovery_column_round_trip_witness :
  ("&" = "*" \/ "&" = "&" \/ "&" = " " \/ "&" = "")
  /\ Discovery.__str__ (Discovery.mk true false) = "&"
  /\ (Discovery.is_initial_discovery (Discovery.mk true false) = true ->
      Discovery.is_discovery (Discovery.mk true false) = true).
Proof.
  apply (Discovery_column_round_trip "&" (Discovery.mk true false)). reflexivity.
Defined.

(** X5: [set_from_mpc_line] refuses a line of less than 56 characters;
    on a longer one it sets the discovery flag from column 13 and leaves
    the initial-discovery flag as it was, so that a [Discovery()] set from
    a line with the asterisk prints '&', never '*'. *)
Theorem Discovery_set_from_mpc_line_keeps_initial (mpc_line : string)
  (self d : Discovery.t) :
  Discovery_set_from_mpc_line mpc_line self = Ok d ->
  (56 <= String.length mpc_line)%nat
  /\ Discovery.is_initial_discovery d = Discovery.is_initial_discovery self
  /\ (exists c,
        String.get 12 mpc_line = Some c
        /\ Discovery.is_discovery d = (Ascii.eqb c "*" || Ascii.eqb c "&"))
  /\ (Discovery.is_initial_discovery self = false ->
      Discovery.__str__ d
      = if Discovery.is_discovery d then "&" else " ").
Proof.
  unfold Discovery_set_from_mpc_line, Py.index.
  destruct (String.length mpc_line <? 56)%nat eqn:Hlen; [discriminate|].
  apply Nat.ltb_ge in Hlen.
  destruct (String.get 12 mpc_line) as [c|]; [|discriminate]. cbn [Py.bind].
  unfold Discovery.is_discovery_setter, PyOps.in_list.
  cbn [existsb]. rewrite !eq_PyStr_PyBool.
  change (PyOps.eq (PyStr (String c "")) PyNone) with false.
  change (PyOps.eq (PyStr (String c "")) (PyStr "*")) with (Ascii.eqb c "*" && true).
  change (PyOps.eq (PyStr (String c "")) (PyStr "&")) with (Ascii.eqb c "&" && true).
  change (PyOps.eq (PyStr (String c "")) (PyStr " ")) with (Ascii.eqb c " " && true).
  change (PyOps.eq (PyStr (String c "")) (PyStr "")) with false.
  rewrite !andb_true_r.
  destruct self as [sd si].
  destruct (Ascii.eqb c "*") eqn:E1, (Ascii.eqb c "&") eqn:E2, (Ascii.eqb c " ") eqn:E3;
    cbn; try discriminate;
    (intros [= <-]; split; [exact Hlen|]; split; [reflexivity|]; split;
     [exists c; rewrite E1, E2; split; reflexivity
     |unfold Discovery.__str__, Discovery.is_initial_discovery, Discovery.is_discovery;
      cbn; intros ->; reflexivity]).
Qed.

Lemma Discovery_set_from_mpc_line_keeps_initial_witness :
  exists d,
    Discovery_set_from_mpc_line aligned_line (Discovery.mk false false) = Ok d
    /\ Discovery.__str__ d = "&".
Proof.
  exists (Discovery.mk true false). split; [reflexivity|].
  apply (Discovery_set_from_mpc_line_keeps_initial aligned_line (Discovery.mk false false));
    reflexivity.
Defined.

(** ** The photometry note of a comment *)

(** X6: the constructor of a comment does not keep the photometry note it
    is given: the note is 'Y' when the magnitude is a number strictly
    between 15 and 30 and its uncertainty a number strictly between 0 and
    1, and 'Z' otherwise, never 'L'. A magnitude or uncertainty outside
    its range is stored as [None]. *)
Theorem OSSOSComment_photometry_note_is_computed (ext : Externals)
  (cls : OSSOSComment.class) (version : string) (frame source_name : option string)
  (photometry_note mpc_note : string)
  (x y plate_uncertainty astrometric_level magnitude mag_uncertainty : PyVal)
  (comment : option string) (o : OSSOSComment.t) :
  OSSOSComment.new ext cls version frame source_name photometry_note mpc_note x y
    plate_uncertainty astrometric_level magnitude mag_uncertainty comment = Ok o ->
  let mag :=
    match py_float ext magnitude with
    | Ok m => if in_open 15 30 m then Some m else None
    | Raise _ => None
    end in
  let uncertainty :=
    match py_float ext mag_uncertainty with
    | Ok u => if in_open 0 1 u then Some u else None
    | Raise _ => None
    end in
  OSSOSComment._mag o = mag
  /\ OSSOSComment._mag_uncertainty o = uncertainty
  /\ OSSOSComment._photometry_note o
     = match mag, uncertainty with
       | Some _, Some _ => "Y"
       | _, _ => "Z"
       end.
Proof.
  unfold OSSOSComment.new, construct, OSSOSComment.__init__, OSSOSComment.x_setter,
    OSSOSComment.y_setter, OSSOSComment.mag_setter, OSSOSComment.mag_uncertainty_setter,
    OSSOSComment.plate_uncertainty_setter, OSSOSComment.astrometric_level_setter,
    OSSOSComment.comment_setter, OSSOSComment.photometry_note_setter,
    OSSOSComment.str_mag_isdigit,
    mtry, mbind, mlift, massign, mself, mraise, mret.
  change (in_open 0 100 (2 # 10)) with true.
  destruct (py_float ext x) as [fx|ex]; destruct (py_float ext y) as [fy|ey];
    (destruct (py_float ext magnitude) as [fm|em]; [destruct (in_open 15 30 fm)|]);
    (destruct (py_float ext mag_uncertainty) as [fu|eu]; [destruct (in_open 0 1 fu)|]);
    (destruct (py_float ext plate_uncertainty) as [fp|ep];
     [destruct (in_open 0 100 fp) eqn:Hp|]);
    (destruct (Py.int astrometric_level) as [l|el];
     [destruct ((-1 <? l)%Z && (l <? 10)%Z) eqn:Hl|]);
    destruct comment; cbn; rewrite ?Hp; cbn; try discriminate;
    intros [= <-]; cbn; auto.
Qed.

Lemma OSSOSComment_photometry_note_is_computed_witness :
  exists o,
    OSSOSComment.new Exact.externals OSSOSComment.IsOSSOSComment "O" None None "L" " "
      PyNone PyNone PyNone (PyInt 0) (PyFloat 20) PyNone None = Ok o
    /\ OSSOSComment._mag o = Some 20%Q
    /\ OSSOSComment._mag_uncertainty o = None
    /\ OSSOSComment._photometry_note o = "Z".
Proof.
  eexists. split; [reflexivity|].
  apply (OSSOSComment_photometry_note_is_computed Exact.externals
           OSSOSComment.IsOSSOSComment "O" None None "L" " "
           PyNone PyNone PyNone (PyInt 0) (PyFloat 20) PyNone None).
  reflexivity.
Defined.

(** ** Reading and printing a record *)

Lemma length_repeat_char (c : ascii) (n : nat) : String.length (Py.repeat_char c n) = n.
Proof. unfold Py.repeat_char. induction n as [|n IH]; simpl; [reflexivity | now rewrite IH]. Qed.

Lemma length_ljust (w : nat) (s : string) :
  String.length (Py.ljust w s) = Nat.max w (String.length s).
Proof. unfold Py.ljust. rewrite length_app, length_repeat_char. lia. Qed.

Lemma length_rjust (w : nat) (s : string) :
  String.length (Py.rjust w s) = Nat.max w (String.length s).
Proof. unfold Py.rjust. rewrite length_app, length_repeat_char. lia. Qed.

Lemma length_string_of_list_ascii (l : list ascii) :
  String.length (string_of_list_ascii l) = length l.
Proof. induction l as [|c l IH]; simpl; [reflexivity | now rewrite IH]. Qed.

Lemma length_list_ascii_of_string (s : string) :
  length (list_ascii_of_string s) = String.length s.
Proof. induction s as [|c s IH]; simpl; [reflexivity | now rewrite IH]. Qed.

Lemma length_rev_string (s : string) : String.length (Py.rev_string s) = String.length s.
Proof.
  unfold Py.rev_string.
  now rewrite length_string_of_list_ascii, length_rev, length_list_ascii_of_string.
Qed.

Lemma length_lstrip_by (p : ascii -> bool) (s : string) :
  (String.length (Py.lstrip_by p s) <= String.length s)%nat.
Proof.
  induction s as [|c s IH]; simpl; [lia|]. destruct (p c); simpl; lia.
Qed.

Lemma length_strip_by (p : ascii -> bool) (s : string) :
  (String.length (Py.strip_by p s) <= String.length s)%nat.
Proof.
  unfold Py.strip_by, Py.rstrip_by. rewrite length_rev_string.
  etransitivity; [apply length_lstrip_by|]. rewrite length_rev_string.
  apply length_lstrip_by.
Qed.

Lemma length_substring (n m : nat) (s : string) :
  (String.length (substring n m s) <= m)%nat.
Proof.
  revert m s. induction n as [|n IH]; intros m s.
  - rewrite length_substring_0. lia.
  - destruct s as [|c s]; simpl; [destruct m; simpl; lia | apply IH].
Qed.

(** *** What the constructor leaves in the columns that are printed *)

Lemma mag_setter_spec (ext : Externals) (mag : string) (s s' : Observation.t) (u : unit) :
  Observation.mag_setter ext mag s = (Ok u, s') ->
  exists m p,
    s' = Observation.set__mag_precision p (Observation.set__mag m s)
    /\ (p <= 1)%nat
    /\ (Py.strip_chars " " mag = "" -> m = None).
Proof.
  unfold Observation.mag_setter, mbind, mlift, massign.
  destruct (String.length (strip_chars " " mag) =? 0)%nat eqn:E.
  - intros [= _ <-]. exists None, 0%nat. auto.
  - destruct (py_float ext (PyStr mag)) as [f|e]; [|intros [=]].
    assert (Hne : strip_chars " " mag <> "").
    { intros H. rewrite H in E. discriminate. }
    destruct (Qltb f 0); intros [= _ <-].
    + exists None, 0%nat. auto.
    + exists (Some f), (Nat.min 1 (compute_precision mag)).
      split; [reflexivity|]. split; [lia | contradiction].
Qed.

Lemma band_setter_spec (band : string) (s s' : Observation.t) (u : unit) :
  Observation.band_setter band s = (Ok u, s') ->
  s' = Observation.set__band (band_of band) s.
Proof. unfold Observation.band_setter. intros H. apply massign_Ok in H. exact H. Qed.

Lemma null_observation_setter_spec (v : string) (s s' : Observation.t) (u : unit) :
  Observation.null_observation_setter (PyStr v) s = (Ok u, s') ->
  exists b, s' = Observation.set__null_observation (NullObservation.mk "!" b) s.
Proof.
  intros H. apply null_observation_setter_Ok in H as (n & Hn & ->).
  unfold NullObservation.__init__ in Hn.
  destruct (Py.index v 0); [|discriminate]. injection Hn as <-. eauto.
Qed.

Ltac columns_step H :=
  let u := fresh "u" in
  let s := fresh "s" in
  let H1 := fresh "Hstep" in
  apply mbind_Ok in H as (u & s & H1 & H); cbv beta in H;
  first
    [ apply massign_Ok in H1
    | apply null_observation_setter_spec in H1 as (? & H1)
    | apply discovery_setter_Ok in H1 as (? & ? & H1)
    | apply note1_setter_Ok in H1 as (? & ? & H1)
    | apply note2_setter_Ok in H1 as (? & ? & H1)
    | apply date_setter_Ok in H1 as (? & ? & H1)
    | apply coordinate_setter_Ok in H1 as (? & ? & ? & H1)
    | apply mag_setter_spec in H1 as (? & ? & H1 & ? & ?)
    | apply mag_err_setter_Ok in H1 as (? & H1)
    | apply band_setter_spec in H1
    | apply observatory_code_setter_Ok in H1 as (? & H1)
    | apply mself_Ok in H1 as (? & H1)
    | apply mlift_Ok in H1 as (? & H1)
    | (unfold Observation.provisional_name_setter in H1; apply massign_Ok in H1) ];
  subst.

Lemma Observation_init_columns (ext : Externals)
  (null_observation provisional_name discovery note1 note2 date ra dec mag band
   observatory_code : string) (obsrec : Observation.t) :
  construct (Observation.__init__ ext null_observation provisional_name discovery note1
               note2 date ra dec mag band observatory_code) Observation.blank
  = Ok obsrec ->
  NullObservation.null_observation_character (Observation.null_observation obsrec) = "!"
  /\ Observation.provisional_name obsrec = Py.strip provisional_name
  /\ MPCNote.code (Observation.note1 obsrec) = Py.strip note1
  /\ MPCNote.code (Observation.note2 obsrec) = Py.strip note2
  /\ Observation.observatory_code obsrec = observatory_code
  /\ (String.length observatory_code <= 3)%nat
  /\ Observation._ra_precision obsrec = 3%nat
  /\ Observation._dec_precision obsrec = 2%nat
  /\ (Observation._mag_precision obsrec <= 1)%nat
  /\ Observation.band obsrec = band_of band
  /\ (Py.strip_chars " " mag = "" -> Observation.mag obsrec = None).
Proof.
  intros H. apply construct_Ok in H as [u H].
  unfold Observation.__init__ in H.
  repeat columns_step H.
  apply comment_setter_Ok in H as (c & ->).
  repeat match goal with
         | Hn : MPCNote.__init__ _ _ = Ok _ |- _ => apply MPCNote_init_code in Hn
         end.
  repeat split; try assumption; reflexivity.
Qed.

(** What [from_string] returns for a line that is no comment line: the
    record that the constructor makes of the columns, with the comment and,
    for a flagged database comment, the discovery mark set afterwards. *)
Lemma from_string_record (ext : Externals) (input_line : string) (o : Observation.t) :
  Observation.from_string ext input_line = Ok (Observation.ObservationRecord o) ->
  let data := Py.slice 0 80 (Py.strip_chars (String "010" "") input_line) in
  String.length data = 80%nat
  /\ exists rec0 c d,
       construct (Observation.__init__ ext
                    (substring 0 1 data) (substring 1 11 data) (substring 12 1 data)
                    (substring 13 1 data) (substring 14 1 data) (substring 15 17 data)
                    (substring 32 12 data) (substring 44 12 data) (substring 65 5 data)
                    (substring 70 1 data) (substring 77 3 data)) Observation.blank
       = Ok rec0
       /\ o = Observation.set__discovery d (Observation.set__comment c rec0).
Proof.
  intros H data. unfold Observation.from_string in H. fold data in H.
  destruct (_ && String.prefix "#" _).
  { destruct (MPCComment_from_string ext _); discriminate. }
  destruct (String.length data =? 80)%nat eqn:E; [|discriminate].
  apply Nat.eqb_eq in E. split; [exact E|]. simpl negb in H. cbv iota in H.
  rewrite (unpack_mpc_format data E) in H. unfold Py.bind at 1 in H.
  destruct (construct _ Observation.blank) as [rec0|e] eqn:Hinit; [|discriminate].
  unfold Py.bind at 1 in H.
  destruct (MPCComment_from_string ext _) as [c|e]; [|discriminate].
  exists rec0. destruct rec0.
  destruct c as [s|oc]; simpl in H.
  - injection H as <-. do 2 eexists. split; [reflexivity | unfold Observation.set__discovery, Observation.set__comment; cbn; reflexivity].
  - destruct (OSSOSComment.source_name oc) eqn:Hs; simpl in H;
      destruct (OSSOSComment.klass oc) eqn:Hk; simpl in H; rewrite ?Hs in H;
      try (injection H as <-; do 2 eexists; split; [reflexivity | unfold Observation.set__discovery, Observation.set__comment; cbn; reflexivity]);
      (destruct (OSSOSComment.flags oc) as [flags|]; [|discriminate];
       simpl in H; destruct (Py.index flags 0) as [f0|e]; [|discriminate];
       simpl in H; destruct (Ascii.eqb f0 "1"); simpl in H;
       injection H as <-; do 2 eexists; (split; [reflexivity | unfold Observation.set__discovery, Observation.set__comment; cbn; reflexivity])).
Qed.

(** X7: whatever the line held, the record that [from_string] returns
    prints its right ascension with three decimals and its declination
    with two (the precision read from the text is overwritten by the
    constructor), and its magnitude with one decimal at most. *)
Theorem from_string_fixes_the_precisions (ext : Externals) (input_line : string)
  (o : Observation.t) :
  Observation.from_string ext input_line = Ok (Observation.ObservationRecord o) ->
  Observation._ra_precision o = 3%nat
  /\ Observation._dec_precision o = 2%nat
  /\ (Observation._mag_precision o <= 1)%nat
  /\ Observation.ra ext o = ra_format ext (Observation.coordinate o) 3
  /\ Observation.dec ext o = dec_format ext (Observation.coordinate o) 2.
Proof.
  intros H. apply from_string_record in H as (_ & rec0 & c & d & Hinit & ->).
  apply Observation_init_columns in Hinit as (_ & _ & _ & _ & _ & _ & Hra & Hdec & Hmag & _).
  unfold Observation.ra, Observation.dec. cbn. rewrite Hra, Hdec. auto.
Qed.

Lemma from_string_fixes_the_precisions_witness :
  exists o,
    Observation.from_string Exact.externals short_coordinates_line
    = Ok (Observation.ObservationRecord o)
    /\ (Observation._ra_precision o = 3%nat
        /\ Observation._dec_precision o = 2%nat
        /\ (Observation._mag_precision o <= 1)%nat
        /\ Observation.ra Exact.externals o
           = ra_format Exact.externals (Observation.coordinate o) 3
        /\ Observation.dec Exact.externals o
           = dec_format Exact.externals (Observation.coordinate o) 2)
    /\ Observation.ra Exact.externals o = "12 34 45.600"
    /\ Observation.dec Exact.externals o = "-20 28 15.90".
Proof.
  exists (record_of_line short_coordinates_line).
  split; [vm_compute; reflexivity|]. split.
  - apply (from_string_fixes_the_precisions Exact.externals short_coordinates_line).
    vm_compute. reflexivity.
  - vm_compute. split; reflexivity.
Defined.

Lemma string_of_list_ascii_app (l1 l2 : list ascii) :
  string_of_list_ascii (l1 ++ l2) = string_of_list_ascii l1 +:+ string_of_list_ascii l2.
Proof. induction l1 as [|c l1 IH]; simpl; [reflexivity | now rewrite IH]. Qed.

Lemma list_ascii_of_string_app (a b : string) :
  list_ascii_of_string (a +:+ b) = list_ascii_of_string a ++ list_ascii_of_string b.
Proof. induction a as [|c a IH]; simpl; [reflexivity | now rewrite IH]. Qed.

Lemma rev_string_cons (c : ascii) (s : string) :
  Py.rev_string (String c s) = Py.rev_string s +:+ String c "".
Proof. unfold Py.rev_string. simpl. now rewrite string_of_list_ascii_app. Qed.

Lemma rev_string_app (a b : string) :
  Py.rev_string (a +:+ b) = Py.rev_string b +:+ Py.rev_string a.
Proof.
  unfold Py.rev_string.
  now rewrite list_ascii_of_string_app, rev_app_distr, string_of_list_ascii_app.
Qed.

Lemma rev_string_involutive (s : string) : Py.rev_string (Py.rev_string s) = s.
Proof.
  unfold Py.rev_string.
  now rewrite list_ascii_of_string_of_list_ascii, rev_involutive,
    string_of_list_ascii_of_string.
Qed.

Lemma lstrip_by_app_last (p : ascii -> bool) (x : string) (c : ascii) :
  p c = false ->
  Py.lstrip_by p (x +:+ String c "") = Py.lstrip_by p x +:+ String c "".
Proof.
  intros Hc. induction x as [|a x IH]; simpl.
  - now rewrite Hc.
  - destruct (p a); [exact IH | reflexivity].
Qed.

(** The right strip does not reach beyond a character that is kept. *)
Lemma rstrip_by_cons (p : ascii -> bool) (c : ascii) (s : string) :
  p c = false -> Py.rstrip_by p (String c s) = String c (Py.rstrip_by p s).
Proof.
  intros Hc. unfold Py.rstrip_by.
  rewrite rev_string_cons, (lstrip_by_app_last p _ c Hc), rev_string_app.
  reflexivity.
Qed.

Lemma strip_by_cons (p : ascii -> bool) (c : ascii) (s : string) :
  p c = false -> Py.strip_by p (String c s) = String c (Py.rstrip_by p s).
Proof.
  intros Hc. unfold Py.strip_by. simpl. rewrite Hc. now apply rstrip_by_cons.
Qed.

Lemma prefix_head (c : ascii) (s : string) :
  String.prefix (String c "") (String c s) = true.
Proof. apply prefix_correct. simpl. destruct s; reflexivity. Qed.

Lemma length_NullObservation_str (b : bool) :
  String.length (NullObservation.__str__ (NullObservation.mk "!" b)) = 1%nat.
Proof. destruct b; reflexivity. Qed.

Lemma length_Discovery_str (d : Discovery.t) : String.length (Discovery.__str__ d) = 1%nat.
Proof.
  unfold Discovery.__str__.
  destruct (Discovery.is_initial_discovery d), (Discovery.is_discovery d); reflexivity.
Qed.

(** X8: a record that [from_string] has read prints on exactly 80
    columns, whenever it prints at all and the date and the two
    coordinates come out of their formatters no wider than their columns
    (17, 12 and 12). *)
Theorem parsed_record_prints_80_columns (ext : Externals) (input_line : string)
  (o : Observation.t) (text : string) :
  Observation.from_string ext input_line = Ok (Observation.ObservationRecord o) ->
  Observation.__str__ ext o = Ok text ->
  (String.length (Time_str ext (Observation.date o)) <= 17)%nat ->
  (String.length (Observation.ra ext o) <= 12)%nat ->
  (String.length (Observation.dec ext o) <= 12)%nat ->
  String.length text = 80%nat.
Proof.
  intros H Hstr Hdate Hra Hdec.
  apply from_string_record in H as (_ & rec0 & c & d & Hinit & ->).
  apply Observation_init_columns in Hinit
    as (Hnull & Hname & Hn1 & Hn2 & Hcode & Hcodelen & _ & _ & _ & _ & _).
  assert (Lname : (String.length (Observation.provisional_name rec0) <= 11)%nat).
  { rewrite Hname. etransitivity; [apply length_strip_by | apply length_substring]. }
  assert (Ln1 : (String.length (MPCNote.code (Observation.note1 rec0)) <= 1)%nat).
  { rewrite Hn1. etransitivity; [apply length_strip_by | apply length_substring]. }
  assert (Ln2 : (String.length (MPCNote.code (Observation.note2 rec0)) <= 1)%nat).
  { rewrite Hn2. etransitivity; [apply length_strip_by | apply length_substring]. }
  assert (Lcode : (String.length (Observation.observatory_code rec0) <= 3)%nat).
  { rewrite Hcode. exact Hcodelen. }
  clear Hname Hn1 Hn2 Hcode Hcodelen.
  destruct rec0 as [[nc nb] name di n1 n2 dt dp co rp dcp mg me mp bd oc cm].
  cbn in Hnull, Lname, Ln1, Ln2, Lcode, Hdate, Hra, Hdec. subst nc.
  unfold Observation.__str__ in Hstr.
  unfold Observation.ra, Observation.dec in *.
  cbn -[Nat.ltb Nat.eqb] in Hstr, Hra, Hdec.
  unfold MPCNote.__str__, MPCNote.code in *.
  match type of Hstr with
  | (if negb (?len =? 6)%nat then _ else _) = _ => destruct (len =? 6)%nat eqn:Hmag
  end; [|discriminate].
  apply Nat.eqb_eq in Hmag. cbn [negb] in Hstr. injection Hstr as <-.
  rewrite !length_app, Hmag, !length_ljust, !length_rjust, ?length_app,
    ?length_repeat_char, length_Discovery_str, length_NullObservation_str.
  destruct (7 <? String.length name)%nat eqn:E;
    [apply Nat.ltb_lt in E | apply Nat.ltb_ge in E];
    simpl String.length; lia.
Qed.

Lemma parsed_record_prints_80_columns_witness :
  exists text,
    Observation.__str__ Exact.externals (record_of_line short_coordinates_line) = Ok text
    /\ String.length text = 80%nat.
Proof.
  eexists. split; [vm_compute; reflexivity|].
  apply (parsed_record_prints_80_columns Exact.externals short_coordinates_line
           (record_of_line short_coordinates_line)).
  - vm_compute. reflexivity.
  - vm_compute. reflexivity.
  - vm_compute. lia.
  - vm_compute. lia.
  - vm_compute. lia.
Defined.

(** X9: a line with a magnitude and a blank band column is read, but the
    record cannot be printed: the band prints as the text of [None] and the
    magnitude column comes out wider than six characters. *)
Theorem parsed_record_without_band_is_not_printed (ext : Externals)
  (input_line : string) (o : Observation.t) :
  Observation.from_string ext input_line = Ok (Observation.ObservationRecord o) ->
  let data := Py.slice 0 80 (Py.strip_chars (String "010" "") input_line) in
  Py.strip_chars " " (substring 70 1 data) = "" ->
  Observation.mag o <> None ->
  Observation.__str__ ext o = Raise (MPCFieldFormatError "mag").
Proof.
  intros H data Hband Hmag.
  apply from_string_record in H as (_ & rec0 & c & d & Hinit & ->).
  apply Observation_init_columns in Hinit as (_ & _ & _ & _ & _ & _ & _ & _ & _ & Hb & _).
  fold data in Hb. unfold band_of in Hb. rewrite Hband in Hb.
  destruct rec0 as [[nc nb] name di n1 n2 dt dp co rp dcp mg me mp bd oc cm].
  cbn in Hb, Hmag. subst bd.
  unfold Observation.__str__. cbn.
  destruct mg as [m|]; [|contradiction].
  match goal with
  | |- (if negb (?len =? 6)%nat then _ else _) = _ => destruct (len =? 6)%nat eqn:E
  end; [|reflexivity].
  apply Nat.eqb_eq in E. rewrite length_app, !length_ljust in E. simpl in E. lia.
Qed.

Lemma parsed_record_without_band_is_not_printed_witness :
  exists o,
    Observation.from_string Exact.externals no_band_line
    = Ok (Observation.ObservationRecord o)
    /\ Observation.__str__ Exact.externals o = Raise (MPCFieldFormatError "mag").
Proof.
  exists (record_of_line no_band_line). split; [vm_compute; reflexivity|].
  apply (parsed_record_without_band_is_not_printed Exact.externals no_band_line).
  - vm_compute. reflexivity.
  - vm_compute. reflexivity.
  - vm_compute. discriminate.
Defined.

(** X10: the line that [to_mpc] makes of a null observation starts with
    '#', so that [from_string] takes it for a comment line and hands it
    to the comment dispatcher: it never comes back as an observation. *)
Theorem null_observation_to_mpc_is_read_as_comment (ext ext' : Externals)
  (o : Observation.t) (text : string) :
  NullObservation.__bool__ (Observation.null_observation o) = true ->
  (Observation_to_mpc ext o).1 = Ok text ->
  Observation.from_string ext' text
  = (do c <- MPCComment_from_string ext'
               (Py.slice_from 1 (Py.strip_chars (String "010" "") text));
     Ok (Observation.CommentRecord c)).
Proof.
  intros Hnull Htext.
  assert (Hhead : exists rest, text = String "#" rest).
  { unfold Observation_to_mpc, mbind, massign, mself, mlift in Htext. cbn in Htext.
    unfold Observation.__str__ in Htext.
    destruct o as [[nc nb] name di n1 n2 dt dp co rp dcp mg me mp bd oc cm].
    cbn in Hnull. subst nb. cbn in Htext.
    match type of Htext with
    | (if ?b then _ else _) = _ => destruct b
    end; [discriminate|].
    injection Htext as <-. unfold Py.ljust. cbn. eauto. }
  destruct Hhead as [rest ->].
  unfold Observation.from_string, Py.strip_chars.
  rewrite (strip_by_cons _ "#" rest) by reflexivity.
  rewrite prefix_head. reflexivity.
Qed.

Lemma null_observation_to_mpc_is_read_as_comment_witness :
  exists text,
    (Observation_to_mpc Exact.externals (record_of_line null_discovery_line)).1 = Ok text
    /\ Observation.from_string Exact.externals text
       = (do c <- MPCComment_from_string Exact.externals
                    (Py.slice_from 1 (Py.strip_chars (String "010" "") text));
          Ok (Observation.CommentRecord c)).
Proof.
  eexists. split; [vm_compute; reflexivity|].
  apply (null_observation_to_mpc_is_read_as_comment Exact.externals Exact.externals
           (record_of_line null_discovery_line)).
  - vm_compute. reflexivity.
  - vm_compute. reflexivity.
Defined.

(** ** The writer: order, aliasing, lost records *)

Section WriterOrder.

Import MPCWriter.








(** X12: the writer changes the records it is given. With the default
    writer, a record that is no null observation is written at [write]
    with the asterisk; the flush that follows goes through the buffer
    again and takes the initial-discovery flag off the record, which from
    then on prints '&' while its line in the file shows '*'. *)
Theorem flushed_twice_record_shows_ampersand (ext : Externals)
  (include_comments : bool) (formatter : option (Observation.t -> result string))
  (h : heap) (r : ref) (line : string) :
  let w := MPCWriter.__init__ ext true include_comments true formatter in
  is_null (h r) = false ->
  MPCWriter.formatter w (after_flush w (h r)) = Ok line ->
  let s := run [Write r; Flush] (h, w) in
  map (fun e => (marker e.1, e.2)) (filehandle s.2) = [("*", line +:+ String "010" "")]
  /\ marker (s.1 r) = "&".
Proof.
  intros w Hnull Hline s. subst s. unfold run. cbn [fold_left perform].
  rewrite write_state. change (auto_flush w) with true. cbv iota.
  change (buffer w) with (∅ : gmap Z ref). rewrite insert_empty.
  erewrite flush_singleton by reflexivity.
  set (w0 := set_buffer _ w).
  pose proof (_flush_observation_spec r h w0)
    as (Hobs & _ & Hfile & Hdw & Hwritten & _ & _ & Hbuf & _).
  destruct (_flush_observation r (h, w0)) as [res [h1 w1]]. cbn [fst snd] in *.
  assert (Hmark : marked_by_writer w0 (h r) = true).
  { unfold marked_by_writer. rewrite Hnull. reflexivity. }
  assert (Hafter : after_flush w0 (h r)
                   = Observation.set__discovery (Discovery.mk true true) (h r)).
  { unfold after_flush, after_marking. rewrite Hmark. reflexivity. }
  assert (Hfile1 : filehandle w1
                   = [(Observation.set__discovery (Discovery.mk true true) (h r),
                       line +:+ String "010" "")]).
  { rewrite Hfile. unfold lines_of. change (newly_written w0 (h r)) with true.
    cbv iota. change (MPCWriter.formatter w0) with (MPCWriter.formatter w).
    rewrite Hafter.
    change (after_flush w (h r)) with (after_flush w0 (h r)) in Hline.
    rewrite Hafter in Hline. rewrite Hline. reflexivity. }
  assert (Hdw1 : _discovery_written w1 = true).
  { rewrite Hdw. unfold after_marking. rewrite Hmark. reflexivity. }
  assert (Hw1 : _written_mpc_observations w1 = [day (h r)]).
  { rewrite Hwritten. reflexivity. }
  erewrite flush_singleton by exact Hbuf.
  pose proof (_flush_observation_spec r h1 w1) as (Hobs2 & _ & Hfile2 & _).
  destruct (_flush_observation r (h1, w1)) as [res2 [h2 w2]]. cbn [fst snd] in *.
  split.
  - rewrite Hfile2, Hfile1. unfold lines_of, newly_written. rewrite Hw1, Hobs, Hafter.
    cbn. unfold day. cbn. rewrite Z.eqb_refl. reflexivity.
  - rewrite Hobs2, Hobs, Hafter.
    unfold after_flush, after_marking, marked_by_writer. rewrite Hdw1.
    rewrite andb_false_r. reflexivity.
Qed.

Lemma flushed_twice_record_shows_ampersand_witness :
  let w := MPCWriter.__init__ Exact.externals true true true None in
  let s := run [Write 1%nat; Flush] (three_records, w) in
  map (fun e => (marker e.1, e.2)) (filehandle s.2)
  = [("*", "     K13T01 * C2013 10 06.41268312 34 45.671-20 28 15.90         20.6 R      568"
            +:+ String "010" "")]
  /\ marker (s.1 1%nat) = "&".
Proof.
  apply (flushed_twice_record_shows_ampersand Exact.externals true None three_records
           1%nat).
  - vm_compute. reflexivity.
  - vm_compute. reflexivity.
Defined.

(** *** Days recorded before the line is formatted *)

Lemma _flush_observation_lost_day (d : Z) (r : ref) (s : heap * t) :
  lost_day d s -> lost_day d (_flush_observation r s).2.
Proof.
  destruct s as [h w]. intros [Hin Hout].
  destruct (_flush_observation_spec r h w) as (_ & _ & Hfile & _ & Hwritten & _).
  unfold lost_day, emitted in *. cbn [fst snd] in *. rewrite Hfile, Hwritten. split.
  - destruct (newly_written w (h r)); [apply elem_of_app; auto | exact Hin].
  - rewrite map_app, map_app. intros Hd. apply elem_of_app in Hd as [Hd|Hd]; [auto|].
    unfold lines_of in Hd. destruct (newly_written w (h r)) eqn:Enew; [|inversion Hd].
    destruct (formatter w _); [|inversion Hd].
    cbn in Hd. apply list_elem_of_singleton in Hd. rewrite after_flush_day in Hd.
    subst d. unfold newly_written in Enew.
    apply negb_true_iff, existsb_eqb_false in Enew. contradiction.
Qed.

Lemma run_lost_day (d : Z) (calls : list call) (s : heap * t) :
  lost_day d s -> lost_day d (run calls s).
Proof.
  unfold run. revert s. induction calls as [|c calls IH]; intros s Hs; simpl; [exact Hs|].
  apply IH. destruct c as [r o|r|]; simpl.
  - exact Hs.
  - apply (write_keeps (lost_day d));
      [apply _flush_observation_lost_day | intros h w k r0 H; exact H | exact Hs].
  - apply (flush_keeps (lost_day d)); [apply _flush_observation_lost_day | exact Hs].
Qed.

(** X13: [_flush_observation] records the Julian day of a record before
    it formats the record. When the formatter raises, the day stays
    recorded: whatever is assigned, written and flushed afterwards, this
    writer writes no line of that day. *)
Theorem record_whose_formatting_raised_is_lost (ext : Externals)
  (auto_flush include_comments auto_discovery : bool)
  (formatter : option (Observation.t -> result string))
  (h0 : heap) (before after : list call) (r : ref) (e : exn) :
  let s0 := run before (h0, MPCWriter.__init__ ext auto_flush include_comments
                              auto_discovery formatter) in
  newly_written s0.2 (s0.1 r) = true ->
  MPCWriter.formatter s0.2 (after_flush s0.2 (s0.1 r)) = Raise e ->
  day (s0.1 r) ∉ map day (emitted (run after (_flush_observation r s0).2)).
Proof.
  intros s0 Hnew Hraise.
  assert (Hdays : days_invariant s0).
  { apply run_days. split; [constructor|]. simpl. intros d Hd. exact Hd. }
  destruct s0 as [h w]. cbn [fst snd] in *.
  apply (run_lost_day (day (h r)) after).
  destruct (_flush_observation_spec r h w) as (_ & _ & Hfile & _ & Hwritten & _).
  unfold lost_day, emitted. cbn [fst snd]. rewrite Hfile, Hwritten, Hnew. split.
  - apply elem_of_app. right. apply list_elem_of_here.
  - unfold lines_of. rewrite Hnew, Hraise, app_nil_r.
    destruct Hdays as [_ Hin]. intros Hd. apply Hin in Hd. cbn in Hd.
    unfold newly_written in Hnew. apply negb_true_iff, existsb_eqb_false in Hnew.
    contradiction.
Qed.

Lemma record_whose_formatting_raised_is_lost_witness :
  let s0 := run [] (three_records,
                    MPCWriter.__init__ Exact.externals true true true
                      (Some failing_formatter)) in
  day (s0.1 1%nat)
  ∉ map day
      (emitted
         (run [Assign 1%nat (record_of_line second_day_line); Write 1%nat; Flush]
            (_flush_observation 1%nat s0).2)).
Proof.
  apply (record_whose_formatting_raised_is_lost Exact.externals true true true
           (Some failing_formatter) three_records []
           [Assign 1%nat (record_of_line second_day_line); Write 1%nat; Flush]
           1%nat (MPCFieldFormatError "mag")).
  - vm_compute. reflexivity.
  - vm_compute. reflexivity.
Defined.

End WriterOrder.

(** ** The index of names *)

Lemma fold_left_map_arg {A B C : Type} (f : A -> C -> A) (g : B -> C) (l : list B) (a : A) :
  fold_left (fun a b => f a (g b)) l a = fold_left f (map g l) a.
Proof. revert a. induction l as [|b l IH]; intros a; simpl; [reflexivity | apply IH]. Qed.

Lemma add_line_fold (self : Index.t) (line : string) :
  Index.add_line self line
  = fold_left (add_alias (master_of line)) (aliases_of line)
      (Index.mk (<[master_of line := master_of line]> (Index.names self))
                (<[master_of line := [master_of line]]> (Index.index self))).
Proof.
  unfold Index.add_line, aliases_of. rewrite <- fold_left_map_arg. reflexivity.
Qed.

Lemma add_aliases_spec (master : string) (new : list string) (self : Index.t)
  (group : list string) :
  Index.index self !! master = Some group ->
  let self' := fold_left (add_alias master) new self in
  Index.index self' !! master = Some (group ++ new)
  /\ (forall n, n ∈ new -> Index.names self' !! n = Some master)
  /\ (forall n, n ∉ new -> Index.names self' !! n = Index.names self !! n)
  /\ (forall m, m <> master -> Index.index self' !! m = Index.index self !! m).
Proof.
  revert self group. induction new as [|x new IH]; intros self group Hg; cbn [fold_left].
  - rewrite app_nil_r. repeat split; auto. intros n Hn. inversion Hn.
  - destruct (IH (add_alias master self x) (group ++ [x])) as (I1 & I2 & I3 & I4).
    { cbn. rewrite lookup_alter_eq, Hg. reflexivity. }
    split; [|split; [|split]].
    + rewrite I1, <- app_assoc. reflexivity.
    + intros n Hn. destruct (decide (n ∈ new)) as [Hin|Hout]; [auto|].
      rewrite (I3 _ Hout). apply elem_of_cons in Hn as [->|Hn]; [|contradiction].
      cbn. apply lookup_insert_eq.
    + intros n Hn. apply not_elem_of_cons in Hn as [Hne Hn].
      rewrite (I3 _ Hn). cbn. now rewrite lookup_insert_ne.
    + intros m Hm. rewrite (I4 _ Hm). cbn. now rewrite lookup_alter_ne.
Qed.

(** What one line does to the index: it replaces the group of its master
    name by its own names, makes its names point to its master name, and
    leaves the other names and groups as they were. *)
Lemma add_line_spec (self : Index.t) (line : string) :
  let self' := Index.add_line self line in
  Index.index self' !! master_of line = Some (names_of_line line)
  /\ (forall n, n ∈ names_of_line line -> Index.names self' !! n = Some (master_of line))
  /\ (forall n, n ∉ names_of_line line -> Index.names self' !! n = Index.names self !! n)
  /\ (forall m, m <> master_of line -> Index.index self' !! m = Index.index self !! m).
Proof.
  cbv zeta. rewrite add_line_fold.
  set (master := master_of line). set (start := Index.mk _ _).
  destruct (add_aliases_spec master (aliases_of line) start [master])
    as (I1 & I2 & I3 & I4).
  { subst start. cbn. apply lookup_insert_eq. }
  unfold names_of_line. fold master. split; [exact I1|]. split; [|split].
  - intros n Hn. destruct (decide (n ∈ aliases_of line)) as [Hin|Hout]; [auto|].
    rewrite (I3 _ Hout). apply elem_of_cons in Hn as [->|Hn]; [|contradiction].
    subst start. cbn. apply lookup_insert_eq.
  - intros n Hn. apply not_elem_of_cons in Hn as [Hne Hn].
    rewrite (I3 _ Hn). subst start. cbn. now rewrite lookup_insert_ne.
  - intros m Hm. rewrite (I4 _ Hm). subst start. cbn. now rewrite lookup_insert_ne.
Qed.

(** The names of a line keep their group as long as no later line names
    them or their master name. *)
Lemma Index_init_line (before after : list string) (line name : string) :
  name ∈ names_of_line line ->
  Forall (fun l => (name ∉ names_of_line l) /\ (master_of line ∉ names_of_line l)) after ->
  Index.names (Index.__init__ (before ++ line :: after)) !! name = Some (master_of line)
  /\ Index.index (Index.__init__ (before ++ line :: after)) !! master_of line
     = Some (names_of_line line).
Proof.
  intros Hname Hafter. unfold Index.__init__. rewrite fold_left_app. cbn [fold_left].
  set (self := fold_left Index.add_line before _).
  destruct (add_line_spec self line) as (I1 & I2 & _ & _).
  specialize (I2 _ Hname). revert I1 I2. generalize (Index.add_line self line).
  clear self. induction Hafter as [|l after [Hl1 Hl2] _ IH]; intros s I1 I2; cbn [fold_left].
  - auto.
  - destruct (add_line_spec s l) as (_ & _ & J3 & J4). apply IH.
    + rewrite J4; [exact I1|]. intros Heq. apply Hl2. rewrite Heq.
      apply list_elem_of_here.
    + rewrite (J3 _ Hl1). exact I2.
Qed.

Lemma existsb_eqb_bool_decide (s : string) (l : list string) :
  existsb (String.eqb s) l = bool_decide (s ∈ l).
Proof.
  destruct (existsb (String.eqb s) l) eqn:E; symmetry.
  - apply bool_decide_eq_true. now apply existsb_eqb_elem_of.
  - apply bool_decide_eq_false. intros Hin. apply existsb_eqb_elem_of in Hin. congruence.
Qed.

(** X14: in an index read from a file, a name of a line that no later
    line names again (neither the name nor its master name) has for
    aliases exactly the names of its line, master name first, and
    [is_same] with it is membership in that line. *)
Theorem Index_aliases_are_the_names_of_the_line (before after : list string)
  (line name : string) :
  name ∈ names_of_line line ->
  Forall (fun l => (name ∉ names_of_line l) /\ (master_of line ∉ names_of_line l)) after ->
  let self := Index.__init__ (before ++ line :: after) in
  Index.get_aliases self name = Ok (Index.Group (names_of_line line))
  /\ forall name2,
       Index.is_same self name name2 = Ok (bool_decide (name2 ∈ names_of_line line)).
Proof.
  intros Hname Hafter self.
  destruct (Index_init_line before after line name Hname Hafter) as [Hn Hi].
  fold self in Hn, Hi.
  assert (Hget : Index.get_aliases self name = Ok (Index.Group (names_of_line line))).
  { unfold Index.get_aliases. rewrite Hn, Hi. reflexivity. }
  split; [exact Hget|]. intros name2. unfold Index.is_same. rewrite Hget. cbn [Py.bind].
  now rewrite existsb_eqb_bool_decide.
Qed.

Lemma Index_aliases_are_the_names_of_the_line_witness :
  let self := Index.__init__ three_line_index in
  Index.get_aliases self "o3l01" = Ok (Index.Group ["O13BL3RX"; "o3l01"; ""])
  /\ forall name2,
       Index.is_same self "o3l01" name2
       = Ok (bool_decide (name2 ∈ ["O13BL3RX"; "o3l01"; ""])).
Proof.
  apply (Index_aliases_are_the_names_of_the_line
           ["K13T01    a1        " +:+ String "010" ""]
           ["O13BL3RY  o3l02     " +:+ String "010" ""]
           ("O13BL3RX  o3l01     " +:+ String "010" "") "o3l01").
  - compute_done.
  - constructor; [|constructor]. split.
    + compute_done.
    + compute_done.
Defined.

Lemma substring_skip (a b : string) (m : nat) :
  substring (String.length a) m (a +:+ b) = substring 0 m b.
Proof. induction a as [|c a IH]; simpl; [reflexivity | exact IH]. Qed.

(** X15: [readlines] leaves the newline at the end of each line, and the
    loop over the columns takes it for one more alias: a line of full
    ten-column names followed by a newline registers the empty name. In an
    index whose last line is such a line, the aliases of the empty name
    are the names of that line. *)
Theorem Index_newline_registers_the_empty_name (before : list string)
  (names : string) (k : nat) :
  String.length names = (10 * k)%nat ->
  (0 < k)%nat ->
  let line := names +:+ String "010" "" in
  "" ∈ aliases_of line
  /\ Index.get_aliases (Index.__init__ (before ++ [line])) ""
     = Ok (Index.Group (names_of_line line)).
Proof.
  intros Hlen Hk line.
  assert (Hin : "" ∈ aliases_of line).
  { unfold aliases_of. apply list_elem_of_In, in_map_iff. exists (10 * k)%nat. split.
    - unfold Py.slice, Index.MAX_NAME_LENGTH.
      replace (10 * k + 10 - 10 * k)%nat with 10%nat by lia.
      subst line. rewrite <- Hlen, substring_skip. reflexivity.
    - apply list_elem_of_In. unfold Index.range. apply list_elem_of_filter. split.
      + subst line. rewrite length_app, Hlen. simpl. lia.
      + apply list_elem_of_In, in_map_iff. exists (k - 1)%nat. split.
        * unfold Index.MAX_NAME_LENGTH. lia.
        * apply in_seq. subst line. rewrite length_app, Hlen. simpl. lia. }
  split; [exact Hin|].
  destruct (Index_init_line before [] line "") as [Hn Hi].
  { unfold names_of_line. now apply list_elem_of_further. }
  { constructor. }
  unfold Index.get_aliases. rewrite Hn, Hi. reflexivity.
Qed.

Lemma Index_newline_registers_the_empty_name_witness :
  "" ∈ aliases_of ("O13BL3RY  o3l02     " +:+ String "010" "")
  /\ Index.get_aliases (Index.__init__ three_line_index) ""
     = Ok (Index.Group ["O13BL3RY"; "o3l02"; ""]).
Proof.
  apply (Index_newline_registers_the_empty_name
           ["K13T01    a1        " +:+ String "010" "";
            "O13BL3RX  o3l01     " +:+ String "010" ""]
           "O13BL3RY  o3l02     " 2).
  - reflexivity.
  - lia.
Defined.

(** ** The reader *)

Section Reader.

Import MPCReader.

Lemma provisional_name_spec (self : t) :
  provisional_name self = (Ok (reader_name self), named self).
Proof.
  unfold provisional_name, reader_name, named, mbind, mself, massign, mret.
  destruct self as [rp [name|] fn]; reflexivity.
Qed.

Lemma reader_name_named (self : t) : reader_name (named self) = reader_name self.
Proof. destruct self as [rp [name|] fn]; reflexivity. Qed.

Lemma renamed_named (self : t) (o : Observation.t) : renamed (named self) o = renamed self o.
Proof. unfold renamed. rewrite reader_name_named. reflexivity. Qed.

(** One turn of the loop of [read], exceptions caught. *)
Lemma read_line_frame (ext : Externals) (line : string) (f : frame) :
  (mtry (read_line ext line) (fun _ => mret tt) f).2
  = match Observation.from_string ext line with
    | Ok (Observation.CommentRecord (CommentObj c)) => set_next_comment (Some c) f
    | Ok (Observation.ObservationRecord p) =>
        let p1 :=
          match next_comment f with
          | Some c => Observation.set__comment (CommentObj c) p
          | None => p
          end in
        mkFrame (match replace_provisional (self f) with Some _ => named (self f) | None => self f end)
          None (mpc_observations f ++ [renamed (self f) p1])
    | _ => f
    end.
Proof.
  unfold read_line, mtry, mbind, mlift.
  destruct (Observation.from_string ext line) as [[|p|[s|c]]|e]; try reflexivity.
  unfold mself, massign, mret, renamed, on_reader, on_record.
  unfold Observation.comment_setter, Observation.provisional_name_setter, massign.
  destruct f as [rd [c|] obs];
    cbn [next_comment self mpc_observations set_next_comment set_self];
    destruct (replace_provisional rd) as [b|] eqn:Hrp;
    cbn [next_comment self mpc_observations set_next_comment set_self];
    rewrite ?Hrp, ?provisional_name_spec; try reflexivity;
    cbn [next_comment self mpc_observations set_next_comment set_self];
    rewrite ?Hrp, ?provisional_name_spec; reflexivity.
Qed.

Lemma read_lines_fold (ext : Externals) (lines : list string) (f : frame) :
  read_lines ext lines f
  = (Ok tt,
     fold_left (fun f line => (mtry (read_line ext line) (fun _ => mret tt) f).2) lines f).
Proof.
  revert f. induction lines as [|line lines IH]; intros f; cbn [read_lines fold_left].
  - reflexivity.
  - unfold mbind at 1.
    assert (H : exists f', mtry (read_line ext line) (fun _ => mret tt) f = (Ok tt, f')).
    { unfold mtry, mret. destruct (read_line ext line f) as [[[]|e] f']; eauto. }
    destruct H as [f' H]. rewrite H. cbn [snd]. apply IH.
Qed.

(** The records that the loop adds are those that [from_string] makes of
    the lines, in their order, each with the comment and the name that the
    reader gave it. *)
Lemma read_lines_records (ext : Externals) (lines : list string) (f : frame) :
  let f' := (read_lines ext lines f).2 in
  exists new,
    mpc_observations f' = mpc_observations f ++ new
    /\ Forall2 (fun o p => exists c, o = renamed (self f) (Observation.set__comment c p))
         new (omap (parsed_record ext) lines)
    /\ replace_provisional (self f') = replace_provisional (self f)
    /\ reader_name (self f') = reader_name (self f).
Proof.
  cbv zeta. rewrite read_lines_fold. cbn [snd].
  revert f. induction lines as [|line lines IH]; intros f; cbn [fold_left].
  - exists []. rewrite app_nil_r. repeat split. constructor.
  - rewrite read_line_frame. cbn [omap list_omap]. unfold parsed_record at 1.
    destruct (Observation.from_string ext line) as [[|p|[s|c]]|e].
    + apply IH.
    + destruct (IH (mkFrame (match replace_provisional (self f) with Some _ => named (self f) | None => self f end)
                      None
                      (mpc_observations f
                       ++ [renamed (self f)
                             match next_comment f with
                             | Some c => Observation.set__comment (CommentObj c) p
                             | None => p
                             end])))
        as (new & Hobs & Hall & Hrp & Hname).
      cbn [self mpc_observations] in *.
      assert (Hsame : forall o,
                renamed (match replace_provisional (self f) with Some _ => named (self f) | None => self f end) o
                = renamed (self f) o).
      { intros o. destruct (replace_provisional (self f)) eqn:E; [|reflexivity].
        apply renamed_named. }
      eexists (_ :: new). split; [rewrite Hobs, <- app_assoc; reflexivity|].
      split; [|split].
      * constructor.
        -- destruct (next_comment f) as [c|]; [eauto|].
           exists (Observation.comment p). destruct p. reflexivity.
        -- eapply Forall2_impl; [exact Hall|]. intros o q [c Hc]. exists c.
           rewrite <- Hsame. exact Hc.
      * rewrite Hrp. destruct (replace_provisional (self f)) eqn:E; [|exact E].
        destruct (self f). exact E.
      * rewrite Hname. destruct (replace_provisional (self f)); [|reflexivity].
        apply reader_name_named.
    + apply IH.
    + destruct (IH (set_next_comment (Some c) f)) as (new & Hobs & Hall & Hrp & Hname).
      exists new. auto.
    + apply IH.
Qed.

(** X16: [read] never raises, and returns one record for each line that
    [from_string] reads as an observation, in the order of the file, and
    no other: the record is the one [from_string] returns, but for its
    comment and, when [replace_provisional] is not [None] ([False]
    included), for its provisional name, which is the stripped name of
    the reader. *)
Theorem MPCReader_read_returns_the_parsed_records (ext : Externals)
  (filename filestr : string) (this : t) :
  let reader := set_filename filename this in
  exists observations,
    (read ext filename filestr this).1 = Ok observations
    /\ Forall2 (fun o p => exists c, o = renamed reader (Observation.set__comment c p))
         observations (omap (parsed_record ext) (Py.split_on "010" filestr))
    /\ (replace_provisional this <> None ->
        Forall (fun o => Observation.provisional_name o = Py.strip (reader_name reader))
          observations).
Proof.
  intros reader. unfold read. fold reader.
  destruct (read_lines_records ext (Py.split_on "010" filestr) (mkFrame reader None []))
    as (new & Hobs & Hall & _).
  destruct (read_lines ext _ _) as [res f]. cbn [fst snd self mpc_observations] in *.
  exists (mpc_observations f). split; [reflexivity|]. rewrite Hobs. cbn [app].
  split; [exact Hall|]. intros Hrp.
  assert (Hrp' : replace_provisional reader = replace_provisional this)
    by (destruct this; reflexivity).
  clear Hobs. induction Hall as [|o p new l [c ->] _ IH]; constructor; [|exact IH].
  unfold renamed. rewrite Hrp'. destruct (replace_provisional this); [reflexivity|].
  contradiction.
Qed.

(** X17: a comment line stays pending until the next line that is read
    as an observation, over the lines that the reader passes over (lines
    that do not parse, short lines, plain-text comment lines), and then
    replaces the comment of that record. *)
Theorem MPCReader_read_attaches_the_pending_comment (ext : Externals)
  (filename filestr : string) (this : t)
  (before passed after : list string) (comment_line line : string)
  (c : OSSOSComment.t) (o : Observation.t) :
  Py.split_on "010" filestr = before ++ comment_line :: passed ++ line :: after ->
  Observation.from_string ext comment_line = Ok (Observation.CommentRecord (CommentObj c)) ->
  Forall (passed_over ext) passed ->
  Observation.from_string ext line = Ok (Observation.ObservationRecord o) ->
  exists first rest,
    (read ext filename filestr this).1
    = Ok (first ++ renamed (set_filename filename this)
                     (Observation.set__comment (CommentObj c) o) :: rest)
    /\ length first = length (omap (parsed_record ext) before).
Proof.
  intros Hsplit Hc Hpassed Ho. unfold read. rewrite Hsplit.
  set (reader := set_filename filename this).
  rewrite read_lines_fold. cbn [snd].
  rewrite fold_left_app. cbn [fold_left].
  pose proof (read_lines_records ext before (mkFrame reader None [])) as Hbefore.
  cbv zeta in Hbefore. rewrite read_lines_fold in Hbefore. cbn [snd] in Hbefore.
  destruct Hbefore as (first & Hobs & Hall & Hrp & Hname).
  set (f1 := fold_left _ before _) in *. cbn [mpc_observations self app] in *.
  rewrite (read_line_frame ext comment_line f1), Hc.
  rewrite fold_left_app. cbn [fold_left].
  assert (Hskip : fold_left
                    (fun f l => (mtry (read_line ext l) (fun _ => mret tt) f).2)
                    passed (set_next_comment (Some c) f1)
                  = set_next_comment (Some c) f1).
  { generalize (set_next_comment (Some c) f1). clear -Hpassed.
    induction Hpassed as [|l passed Hl _ IH]; intros f; cbn [fold_left]; [reflexivity|].
    rewrite read_line_frame. unfold passed_over in Hl.
    destruct (Observation.from_string ext l) as [[|p|[s|c0]]|e];
      try contradiction; apply IH. }
  rewrite Hskip, (read_line_frame ext line), Ho. cbv zeta.
  cbn [next_comment set_next_comment self mpc_observations].
  match goal with
  | |- context [fold_left ?body after ?f2] =>
      pose proof (read_lines_records ext after f2) as Hafter
  end.
  cbv zeta in Hafter. rewrite read_lines_fold in Hafter. cbn [snd] in Hafter.
  destruct Hafter as (rest & Hobs2 & _).
  cbn [mpc_observations] in Hobs2.
  exists first, rest. split.
  - rewrite Hobs2, Hobs, <- app_assoc. cbn [app].
    assert (Hren : forall x, renamed (self f1) x = renamed reader x).
    { intros x. unfold renamed. rewrite Hrp, Hname. reflexivity. }
    rewrite Hren. reflexivity.
  - apply Forall2_length in Hall. exact Hall.
Qed.

Lemma MPCReader_read_attaches_the_pending_comment_witness :
  exists c o first rest,
    (read Exact.externals "vesta.ast" commented_file (mk (Some true) None "")).1
    = Ok (first ++ renamed (set_filename "vesta.ast" (mk (Some true) None ""))
                     (Observation.set__comment (CommentObj c) o) :: rest)
    /\ length first = 0%nat
    /\ OSSOSComment._comment c = "note"
    /\ Observation.provisional_name
         (renamed (set_filename "vesta.ast" (mk (Some true) None ""))
            (Observation.set__comment (CommentObj c) o)) = "ve".
Proof.
  pose (cl := "#O 1631355p21 O13AE2O     Y  1632.20 1102.70 0.21 3 20.63 0.05 % note").
  pose (c := match Observation.from_string Exact.externals cl with
             | Ok (Observation.CommentRecord (CommentObj c)) => c
             | _ => OSSOSComment.blank OSSOSComment.IsOSSOSComment
             end).
  exists c, (record_of_line aligned_line).
  destruct (MPCReader_read_attaches_the_pending_comment Exact.externals "vesta.ast"
              commented_file (mk (Some true) None "") [] ["garbage"] [] cl aligned_line
              c (record_of_line aligned_line)) as (first & rest & Hread & Hlen).
  - vm_compute. reflexivity.
  - vm_compute. reflexivity.
  - constructor; [|constructor]. vm_compute. exact I.
  - vm_compute. reflexivity.
  - exists first, rest. split; [exact Hread|]. split; [exact Hlen|].
    split; vm_compute; reflexivity.
Defined.

Lemma lstrip_by_all (p : ascii -> bool) (a b : string) :
  forallb p (list_ascii_of_string a) = true ->
  Py.lstrip_by p (a +:+ b) = Py.lstrip_by p b.
Proof.
  induction a as [|c a IH]; simpl; [reflexivity|].
  intros H. apply andb_true_iff in H as [Hc Ha]. rewrite Hc. auto.
Qed.

Lemma rstrip_by_all (p : ascii -> bool) (a b : string) :
  forallb p (list_ascii_of_string b) = true ->
  Py.rstrip_by p (a +:+ b) = Py.rstrip_by p a.
Proof.
  intros Hb. unfold Py.rstrip_by. rewrite rev_string_app, lstrip_by_all; [reflexivity|].
  unfold Py.rev_string. rewrite list_ascii_of_string_of_list_ascii.
  apply forallb_forall. intros c Hc. apply in_rev in Hc.
  rewrite forallb_forall in Hb. auto.
Qed.

(** X18: a reader that was given no provisional name makes one of its
    file name with [rstrip('.ast')], which takes off every trailing '.',
    'a', 's' and 't', not the suffix: for a file [stem.ast] the name is
    made of the stem with the same characters taken off its end (of
    "vesta.ast" it is "ve"). The name is kept for the next use; a name
    that was given is returned as it is. *)
Theorem MPCReader_provisional_name_of_file (replace : option bool) (stem : string) :
  let self := mk replace None (stem +:+ ".ast") in
  let name := basename (Py.rstrip_chars ".ast" stem) in
  provisional_name self = (Ok name, mk replace (Some name) (stem +:+ ".ast"))
  /\ provisional_name (mk replace (Some name) (stem +:+ ".ast"))
     = (Ok name, mk replace (Some name) (stem +:+ ".ast")).
Proof.
  intros self name. split.
  - rewrite provisional_name_spec. unfold named, reader_name, self, set__provisional_name.
    cbn [_provisional_name filename replace_provisional].
    unfold Py.rstrip_chars. rewrite rstrip_by_all by reflexivity. reflexivity.
  - reflexivity.
Qed.

End Reader.

(** ** The header of a database file *)

Lemma string_app_assoc (a b c : string) : (a +:+ b) +:+ c = a +:+ (b +:+ c).
Proof.
  induction a as [|x a IH]; [reflexivity|].
  change (String x ((a +:+ b) +:+ c) = String x (a +:+ (b +:+ c))). now rewrite IH.
Qed.

Lemma string_app_empty_r (a : string) : a +:+ "" = a.
Proof.
  induction a as [|x a IH]; [reflexivity|].
  change (String x (a +:+ "") = String x a). now rewrite IH.
Qed.

(** The loop over the observers, with its separator, is a [join]. *)
Lemma observers_loop (l : list string) (header sep : string) :
  fold_left (fun '(header, sep) observer => (header +:+ sep +:+ observer, ", "))
    l (header, sep)
  = (header +:+ match l with [] => "" | _ => sep +:+ Py.join ", " l end,
     match l with [] => sep | _ => ", " end).
Proof.
  revert header sep. induction l as [|x l IH]; intros header sep; cbn [fold_left].
  - now rewrite string_app_empty_r.
  - rewrite IH. destruct l as [|y l].
    + rewrite string_app_empty_r. reflexivity.
    + cbn [Py.join]. now rewrite !string_app_assoc.
Qed.

(** X19: the OBS line of the header names all the observers but the
    last, separated by commas, and then the last one after "and" when
    there are two or more: a single observer is not named at all, and the
    header is then the one of no observers. *)
Theorem make_tnodb_header_observers (Time_iso : Time -> string)
  (observations : list Observation.t) (observatory_code : option string)
  (observers : list string) (telescope astrometric_network : string) (header : string) :
  make_tnodb_header Time_iso observations observatory_code observers telescope
    astrometric_network = Ok header ->
  (exists code dates,
     header = "COD " +:+ code +:+ String "010" ""
                +:+ "OBS " +:+ observers_text observers +:+ String "010" ""
                +:+ "TEL " +:+ telescope +:+ String "010" ""
                +:+ "NET " +:+ astrometric_network +:+ String "010" "" +:+ dates)
  /\ (length observers = 1%nat ->
      make_tnodb_header Time_iso observations observatory_code [] telescope
        astrometric_network = Ok header).
Proof.
  unfold make_tnodb_header. intros H.
  apply bind_Ok in H as (code & Hcode & H).
  apply bind_Ok in H as (lo & Hlo & H).
  apply bind_Ok in H as (hi & Hhi & H).
  rewrite Hcode, Hlo, Hhi. cbn [Py.bind]. cbv zeta in H |- *.
  rewrite observers_loop in H. split.
  - injection H as <-. exists code. eexists.
    unfold observers_text.
    destruct (removelast observers) as [|x l] eqn:E; cbn [Py.join];
      destruct (1 <? length observers)%nat;
      rewrite ?string_app_assoc; cbn; rewrite ?string_app_assoc; reflexivity.
  - intros Hone. destruct observers as [|x [|y l]]; try discriminate.
    cbn [length Nat.ltb Nat.leb removelast] in H. rewrite string_app_empty_r in H.
    cbn [fold_left removelast length Nat.ltb Nat.leb]. exact H.
Qed.

Lemma make_tnodb_header_observers_witness :
  exists header,
    make_tnodb_header (fun _ => "2013-10-05 09:54:15.000")
      [record_of_line aligned_line] None ["M. T. Bannister"] DEFAULT_TELESCOPE
      DEFAULT_ASTROMETRIC_NETWORK = Ok header
    /\ make_tnodb_header (fun _ => "2013-10-05 09:54:15.000")
         [record_of_line aligned_line] None [] DEFAULT_TELESCOPE
         DEFAULT_ASTROMETRIC_NETWORK = Ok header.
Proof.
  eexists. split; [vm_compute; reflexivity|].
  apply (make_tnodb_header_observers (fun _ => "2013-10-05 09:54:15.000")
           [record_of_line aligned_line] None ["M. T. Bannister"] DEFAULT_TELESCOPE
           DEFAULT_ASTROMETRIC_NETWORK).
  - vm_compute. reflexivity.
  - reflexivity.
Defined.

(** ** The file that the converter writes *)

Lemma substring_0_app (a b : string) : substring 0 (String.length a) (a +:+ b) = a.
Proof. induction a as [|c a IH]; simpl; [now destruct b | now rewrite IH]. Qed.

(** X20: without an [output], the converter writes to the name of its
    input cut at its last point, with [.tnodb] added: a point in a
    directory name counts when the file name has none, and an input name
    without any point gives the file [.tnodb]. *)
Theorem MPCConverter_output_name (stem extension : string) :
  Py.rfind "." extension = None ->
  MPCConverter.outfile (MPCConverter.__init__ (stem +:+ "." +:+ extension) None)
  = stem +:+ ".tnodb"
  /\ MPCConverter.outfile (MPCConverter.__init__ extension None) = ".tnodb".
Proof.
  intros Hext. unfold MPCConverter.__init__, MPCConverter.rpartition_head.
  cbn [MPCConverter.outfile]. split.
  - change ("." +:+ extension) with (String "." extension).
    rewrite (rfind_last "." stem extension Hext). unfold Py.slice.
    rewrite Nat.sub_0_r, substring_0_app. reflexivity.
  - rewrite Hext. reflexivity.
Qed.

Lemma MPCConverter_output_name_witness :
  MPCConverter.outfile (MPCConverter.__init__ ("data/run.2" +:+ "." +:+ "d/K13T01") None)
  = "data/run.2" +:+ ".tnodb"
  /\ MPCConverter.outfile (MPCConverter.__init__ "d/K13T01" None) = ".tnodb".
Proof.
  apply (MPCConverter_output_name "data/run.2" "d/K13T01"). reflexivity.
Defined.

(** ** The text of a record for the database *)

Lemma Observation_to_tnodb_spec (ext : Externals) (o : Observation.t) :
  Observation_to_tnodb ext o
  = (do line <- Observation.__str__ ext (tnodb_form o);
     Ok ("#" +:+ Py.rstrip_chars (String "010" "")
                   (Comment_str ext (Observation.comment o))
           +:+ String "010" "" +:+ line),
     tnodb_form o).
Proof.
  unfold Observation_to_tnodb, tnodb_form, mbind, mself, massign, mlift, mret.
  cbn [fst snd].
  destruct (Observation.mag o) as [m|]; [destruct (Qeq_bool m (-1))|];
    match goal with
    | |- context [Observation.__str__ ext ?r] => destruct (Observation.__str__ ext r)
    end; reflexivity.
Qed.

Lemma tnodb_form_twice (ext : Externals) (o : Observation.t) :
  Observation.__str__ ext (tnodb_form (tnodb_form o))
  = Observation.__str__ ext (tnodb_form o)
  /\ Observation.comment (tnodb_form o) = Observation.comment o
  /\ NullObservation.null_observation_character
       (Observation.null_observation (tnodb_form o)) = "-".
Proof.
  destruct o as [[nc nb] name di n1 n2 dt dp co rp dcp mg me mp bd oc cm].
  unfold tnodb_form, set_null_observation_character.
  destruct mg as [m|]; cbn [Observation.mag Observation._mag];
    [destruct (Qeq_bool m (-1)) eqn:Em|];
    cbn; rewrite ?Em; repeat split; reflexivity.
Qed.

(** X21: [to_tnodb] leaves the record as it printed it: the second line
    of its text is what [str] of the record gives from then on ('-' for
    a null observation, one decimal of magnitude), and a second call
    returns the same text. *)
Theorem Observation_to_tnodb_keeps_what_it_printed (ext : Externals)
  (o : Observation.t) (text : string) :
  (Observation_to_tnodb ext o).1 = Ok text ->
  let o' := (Observation_to_tnodb ext o).2 in
  (exists line,
     Observation.__str__ ext o' = Ok line
     /\ text = "#" +:+ Py.rstrip_chars (String "010" "")
                         (Comment_str ext (Observation.comment o))
                +:+ String "010" "" +:+ line)
  /\ NullObservation.null_observation_character (Observation.null_observation o') = "-"
  /\ (Observation_to_tnodb ext o').1 = Ok text.
Proof.
  cbv zeta. rewrite !Observation_to_tnodb_spec. cbn [fst snd]. intros H.
  destruct (tnodb_form_twice ext o) as (Hstr & Hcomment & Hnull).
  rewrite Hstr, Hcomment.
  destruct (Observation.__str__ ext (tnodb_form o)) as [line|e]; [|discriminate].
  cbn [Py.bind] in *. injection H as <-. split; [eauto|]. split; [exact Hnull | reflexivity].
Qed.

Lemma Observation_to_tnodb_keeps_what_it_printed_witness :
  let o := record_of_line null_discovery_line in
  let o' := (Observation_to_tnodb Exact.externals o).2 in
  exists text,
    (Observation_to_tnodb Exact.externals o).1 = Ok text
    /\ (exists line,
          Observation.__str__ Exact.externals o' = Ok line
          /\ text = "#" +:+ Py.rstrip_chars (String "010" "")
                              (Comment_str Exact.externals (Observation.comment o))
                     +:+ String "010" "" +:+ line)
    /\ NullObservation.null_observation_character (Observation.null_observation o') = "-"
    /\ (Observation_to_tnodb Exact.externals o').1 = Ok text.
Proof.
  intros o o'. eexists. split; [vm_compute; reflexivity|].
  apply (Observation_to_tnodb_keeps_what_it_printed Exact.externals o).
  vm_compute. reflexivity.
Defined.

(** ** The comment of the object database *)

Lemma substring_skip_plus (a b : string) (k m : nat) :
  substring (String.length a + k) m (a +:+ b) = substring k m b.
Proof. induction a as [|c a IH]; simpl; [reflexivity | exact IH]. Qed.

Lemma substring_after (a b : string) (n k m : nat) :
  String.length a = n -> substring (n + k) m (a +:+ b) = substring k m b.
Proof. intros <-. apply substring_skip_plus. Qed.

Lemma substring_first (a b : string) (n : nat) :
  String.length a = n -> substring 0 n (a +:+ b) = a.
Proof. intros <-. apply substring_0_app. Qed.

Lemma TNOdbComment_new_fields (ext : Externals) (index date flags : string)
  (version : string) (frame source_name : option string)
  (photometry_note mpc_note : string)
  (x y plate_uncertainty astrometric_level magnitude mag_uncertainty : PyVal)
  (comment : option string) (o : OSSOSComment.t) :
  TNOdbComment_new ext index date flags version frame source_name photometry_note
    mpc_note x y plate_uncertainty astrometric_level magnitude mag_uncertainty comment
  = Ok o ->
  OSSOSComment.index o = Some index
  /\ OSSOSComment.date o = Some date
  /\ OSSOSComment.flags o = Some flags
  /\ OSSOSComment.klass o = OSSOSComment.IsTNOdbComment
  /\ comment_in_range o.
Proof.
  unfold TNOdbComment_new. intros H. apply bind_Ok in H as (self & Hnew & H).
  injection H as <-. apply OSSOSComment_new_in_range in Hnew as [Hr Hk].
  repeat split; try reflexivity; [exact Hk | apply Hr | apply Hr].
Qed.

(** What [TNOdbComment.from_string] returns is a database comment with
    its index, date and flags from the columns 1 to 14, 16 to 23 and 25
    to 34 of the line. *)
Lemma TNOdbComment_from_string_fields (ext : Externals) (line : string) (c : Comment) :
  TNOdbComment_from_string ext line = Ok c ->
  exists o,
    c = CommentObj o
    /\ OSSOSComment.index o = Some (Py.strip (Py.slice 0 14 line))
    /\ OSSOSComment.date o = Some (Py.strip (Py.slice 15 23 line))
    /\ OSSOSComment.flags o = Some (Py.strip (Py.slice 24 34 line))
    /\ OSSOSComment.klass o = OSSOSComment.IsTNOdbComment
    /\ comment_in_range o.
Proof.
  unfold TNOdbComment_from_string. intros H.
  destruct (String.length line <? 56)%nat; [discriminate|].
  destruct (negb _); [discriminate|]. cbv zeta in H.
  apply bind_Ok in H as (co & _ & H).
  destruct co as [[s|oc]|]; apply bind_Ok in H as (o & Hnew & H); injection H as <-;
    exists o; (split; [reflexivity|]); eapply TNOdbComment_new_fields; exact Hnew.
Qed.

(** X22: [TNOdbComment.to_string] and [TNOdbComment.from_string] agree
    on the place of the three database fields: for a comment whose index
    is 14, date 8 and flags 10 characters long, none with blanks at its
    ends, what [from_string] makes of the text of [to_string] is a
    database comment with the same index, date and flags. *)
Theorem TNOdbComment_fields_round_trip (ext : Externals) (self : OSSOSComment.t)
  (index date flags : string) (c : Comment) :
  OSSOSComment.index self = Some index ->
  OSSOSComment.date self = Some date ->
  OSSOSComment.flags self = Some flags ->
  String.length index = 14%nat /\ Py.strip index = index ->
  String.length date = 8%nat /\ Py.strip date = date ->
  String.length flags = 10%nat /\ Py.strip flags = flags ->
  TNOdbComment_from_string ext (TNOdbComment_to_string ext self) = Ok c ->
  exists o,
    c = CommentObj o
    /\ OSSOSComment.index o = Some index
    /\ OSSOSComment.date o = Some date
    /\ OSSOSComment.flags o = Some flags
    /\ OSSOSComment.klass o = OSSOSComment.IsTNOdbComment.
Proof.
  intros Hi Hd Hf [Li Si] [Ld Sd] [Lf Sf] H.
  apply TNOdbComment_from_string_fields in H as (o & -> & Ei & Ed & Ef & Ek & _).
  exists o. split; [reflexivity|].
  unfold TNOdbComment_to_string, format_attribute in Ei, Ed, Ef.
  rewrite Hi, Hd, Hf in Ei, Ed, Ef. cbv zeta in Ei, Ed, Ef.
  change (default "None" (Some index)) with index in Ei, Ed, Ef.
  change (default "None" (Some date)) with date in Ei, Ed, Ef.
  change (default "None" (Some flags)) with flags in Ei, Ed, Ef.
  set (rest := Py.repeat_char " " 22 +:+ OSSOSComment.__str__ ext self) in *.
  assert (Hline : (((index +:+ " " +:+ date +:+ " " +:+ flags) +:+ Py.repeat_char " " 22)
                   +:+ OSSOSComment.__str__ ext self)
                  = index +:+ String " " (date +:+ String " " (flags +:+ rest))).
  { subst rest. rewrite !string_app_assoc. reflexivity. }
  rewrite Hline in Ei, Ed, Ef. clear Hline. unfold Py.slice in Ei, Ed, Ef.
  assert (E1 : substring 0 (14 - 0) (index +:+ String " " (date +:+ String " " (flags +:+ rest)))
               = index).
  { apply (substring_first _ _ 14 Li). }
  assert (E2 : substring 15 (23 - 15)
                 (index +:+ String " " (date +:+ String " " (flags +:+ rest))) = date).
  { change (substring (14 + 1) 8
              (index +:+ String " " (date +:+ String " " (flags +:+ rest))) = date).
    rewrite (substring_after index _ 14 1 8 Li).
    apply (substring_first _ _ 8 Ld). }
  assert (E3 : substring 24 (34 - 24)
                 (index +:+ String " " (date +:+ String " " (flags +:+ rest))) = flags).
  { change (substring (14 + 10) 10
              (index +:+ String " " (date +:+ String " " (flags +:+ rest))) = flags).
    rewrite (substring_after index _ 14 10 10 Li).
    change (substring (8 + 1) 10 (date +:+ String " " (flags +:+ rest)) = flags).
    rewrite (substring_after date _ 8 1 10 Ld).
    apply (substring_first _ _ 10 Lf). }
  rewrite E1, Si in Ei. rewrite E2, Sd in Ed. rewrite E3, Sf in Ef. auto.
Qed.

Lemma TNOdbComment_fields_round_trip_witness :
  exists o,
    TNOdbComment_from_string Exact.externals
      (TNOdbComment_to_string Exact.externals (tnodb_comment_of tnodb_text_line))
    = Ok (CommentObj o)
    /\ OSSOSComment.index o = Some "20130405_abc_d"
    /\ OSSOSComment.date o = Some "20130405"
    /\ OSSOSComment.flags o = Some "1000000000".
Proof.
  destruct (TNOdbComment_fields_round_trip Exact.externals
              (tnodb_comment_of tnodb_text_line)
              "20130405_abc_d" "20130405" "1000000000"
              (CommentObj (tnodb_comment_of tnodb_text_line)))
    as (o & Ho & Hi & Hd & Hf & _).
  - vm_compute. reflexivity.
  - vm_compute. reflexivity.
  - vm_compute. reflexivity.
  - split; vm_compute; reflexivity.
  - split; vm_compute; reflexivity.
  - split; vm_compute; reflexivity.
  - vm_compute. reflexivity.
  - exists o. split; [|auto]. rewrite <- Ho. vm_compute. reflexivity.
Defined.

(** ** The dispatcher, on every line *)

(** X23: every comment object that [MPCComment.from_string] returns,
    whichever variant made it, has an astrometric level between 0 and 9
    and a plate uncertainty that, when it is set, lies strictly between 0
    and 100. *)
Theorem MPCComment_from_string_keeps_the_ranges (ext : Externals) (line : string)
  (o : OSSOSComment.t) :
  MPCComment_from_string ext line = Ok (CommentObj o) ->
  match OSSOSComment._plate_uncertainty o with
  | Some p => (0 < p /\ p < 100)%Q
  | None => True
  end
  /\ (0 <= OSSOSComment._astrometric_level o <= 9)%Z.
Proof.
  intros H.
  assert (Hrange : comment_in_range o).
  { unfold MPCComment_from_string in H.
    apply first_parse_Ok in H as [[=]|(func & Hin & Hf)].
    cbn [In] in Hin. destruct Hin as [<-|[<-|[<-|[<-|[<-|[]]]]]].
    - apply TNOdbComment_from_string_fields in Hf as (o' & [= <-] & _ & _ & _ & _ & Hr).
      exact Hr.
    - now apply OSSOSComment_from_string_in_range in Hf.
    - unfold RealOSSOSComment_from_string in Hf. apply bind_Ok in Hf as (c0 & _ & Hf).
      now apply OSSOSComment_from_string_in_range in Hf.
    - now apply CFEPSComment_from_string_in_range in Hf.
    - discriminate. }
  destruct Hrange as [Hp Hl]. split.
  - destruct (OSSOSComment._plate_uncertainty o); [now apply in_open_spec | exact I].
  - apply andb_true_iff in Hl as [H1 H2]. apply Z.ltb_lt in H1, H2. lia.
Qed.

Lemma MPCComment_from_string_keeps_the_ranges_witness :
  let o := tnodb_comment_of tnodb_text_line in
  match OSSOSComment._plate_uncertainty o with
  | Some p => (0 < p /\ p < 100)%Q
  | None => True
  end
  /\ (0 <= OSSOSComment._astrometric_level o <= 9)%Z.
Proof.
  apply (MPCComment_from_string_keeps_the_ranges Exact.externals tnodb_text_line).
  vm_compute. reflexivity.
Defined.

(** X24: on a line with the layout of the object database (56 columns
    at least, an index like [20130405_abc_d] at its start) the dispatcher
    answers what [TNOdbComment.from_string] answers and asks no other
    variant: its result is a database comment, or an exception that is no
    [ValueError]; the line never comes back as a plain text or as a
    comment of another kind. *)
Theorem MPCComment_from_string_database_layout (ext : Externals) (line : string) :
  (56 <= String.length line)%nat ->
  PyOps.re_match tnodb_index_pattern (Py.strip (Py.slice 0 14 line)) = true ->
  MPCComment_from_string ext line = TNOdbComment_from_string ext line
  /\ match MPCComment_from_string ext line with
     | Ok c => isinstance_TNOdbComment c = true
     | Raise e => is_ValueError e = false
     end.
Proof.
  intros Hlen Hidx. apply Nat.ltb_ge in Hlen.
  rewrite (MPCComment_from_string_tnodb_first ext line Hlen Hidx).
  split; [reflexivity | exact (TNOdbComment_from_string_layout ext line Hlen Hidx)].
Qed.

Lemma MPCComment_from_string_database_layout_witness :
  MPCComment_from_string Exact.externals tnodb_text_line
  = TNOdbComment_from_string Exact.externals tnodb_text_line
  /\ match MPCComment_from_string Exact.externals tnodb_text_line with
     | Ok c => isinstance_TNOdbComment c = true
     | Raise e => is_ValueError e = false
     end.
Proof.
  apply (MPCComment_from_string_database_layout Exact.externals tnodb_text_line).
  - vm_compute. lia.
  - vm_compute. reflexivity.
Defined.

(** ** Comments that the parsers do not survive *)

Lemma unpack_ossos_wrong_length (s : string) :
  String.length s <> 62%nat ->
  Py.unpack OSSOSComment.ossos_comment_format s = Raise StructError.
Proof.
  intros H. unfold Py.unpack.
  set (items := Py.struct_format OSSOSComment.ossos_comment_format).
  vm_compute in items. subst items. change (Py.calcsize _) with 62%nat.
  apply Nat.eqb_neq in H. rewrite H. reflexivity.
Qed.

(** X25: the space-separated layout of a survey comment is refused with
    [IndexError] when it has exactly five words: [from_string] checks for
    less than five and then reads the sixth. The exception is no
    [ValueError], so it also leaves the dispatcher when the database
    variant has refused the line. *)
Theorem OSSOSComment_from_string_five_words (ext : Externals)
  (comment : string) (c0 : ascii)
  (v0 : string) (rest : list string) (frame source_name x : string)
  (photometry_note : ascii) (mpc_note : string) :
  Py.index comment 0 = Ok c0 ->
  Ascii.eqb c0 "#" = false ->
  Py.split_on "%" comment = v0 :: rest ->
  String.length v0 <> 62%nat ->
  Py.split v0 = ["O"; frame; source_name; String photometry_note mpc_note; x] ->
  (forall cls, OSSOSComment_from_string ext cls comment = Raise IndexError)
  /\ (TNOdbComment_from_string ext comment = Raise ValueError ->
      MPCComment_from_string ext comment = Raise IndexError).
Proof.
  intros Hc0 Hhash Hsplit Hlen Hwords.
  assert (H : forall cls, OSSOSComment_from_string ext cls comment = Raise IndexError).
  { intros cls. unfold OSSOSComment_from_string.
    destruct comment as [|a comment']; [discriminate Hc0|].
    cbn [String.length Nat.eqb]. rewrite Hc0. cbn [Py.bind]. rewrite Hhash.
    cbv zeta. rewrite Hsplit. cbn [Py.list_index nth_error Py.bind].
    rewrite (unpack_ossos_wrong_length v0 Hlen). cbn [Py.bind Py.try_except].
    rewrite Hwords. reflexivity. }
  split; [exact H|]. intros Htno.
  unfold MPCComment_from_string. cbn [first_parse]. rewrite Htno, H. reflexivity.
Qed.

Lemma OSSOSComment_from_string_five_words_witness :
  OSSOSComment_from_string Exact.externals OSSOSComment.IsOSSOSComment
    "O 1631355p21 O13AE2O Y 1632.20" = Raise IndexError
  /\ MPCComment_from_string Exact.externals "O 1631355p21 O13AE2O Y 1632.20"
     = Raise IndexError.
Proof.
  destruct (OSSOSComment_from_string_five_words Exact.externals
              "O 1631355p21 O13AE2O Y 1632.20" "O" "O 1631355p21 O13AE2O Y 1632.20" []
              "1631355p21" "O13AE2O" "1632.20" "Y" "") as [H1 H2].
  - reflexivity.
  - reflexivity.
  - reflexivity.
  - vm_compute. lia.
  - reflexivity.
  - split; [apply H1 | apply H2; reflexivity].
Defined.

Lemma lstrip_by_all_true (p : ascii -> bool) (s : string) :
  forallb p (list_ascii_of_string s) = true -> Py.lstrip_by p s = "".
Proof.
  induction s as [|c s IH]; simpl; [reflexivity|].
  intros H. apply andb_true_iff in H as [Hc Hs]. rewrite Hc. auto.
Qed.

Lemma strip_all_space (s : string) :
  forallb Py.is_space (list_ascii_of_string s) = true -> Py.strip s = "".
Proof.
  intros H. unfold Py.strip, Py.strip_by. now rewrite lstrip_by_all_true.
Qed.

Lemma forallb_substring (p : ascii -> bool) (n m : nat) (s : string) :
  forallb p (list_ascii_of_string s) = true ->
  forallb p (list_ascii_of_string (substring n m s)) = true.
Proof.
  revert n m. induction s as [|c s IH]; intros n m H.
  - destruct n, m; reflexivity.
  - simpl in H. apply andb_true_iff in H as [Hc Hs].
    destruct n as [|n]; [destruct m as [|m]|]; simpl; [reflexivity | | auto].
    rewrite Hc. simpl. apply (IH 0%nat m Hs).
Qed.

Lemma split_all_space (l : list ascii) :
  forallb Py.is_space l = true ->
  filter (fun w => Py.nonempty w = true) (Py.split_by Py.is_space [] l) = [].
Proof.
  induction l as [|c l IH]; intros H.
  - reflexivity.
  - simpl in H. apply andb_true_iff in H as [Hc Hl]. cbn [Py.split_by]. rewrite Hc.
    cbn [rev string_of_list_ascii]. rewrite filter_cons_False by (cbn; discriminate).
    auto.
Qed.

Lemma split_on_absent (sep : ascii) (l acc : list ascii) :
  forallb (fun a => negb (Py.is_char sep a)) l = true ->
  Py.split_by (Py.is_char sep) acc l = [string_of_list_ascii (rev acc ++ l)].
Proof.
  revert acc. induction l as [|c l IH]; intros acc H.
  - cbn [Py.split_by]. now rewrite app_nil_r.
  - simpl in H. apply andb_true_iff in H as [Hc Hl]. cbn [Py.split_by].
    apply negb_true_iff in Hc. rewrite Hc, (IH _ Hl). cbn [rev].
    now rewrite <- app_assoc.
Qed.

(** The dispatcher on a comment of white space: the database variant
    refuses it, the survey variant reads the first of no words. *)
Lemma white_space_comment_raises (ext : Externals) (comment : string) :
  comment <> "" ->
  forallb Py.is_space (list_ascii_of_string comment) = true ->
  MPCComment_from_string ext comment = Raise IndexError.
Proof.
  intros Hne Hspace.
  assert (Htno : TNOdbComment_from_string ext comment = Raise ValueError).
  { unfold TNOdbComment_from_string.
    destruct (String.length comment <? 56)%nat; [reflexivity|].
    rewrite strip_all_space by (apply forallb_substring, Hspace). reflexivity. }
  assert (Hossos : OSSOSComment_from_string ext OSSOSComment.IsOSSOSComment comment
                   = Raise IndexError).
  { unfold OSSOSComment_from_string.
    destruct comment as [|c0 tail] eqn:Ec; [contradiction|]. rewrite <- Ec in *.
    assert (Hc0 : Py.index comment 0 = Ok c0) by (rewrite Ec; reflexivity).
    assert (Hhash : Ascii.eqb c0 "#" = false).
    { rewrite Ec in Hspace. simpl in Hspace. apply andb_true_iff in Hspace as [Hc _].
      destruct (Ascii.eqb_spec c0 "#") as [->|]; [discriminate Hc | reflexivity]. }
    assert (Hlen : (String.length comment =? 0)%nat = false) by (rewrite Ec; reflexivity).
    rewrite Hlen, Hc0. cbn [Py.bind]. rewrite Hhash. cbv zeta.
    assert (Hvalues : Py.split_on "%" comment = [comment]).
    { unfold Py.split_on. rewrite split_on_absent.
      - cbn [rev app]. now rewrite string_of_list_ascii_of_string.
      - rewrite forallb_forall in Hspace |- *. intros a Ha. specialize (Hspace a Ha).
        unfold Py.is_char. destruct (Ascii.eqb_spec a "%") as [->|]; [discriminate Hspace|].
        reflexivity. }
    rewrite Hvalues. cbn [Py.list_index nth_error Py.bind].
    assert (Hwords : Py.split comment = []).
    { unfold Py.split. now apply split_all_space. }
    rewrite Hwords.
    destruct (Py.unpack OSSOSComment.ossos_comment_format comment) as [fields|e] eqn:Hu;
      cbn [Py.bind Py.try_except]; [|reflexivity].
    apply unpack_ossos_comment_format in Hu
      as (f1 & f2 & f3 & f4 & f5 & f6 & f7 & f8 & f9 & f10 & f11 & ->).
    destruct (OSSOSComment.new ext _ _ _ _ _ _ _ _ _ _ _ _ _); reflexivity. }
  unfold MPCComment_from_string. cbn [first_parse]. rewrite Htno, Hossos. reflexivity.
Qed.

(** X26: a comment that is not empty and holds nothing but white space
    makes the dispatcher raise [IndexError]: the database variant refuses
    it with [ValueError], the survey variant then splits it into no words
    and reads the first. *)
Theorem MPCComment_from_string_white_space (ext : Externals) (comment : string) :
  comment <> "" ->
  forallb Py.is_space (list_ascii_of_string comment) = true ->
  MPCComment_from_string ext comment = Raise IndexError.
Proof. exact (white_space_comment_raises ext comment). Qed.

Lemma MPCComment_from_string_white_space_witness :
  MPCComment_from_string Exact.externals sixty_two_blanks = Raise IndexError.
Proof.
  apply (MPCComment_from_string_white_space Exact.externals sixty_two_blanks).
  - discriminate.
  - reflexivity.
Defined.

Lemma substring_nothing (n : nat) (s : string) : substring n 0 s = "".
Proof. revert s. induction n as [|n IH]; intros [|c s]; simpl; auto. Qed.

Lemma substring_whole (s : string) : substring 0 (String.length s) s = s.
Proof. induction s as [|c s IH]; simpl; [reflexivity | now rewrite IH]. Qed.

Lemma lstrip_by_same_length (p : ascii -> bool) (s : string) :
  String.length (Py.lstrip_by p s) = String.length s -> Py.lstrip_by p s = s.
Proof.
  destruct s as [|c s]; simpl; [reflexivity|]. destruct (p c); [|reflexivity].
  intros H. pose proof (length_lstrip_by p s). lia.
Qed.

Lemma strip_by_same_length (p : ascii -> bool) (s : string) :
  String.length (Py.strip_by p s) = String.length s -> Py.strip_by p s = s.
Proof.
  unfold Py.strip_by, Py.rstrip_by. rewrite length_rev_string. intros H.
  pose proof (length_lstrip_by p (Py.rev_string (Py.lstrip_by p s))) as H1.
  pose proof (length_lstrip_by p s) as H2. rewrite length_rev_string in H1.
  rewrite (lstrip_by_same_length p (Py.rev_string (Py.lstrip_by p s)))
    by (rewrite length_rev_string; lia).
  rewrite rev_string_involutive. apply lstrip_by_same_length. lia.
Qed.

(** X27: a line with white space, and nothing else, after column 81 is
    never read: [from_string] raises, and the exception is the
    [IndexError] of the comment parser whenever the first 80 columns
    alone are read as an observation. *)
Theorem from_string_blanks_after_column_81 (ext : Externals) (input_line : string) :
  let mpc_line := Py.strip_chars (String "010" "") input_line in
  String.prefix "#" mpc_line = false ->
  Py.slice_from 81 mpc_line <> "" ->
  forallb Py.is_space (list_ascii_of_string (Py.slice_from 81 mpc_line)) = true ->
  (exists e, Observation.from_string ext input_line = Raise e)
  /\ (forall o,
        Observation.from_string ext (Py.slice 0 80 mpc_line)
        = Ok (Observation.ObservationRecord o) ->
        Observation.from_string ext input_line = Raise IndexError).
Proof.
  intros mpc_line Hhash Hne Hspace.
  pose proof (white_space_comment_raises ext _ Hne Hspace) as Hcomment.
  assert (Hlen : String.length (Py.slice 0 80 mpc_line) = 80%nat).
  { unfold Py.slice. rewrite length_substring_0.
    destruct (le_lt_dec (String.length mpc_line) 81) as [Hle|Hlt]; [|lia].
    exfalso. apply Hne. unfold Py.slice_from.
    replace (String.length mpc_line - 81)%nat with 0%nat by lia.
    apply substring_nothing. }
  assert (Hfrom : Observation.from_string ext input_line
                  = do obsrec <- construct (Observation.__init__ ext
                       (substring 0 1 (Py.slice 0 80 mpc_line))
                       (substring 1 11 (Py.slice 0 80 mpc_line))
                       (substring 12 1 (Py.slice 0 80 mpc_line))
                       (substring 13 1 (Py.slice 0 80 mpc_line))
                       (substring 14 1 (Py.slice 0 80 mpc_line))
                       (substring 15 17 (Py.slice 0 80 mpc_line))
                       (substring 32 12 (Py.slice 0 80 mpc_line))
                       (substring 44 12 (Py.slice 0 80 mpc_line))
                       (substring 65 5 (Py.slice 0 80 mpc_line))
                       (substring 70 1 (Py.slice 0 80 mpc_line))
                       (substring 77 3 (Py.slice 0 80 mpc_line))) Observation.blank;
                    Raise IndexError).
  { unfold Observation.from_string. fold mpc_line. rewrite Hhash, andb_false_r.
    cbv zeta. rewrite Hlen. cbn [Nat.eqb negb]. rewrite (unpack_mpc_format _ Hlen).
    cbn [Py.bind]. destruct (construct _ Observation.blank); [|reflexivity].
    cbn [Py.bind]. rewrite Hcomment. reflexivity. }
  split.
  - rewrite Hfrom. destruct (construct _ Observation.blank) as [rec0|e]; cbn [Py.bind]; eauto.
  - intros o Ho. apply from_string_record in Ho as (L & rec0 & _ & _ & Hrec & _).
    cbv zeta in L, Hrec.
    assert (Hsame : Py.slice 0 80 (Py.strip_chars (String "010" "") (Py.slice 0 80 mpc_line))
                    = Py.slice 0 80 mpc_line).
    { assert (Hstrip : Py.strip_chars (String "010" "") (Py.slice 0 80 mpc_line)
                       = Py.slice 0 80 mpc_line).
      { apply strip_by_same_length.
        pose proof (length_strip_by (Py.char_in (String "010" "")) (Py.slice 0 80 mpc_line)) as H1.
        unfold Py.slice at 1 in L. rewrite length_substring_0 in L.
        unfold Py.strip_chars in L. lia. }
      rewrite Hstrip. unfold Py.slice at 1. rewrite <- Hlen at 1.
      rewrite Nat.sub_0_r. apply substring_whole. }
    rewrite Hsame in Hrec. rewrite Hfrom, Hrec. reflexivity.
Qed.

Lemma from_string_blanks_after_column_81_witness :
  (exists e, Observation.from_string Exact.externals padded_line = Raise e)
  /\ Observation.from_string Exact.externals padded_line = Raise IndexError.
Proof.
  destruct (from_string_blanks_after_column_81 Exact.externals padded_line) as [H1 H2].
  - reflexivity.
  - discriminate.
  - reflexivity.
  - split; [exact H1|]. apply (H2 (record_of_line aligned_line)).
    vm_compute. reflexivity.
Defined.
